(** * mcaplog: a shallow embedding of [servo-test/mcaplog.py]

    The module multiplexes telemetry to a console logger, an MCAP file
    ([MCAPLogger]) and a Foxglove websocket server running on a worker
    thread ([FoxgloveWebsocketLogger]); [Logger] fans out to the three of
    them and a module-level variable holds the process-wide instance.

    Python objects are mutable: every method below takes the object's state
    and returns the outcome of the call together with the state it leaves
    behind.  An outcome is a value or a raised exception. *)

From Stdlib Require Import ZArith Lia Bool List.
From Stdlib Require Import SpecFloat.
From stdpp Require Import gmap strings list pretty.

Local Open Scope Z_scope.

(** ** Exceptions and outcomes *)

Inductive exn : Type :=
| AssertionError (msg : string)
| TypeError (msg : string)
| ValueError (msg : string)
| OverflowError (msg : string)
| OSError (msg : string)
| TimeoutError
| KeyboardInterrupt.

(** [isinstance(e, Exception)]: what [except Exception] catches.
    [KeyboardInterrupt] derives from [BaseException] only. *)
Definition is_Exception (e : exn) : bool :=
  match e with KeyboardInterrupt => false | _ => true end.

Inductive result (A : Type) : Type :=
| Ok (a : A)
| Raise (e : exn).

Arguments Ok {A} a.
Arguments Raise {A} e.

(** ** Level *)

Inductive Level : Type := UNKNOWN | DEBUG | INFO | WARNING | ERROR | FATAL.

(** [Level] is an [IntEnum]: [int(level)]. *)
Definition int_of_Level (l : Level) : Z :=
  match l with
  | UNKNOWN => 0 | DEBUG => 1 | INFO => 2
  | WARNING => 3 | ERROR => 4 | FATAL => 5
  end.

(** The constants of the [logging] module. *)
Definition logging_NOTSET : Z := 0.
Definition logging_DEBUG : Z := 10.
Definition logging_INFO : Z := 20.
Definition logging_WARNING : Z := 30.
Definition logging_ERROR : Z := 40.
Definition logging_CRITICAL : Z := 50.

(** [pylog_level] compares with [==], so it accepts any integer and raises
    on the ones that are no level. *)
Definition pylog_level (level : Z) : result Z :=
  if level =? int_of_Level UNKNOWN then Ok logging_NOTSET
  else if level =? int_of_Level DEBUG then Ok logging_DEBUG
  else if level =? int_of_Level INFO then Ok logging_INFO
  else if level =? int_of_Level WARNING then Ok logging_WARNING
  else if level =? int_of_Level ERROR then Ok logging_ERROR
  else if level =? int_of_Level FATAL then Ok logging_CRITICAL
  else Raise (ValueError "Unknown log level").

Definition FOXGLOVE_LOG_TOPIC : string := "`/log`".
Definition FOXGLOVE_LOG_MSG_TYPE : string := "foxglove.Log".
(** The JSON schema text is opaque to the logger; only its identity matters. *)
Definition FOXGLOVE_LOGM_SG_SCHEMA : string := "{title: foxglove.Log, type: object}".

(** ** Python floats and numbers

    A Python [float] is an IEEE 754 binary64 number: [spec_float] with
    [prec = 53] and [emax = 1024]. *)

Module Float.

Definition prec : Z := 53.
Definition emax : Z := 1024.

Definition valid (x : spec_float) : bool := valid_binary prec emax x.

Definition mul : spec_float -> spec_float -> spec_float := SFmul prec emax.
Definition add : spec_float -> spec_float -> spec_float := SFadd prec emax.
Definition sub : spec_float -> spec_float -> spec_float := SFsub prec emax.
Definition div : spec_float -> spec_float -> spec_float := SFdiv prec emax.

Definition zero : spec_float := S754_zero false.
Definition one : spec_float := SFone prec emax.
Definition half : spec_float := S754_finite false 4503599627370496 (-53).

(** [float(n)] for an integer within range: rounded to nearest even. *)
Definition of_Z (n : Z) : spec_float := binary_normalize prec emax n 0 false.

Definition is_finite (x : spec_float) : bool :=
  match x with
  | S754_zero _ | S754_finite _ _ _ => true
  | _ => false
  end.

Definition sign_bit (x : spec_float) : bool :=
  match x with
  | S754_zero s | S754_infinity s | S754_finite s _ _ => s
  | S754_nan => false
  end.

(** C's [copysign(0.0, x)]. *)
Definition copysign_zero (x : spec_float) : spec_float := S754_zero (sign_bit x).

(** Truthiness of a float: [x != 0.0]. *)
Definition nonzero (x : spec_float) : bool :=
  match x with S754_zero _ => false | _ => true end.

Definition ltb : spec_float -> spec_float -> bool := SFltb.

(** The integer part of a finite float, rounded toward zero. *)
Definition trunc_mag (m : positive) (e : Z) : Z :=
  match e with
  | Z0 => Zpos m
  | Zpos p => Zpos m * 2 ^ Zpos p
  | Zneg p => Zpos m / 2 ^ Zpos p
  end.

(** [int(x)]. *)
Definition to_int (x : spec_float) : result Z :=
  match x with
  | S754_nan => Raise (ValueError "cannot convert float NaN to integer")
  | S754_infinity _ => Raise (OverflowError "cannot convert float infinity to integer")
  | S754_zero _ => Ok 0
  | S754_finite s m e => Ok (cond_Zopp s (trunc_mag m e))
  end.

(** C's [floor] on a double. *)
Definition floor (x : spec_float) : spec_float :=
  match x with
  | S754_finite s m e =>
      match e with
      | Zneg p =>
          let q := Zpos m / 2 ^ Zpos p in
          let r := Zpos m mod 2 ^ Zpos p in
          if s then binary_normalize prec emax (- (if r =? 0 then q else q + 1)) 0 true
          else binary_normalize prec emax q 0 false
      | _ => x
      end
  | _ => x
  end.

(** C's [fmod]: the exact remainder of the truncated division, with the
    sign of the dividend. *)
Definition fmod (x y : spec_float) : spec_float :=
  match x, y with
  | S754_nan, _ | _, S754_nan => S754_nan
  | S754_infinity _, _ => S754_nan
  | _, S754_zero _ => S754_nan
  | S754_zero _, _ => x
  | S754_finite _ _ _, S754_infinity _ => x
  | S754_finite sx mx ex, S754_finite sy my ey =>
      let ez := Z.min ex ey in
      let a := Zpos (fst (shl_align mx ex ez)) in
      let b := Zpos (fst (shl_align my ey ez)) in
      binary_normalize prec emax (cond_Zopp sx (a mod b)) ez sx
  end.

(** CPython's [float_rem], the [%] of two floats with a non-zero divisor. *)
Definition rem (vx wx : spec_float) : spec_float :=
  let md := fmod vx wx in
  if nonzero md then
    if negb (Bool.eqb (ltb wx zero) (ltb md zero)) then add md wx else md
  else copysign_zero wx.

(** CPython's [_float_div_mod], used by [//] on two floats with a non-zero
    divisor: the floor quotient. *)
Definition floordiv (vx wx : spec_float) : spec_float :=
  let md := fmod vx wx in
  let dv := div (sub vx md) wx in
  let dv := if nonzero md && negb (Bool.eqb (ltb wx zero) (ltb md zero))
            then sub dv one else dv in
  if nonzero dv then
    let fl := floor dv in
    if ltb half (sub dv fl) then add fl one else fl
  else copysign_zero (div vx wx).

(** The exact value of a finite float is [num / 2 ^ scale]. *)
Definition num (x : spec_float) : Z :=
  match x with
  | S754_finite s m (Zpos p) => cond_Zopp s (Zpos m * 2 ^ Zpos p)
  | S754_finite s m _ => cond_Zopp s (Zpos m)
  | _ => 0
  end.

Definition scale (x : spec_float) : Z :=
  match x with
  | S754_finite _ _ (Zneg p) => Zpos p
  | _ => 0
  end.

End Float.

(** A number as Python passes it around: an [int] or a [float]. *)
Inductive pynum : Type :=
| PyInt (z : Z)
| PyFloat (f : spec_float).

(** [a == b] on numbers: Python compares an [int] with a [float] by their
    exact values. *)
Definition pynum_eqb (a b : pynum) : bool :=
  match a, b with
  | PyInt x, PyInt y => x =? y
  | PyFloat x, PyFloat y => SFeqb x y
  | PyInt z, PyFloat f | PyFloat f, PyInt z =>
      Float.is_finite f && (Float.num f =? z * 2 ^ Float.scale f)
  end.

(** ** Time conversions *)

Definition NANO : Z := 1000000000.

Definition NANO_float : spec_float := Eval vm_compute in Float.of_Z NANO.

(** [to_ns]: [int(t * NANO)]. *)
Definition to_ns (t : spec_float) : result Z :=
  Float.to_int (Float.mul t NANO_float).

(** [to_stamp]: [(t // NANO, t % NANO)]; the operators dispatch on the
    run-time type of [t]. *)
Definition to_stamp (t : pynum) : pynum * pynum :=
  match t with
  | PyInt n => (PyInt (n / NANO), PyInt (n mod NANO))
  | PyFloat f => (PyFloat (Float.floordiv f NANO_float), PyFloat (Float.rem f NANO_float))
  end.

(** ** Calls on mutable objects

    [M S A] is a call on an object of state [S] that returns an [A] or
    raises; either way the object keeps what the call did to it. *)

Definition M (S A : Type) : Type := S -> result A * S.

Definition ret {S A} (a : A) : M S A := fun s => (Ok a, s).

Definition raise {S A} (e : exn) : M S A := fun s => (Raise e, s).

Definition bind {S A B} (m : M S A) (k : A -> M S B) : M S B :=
  fun s =>
    match m s with
    | (Ok a, s') => k a s'
    | (Raise e, s') => (Raise e, s')
    end.

Notation "'let*' x ':=' m 'in' k" := (bind m (fun x => k))
  (at level 10, x pattern, m at level 100, k at level 200).

(** [assert cond, msg]. *)
Definition assert {S} (cond : bool) (msg : string) : M S unit :=
  if cond then ret tt else raise (AssertionError msg).

(** A pure computation that may raise, run inside a call. *)
Definition lift {S A} (r : result A) : M S A :=
  match r with Ok a => ret a | Raise e => raise e end.

(** ** Payloads *)

(** What producers hand to [publish]: a string, an instance of a pydantic
    model (with its class name, its JSON schema and its JSON dump), or an
    object of any other class. *)
Inductive pyobj : Type :=
| PyStr (s : string)
| PyModel (cls schema json : string)
| PyObject (cls : string).

(** [type(obj).__name__] *)
Definition class_name (obj : pyobj) : string :=
  match obj with
  | PyStr _ => "str"
  | PyModel cls _ _ => cls
  | PyObject cls => cls
  end.

(** [issubclass(type(obj), BaseModel)] *)
Definition is_BaseModel (obj : pyobj) : bool :=
  match obj with PyModel _ _ _ => true | _ => false end.

(** [isinstance(obj, str)] *)
Definition is_str (obj : pyobj) : bool :=
  match obj with PyStr _ => true | _ => false end.

Definition str_value (obj : pyobj) : string :=
  match obj with PyStr s => s | _ => "" end.

Definition model_schema (obj : pyobj) : string :=
  match obj with PyModel _ schema _ => schema | _ => "" end.

Definition model_json (obj : pyobj) : string :=
  match obj with PyModel _ _ json => json | _ => "" end.

(** The dictionary of a [foxglove.Log] record, before [json.dumps]. *)
Record LogBody : Type := {
  body_sec : pynum;
  body_nsec : pynum;
  body_level : Z;
  body_message : string;
  body_name : string;
  body_file : string;
  body_line : Z
}.

(** The bytes handed to a sink: the dump of a log dictionary or of a model. *)
Inductive payload : Type :=
| LogJson (body : LogBody)
| ModelJson (json : string).

Record Registration : Type := {
  name : string;
  channel_id : Z
}.

(** What the [logging] logger of an object was asked to print. *)
Inductive console_call : Type :=
| ConsoleRegistered (channel_id : Z) (topic_name type_name : string)
| ConsoleLog (pylevel : Z) (stamp : spec_float) (msg : string).

Definition conflict_message (topic_name cached_name : string) : string :=
  "Topic " +:+ topic_name +:+ " registered with " +:+ cached_name.

(** ** The MCAP writer

    [mcap.writer.Writer] is an external library: the logger only relies on
    the interface below.  [writer_open path compress] stands for
    [Writer(open(path, "wb"), compression=...)] followed by [start()]. *)

Class Writer (W : Type) : Type := {
  writer_open : string -> bool -> result W;
  register_schema : string -> string -> string -> M W Z;
  register_channel : Z -> string -> string -> M W Z;
  add_message : Z -> Z -> payload -> Z -> M W unit;
  finish : M W unit
}.

(** The calls a logger has made on its writer, oldest first. *)
Inductive writer_call : Type :=
| CallRegisterSchema (name encoding data : string)
| CallRegisterChannel (schema_id : Z) (topic message_encoding : string)
| CallAddMessage (channel_id log_time : Z) (data : payload) (publish_time : Z)
| CallFinish.

Definition is_finish_call (c : writer_call) : bool :=
  match c with CallFinish => true | _ => false end.

(** ** MCAPLogger *)

Module MCAPLogger.
Section WithWriter.

Context {W : Type} `{Writer W}.

Record t : Type := {
  _pylog : list console_call;
  _writer : W;
  writer_calls : list writer_call;
  _topic_to_registration : gmap string Registration;
  registration_log : Registration
}.

(** A call on [self._writer], noted in [writer_calls]. *)
Definition on_writer {A} (c : writer_call) (m : M W A) : M t A :=
  fun self =>
    let (r, w) := m (_writer self) in
    (r, {| _pylog := _pylog self;
           _writer := w;
           writer_calls := writer_calls self ++ [c];
           _topic_to_registration := _topic_to_registration self;
           registration_log := registration_log self |}).

Definition pylog_debug (c : console_call) : M t unit :=
  fun self =>
    (Ok tt, {| _pylog := _pylog self ++ [c];
               _writer := _writer self;
               writer_calls := writer_calls self;
               _topic_to_registration := _topic_to_registration self;
               registration_log := registration_log self |}).

Definition cache_registration (topic_name : string) (r : Registration) : M t unit :=
  fun self =>
    (Ok tt, {| _pylog := _pylog self;
               _writer := _writer self;
               writer_calls := writer_calls self;
               _topic_to_registration := <[topic_name := r]> (_topic_to_registration self);
               registration_log := registration_log self |}).

Definition _register (topic_name type_name schema : string) : M t Registration :=
  fun self =>
    match _topic_to_registration self !! topic_name with
    | Some cached =>
        (let* _ := assert (String.eqb cached.(name) type_name)
                          (conflict_message topic_name cached.(name)) in
         ret cached) self
    | None =>
        (let* schema_id :=
           on_writer (CallRegisterSchema type_name "jsonschema" schema)
                     (register_schema type_name "jsonschema" schema) in
         let* channel_id :=
           on_writer (CallRegisterChannel schema_id topic_name "json")
                     (register_channel schema_id topic_name "json") in
         let cached := {| name := type_name; channel_id := channel_id |} in
         let* _ := cache_registration topic_name cached in
         let* _ := pylog_debug (ConsoleRegistered channel_id topic_name type_name) in
         ret cached) self
    end.

(** The assertion message is a plain string in the source, not an
    f-string. *)
Definition _register_class (topic_name : string) (obj : pyobj) : M t Registration :=
  let type_name := class_name obj in
  let* _ := assert (is_BaseModel obj) "Required pydantic model, but got {name}" in
  _register topic_name type_name (model_schema obj).

Definition publish (topic_name : string) (obj : pyobj) (stamp : spec_float) : M t unit :=
  let* registation := _register_class topic_name obj in
  let* log_time := lift (to_ns stamp) in
  let data := ModelJson (model_json obj) in
  on_writer (CallAddMessage registation.(channel_id) log_time data log_time)
            (add_message registation.(channel_id) log_time data log_time).

(** The dictionary [log] dumps. *)
Definition log_body (msg : string) (stamp : spec_float) (level : Level) : LogBody :=
  let '(sec, nsec) := to_stamp (PyFloat stamp) in
  {| body_sec := sec; body_nsec := nsec;
     body_level := int_of_Level level;
     body_message := msg;
     body_name := "cartpole";
     body_file := "/dev/null";
     body_line := 0 |}.

Definition log (msg : string) (stamp : spec_float) (level : Level) : M t unit :=
  fun self =>
    (let* stamp_ns := lift (to_ns stamp) in
     let obj := log_body msg stamp level in
     let ch := (registration_log self).(channel_id) in
     on_writer (CallAddMessage ch stamp_ns (LogJson obj) stamp_ns)
               (add_message ch stamp_ns (LogJson obj) stamp_ns)) self.

Definition debug (msg : string) (stamp : spec_float) : M t unit := log msg stamp DEBUG.
Definition info (msg : string) (stamp : spec_float) : M t unit := log msg stamp INFO.
Definition warning (msg : string) (stamp : spec_float) : M t unit := log msg stamp WARNING.
Definition error (msg : string) (stamp : spec_float) : M t unit := log msg stamp ERROR.
Definition fatal (msg : string) (stamp : spec_float) : M t unit := log msg stamp FATAL.

Definition close : M t unit := on_writer CallFinish finish.

(** [MCAPLogger(log_path, level, compress)]; the constructor registers the
    log topic before it returns.  [level] only sets the threshold of the
    console logger, of which the model keeps the calls, not the output. *)
Definition init (log_path : string) (level : Level) (compress : bool) : result t :=
  match writer_open log_path compress with
  | Raise e => Raise e
  | Ok w =>
      let self := {| _pylog := [];
                     _writer := w;
                     writer_calls := [];
                     _topic_to_registration := ∅;
                     registration_log := {| name := ""; channel_id := 0 |} |} in
      match _register FOXGLOVE_LOG_TOPIC FOXGLOVE_LOG_MSG_TYPE FOXGLOVE_LOGM_SG_SCHEMA self with
      | (Raise e, _) => Raise e
      | (Ok r, self') =>
          Ok {| _pylog := _pylog self';
                _writer := _writer self';
                writer_calls := writer_calls self';
                _topic_to_registration := _topic_to_registration self';
                registration_log := r |}
      end
  end.

End WithWriter.
Arguments t W : clear implicits.
End MCAPLogger.

(** ** The Foxglove websocket server

    [foxglove_websocket.server.FoxgloveServer] is external as well.
    [server_start host port name] stands for entering
    [async with FoxgloveServer(host, port, name, logger=logger)]. *)

Record channel_spec : Type := {
  spec_topic : string;
  spec_encoding : string;
  spec_schemaName : string;
  spec_schema : string
}.

Class Server (V : Type) : Type := {
  server_start : string -> Z -> string -> result V;
  add_channel : channel_spec -> M V Z;
  send_message : Z -> Z -> payload -> M V unit
}.

Inductive server_call : Type :=
| CallAddChannel (spec : channel_spec)
| CallSendMessage (channel_id timestamp : Z) (data : payload).

(** ** FoxgloveWebsocketLogger *)

Module FoxgloveWebsocketLogger.
Section WithServer.

Context {V : Type} `{Server V}.

(** What sits in [_input_queue]: [(topic_name, stamp, obj)]. *)
Definition item : Type := string * spec_float * pyobj.

(** The local variables of [_foxglove_async_entrypoint] once it is inside
    its [async with] block. *)
Record frame : Type := {
  logger : list console_call;
  server : V;
  server_calls : list server_call;
  topic_to_registration : gmap string Registration;
  registration_log : Registration
}.

(** Where the worker thread is: started but not yet running the loop;
    inside the [async with] block of the entry point; or dead, with
    whatever frame it had. *)
Inductive phase : Type :=
| Started
| Running (f : frame)
| Dead (f : option frame).

(** The object, with the worker thread it owns. *)
Record t : Type := {
  level : Level;
  thread : phase;
  _stop : bool;
  _input_queue : list item;
  _exception_queue : list exn
}.

(** [self._loop.is_running()] *)
Definition loop_is_running (self : t) : bool :=
  match thread self with Running _ => true | _ => false end.

(** [self._foxlgove_thread.is_alive()] *)
Definition thread_is_alive (self : t) : bool :=
  match thread self with Dead _ => false | _ => true end.

Definition on_server {A} (c : server_call) (m : M V A) : M frame A :=
  fun f =>
    let (r, v) := m (server f) in
    (r, {| logger := logger f;
           server := v;
           server_calls := server_calls f ++ [c];
           topic_to_registration := topic_to_registration f;
           registration_log := registration_log f |}).

Definition logger_debug (c : console_call) : M frame unit :=
  fun f =>
    (Ok tt, {| logger := logger f ++ [c];
               server := server f;
               server_calls := server_calls f;
               topic_to_registration := topic_to_registration f;
               registration_log := registration_log f |}).

Definition cache_registration (topic_name : string) (r : Registration) : M frame unit :=
  fun f =>
    (Ok tt, {| logger := logger f;
               server := server f;
               server_calls := server_calls f;
               topic_to_registration := <[topic_name := r]> (topic_to_registration f);
               registration_log := registration_log f |}).

Definition register (topic_name type_name schema : string) : M frame Registration :=
  fun f =>
    match topic_to_registration f !! topic_name with
    | Some cached =>
        (let* _ := assert (String.eqb cached.(name) type_name)
                          (conflict_message topic_name cached.(name)) in
         ret cached) f
    | None =>
        (let spec := {| spec_topic := topic_name;
                        spec_encoding := "json";
                        spec_schemaName := type_name;
                        spec_schema := schema |} in
         let* channel_id := on_server (CallAddChannel spec) (add_channel spec) in
         let cached := {| name := type_name; channel_id := channel_id |} in
         let* _ := cache_registration topic_name cached in
         let* _ := logger_debug (ConsoleRegistered channel_id topic_name type_name) in
         ret cached) f
    end.

Definition register_class (topic_name : string) (obj : pyobj) : M frame Registration :=
  let type_name := class_name obj in
  let* _ := assert (is_BaseModel obj) ("Required pydantic model, but got " +:+ type_name) in
  register topic_name type_name (model_schema obj).

(** The dictionary the worker dumps for an item of the log topic; [level]
    is the parameter of the entry point. *)
Definition log_msg (level : Level) (stamp : spec_float) (obj : pyobj) : LogBody :=
  let '(sec, nsec) := to_stamp (PyFloat stamp) in
  {| body_sec := sec; body_nsec := nsec;
     body_level := int_of_Level level;
     body_message := str_value obj;
     body_name := "cartpole";
     body_file := "/dev/null";
     body_line := 0 |}.

(** What one turn of the [while] loop does with an item it got from the
    queue. *)
Definition handle (level : Level) (it : item) : M frame unit :=
  let '(topic_name, stamp, obj) := it in
  let* (registration, data) :=
    (if String.eqb topic_name FOXGLOVE_LOG_TOPIC then
       fun f =>
         (let* _ := assert (is_str obj)
                           ("Expected string, but got <class '" +:+ class_name obj +:+ "'>") in
          ret (registration_log f, LogJson (log_msg level stamp obj))) f
     else
       let* registration := register_class topic_name obj in
       ret (registration, ModelJson (model_json obj))) in
  let* ns := lift (to_ns stamp) in
  on_server (CallSendMessage registration.(channel_id) ns data)
            (send_message registration.(channel_id) ns data).

(** The [try] of the loop body: [queue.get()] under a timeout, then
    [handle]; [asyncio.TimeoutError] is passed over, wherever in the
    [try] it came from. *)
Definition loop_body (level : Level) (queue : list item) (f : frame)
  : result unit * list item * frame :=
  match queue with
  | [] => (Ok tt, [], f)
  | it :: rest =>
      match handle level it f with
      | (Raise TimeoutError, f') => (Ok tt, rest, f')
      | (r, f') => (r, rest, f')
      end
  end.

(** From the server's start to the first test of the loop condition. *)
Definition enter : result frame :=
  match server_start "0.0.0.0" 8765 "CartPole" with
  | Raise e => Raise e
  | Ok v =>
      let f := {| logger := [];
                  server := v;
                  server_calls := [];
                  topic_to_registration := ∅;
                  registration_log := {| name := ""; channel_id := 0 |} |} in
      match register FOXGLOVE_LOG_TOPIC FOXGLOVE_LOG_MSG_TYPE FOXGLOVE_LOGM_SG_SCHEMA f with
      | (Raise e, _) => Raise e
      | (Ok r, f') =>
          Ok {| logger := logger f';
                server := server f';
                server_calls := server_calls f';
                topic_to_registration := topic_to_registration f';
                registration_log := r |}
      end
  end.

(** The end of [_foxglove_async_wrapping] and of the thread: an exception
    that left the entry point is put on [_exception_queue] when
    [except Exception] catches it; then the loop stops and the thread
    dies. *)
Definition thread_exit (raised : option exn) (queue : list item) (fr : option frame)
    (self : t) : t :=
  {| level := level self;
     thread := Dead fr;
     _stop := _stop self;
     _input_queue := queue;
     _exception_queue :=
       match raised with
       | Some e => if is_Exception e then _exception_queue self ++ [e]
                   else _exception_queue self
       | None => _exception_queue self
       end |}.

(** The thread gets to run for the first time: [foxglove_main] starts the
    loop, which runs the entry point up to its [while]. *)
Definition worker_start (self : t) : t :=
  match thread self with
  | Started =>
      match enter with
      | Ok f =>
          {| level := level self;
             thread := Running f;
             _stop := _stop self;
             _input_queue := _input_queue self;
             _exception_queue := _exception_queue self |}
      | Raise e => thread_exit (Some e) (_input_queue self) None self
      end
  | _ => self
  end.

(** One turn of the [while not stop.is_set()] loop. *)
Definition worker_turn (self : t) : t :=
  match thread self with
  | Running f =>
      if _stop self then thread_exit None (_input_queue self) (Some f) self
      else
        match loop_body (level self) (_input_queue self) f with
        | (Ok _, queue, f') =>
            {| level := level self;
               thread := Running f';
               _stop := _stop self;
               _input_queue := queue;
               _exception_queue := _exception_queue self |}
        | (Raise e, queue, f') => thread_exit (Some e) queue (Some f') self
        end
  | _ => self
  end.

(** [FoxgloveWebsocketLogger(level)]: the thread is started, the loop is
    not running yet. *)
Definition init (level : Level) : t :=
  {| level := level;
     thread := Started;
     _stop := false;
     _input_queue := [];
     _exception_queue := [] |}.

Definition not_running : exn := AssertionError "Foxglove logger is not running".

Definition publish (topic_name : string) (obj : pyobj) (stamp : spec_float) : M t unit :=
  fun self =>
    if negb (loop_is_running self && thread_is_alive self) then
      match _exception_queue self with
      | e :: rest =>
          (Raise e,
           {| level := level self;
              thread := thread self;
              _stop := _stop self;
              _input_queue := _input_queue self;
              _exception_queue := rest |})
      | [] => (Raise not_running, self)
      end
    else
      (Ok tt,
       {| level := level self;
          thread := thread self;
          _stop := _stop self;
          _input_queue := _input_queue self ++ [(topic_name, stamp, obj)];
          _exception_queue := _exception_queue self |}).

(** The [level] argument is not used. *)
Definition log (msg : string) (stamp : spec_float) (level : Level) : M t unit :=
  publish "`/log`" (PyStr msg) stamp.

Definition debug (msg : string) (stamp : spec_float) : M t unit := log msg stamp DEBUG.
Definition info (msg : string) (stamp : spec_float) : M t unit := log msg stamp INFO.
Definition warning (msg : string) (stamp : spec_float) : M t unit := log msg stamp WARNING.
Definition error (msg : string) (stamp : spec_float) : M t unit := log msg stamp ERROR.
Definition fatal (msg : string) (stamp : spec_float) : M t unit := log msg stamp FATAL.

Definition stop_set (self : t) : t :=
  {| level := level self;
     thread := thread self;
     _stop := true;
     _input_queue := _input_queue self;
     _exception_queue := _exception_queue self |}.

(** [close()]: [self._stop.set()], then [join()].  The join blocks the
    caller until the thread is dead: the worker starts if it had not yet,
    and its next test of the loop condition ends it.  [interrupt] is an
    exception delivered to the caller while it is blocked (a
    [KeyboardInterrupt] on Ctrl-C); the join raises it and the worker is
    left as it was. *)
Definition close (interrupt : option exn) : M t unit :=
  fun self =>
    let self := stop_set self in
    match interrupt with
    | Some e => (Raise e, self)
    | None => (Ok tt, worker_turn (worker_start self))
    end.

(** A row of [publish] calls, with their outcomes. *)
Fixpoint publish_all (calls : list (string * pyobj * spec_float)) (self : t)
  : list (result unit) * t :=
  match calls with
  | [] => ([], self)
  | (topic_name, obj, stamp) :: rest =>
      let (r, self') := publish topic_name obj stamp self in
      let (rs, self'') := publish_all rest self' in
      (r :: rs, self'')
  end.

(** The states a logger goes through: the caller publishes and closes,
    the worker starts and takes turns, in any order. *)
Inductive reachable : t -> Prop :=
| reach_init lv : reachable (init lv)
| reach_publish self topic_name obj stamp :
    reachable self -> reachable (snd (publish topic_name obj stamp self))
| reach_close self interrupt :
    reachable self -> reachable (snd (close interrupt self))
| reach_worker_start self :
    reachable self -> reachable (worker_start self)
| reach_worker_turn self :
    reachable self -> reachable (worker_turn self).

(** The worker raises [e] out of its entry point, before the loop or in a
    turn of it, and [self'] is the logger once the thread is over. *)
Inductive worker_fails (self : t) (e : exn) (self' : t) : Prop :=
| fails_entering :
    thread self = Started ->
    enter = Raise e ->
    self' = worker_start self ->
    worker_fails self e self'
| fails_in_loop f queue f' :
    thread self = Running f ->
    _stop self = false ->
    loop_body (level self) (_input_queue self) f = (Raise e, queue, f') ->
    self' = worker_turn self ->
    worker_fails self e self'.

End WithServer.
Arguments t V : clear implicits.
Arguments frame V : clear implicits.
End FoxgloveWebsocketLogger.

(** ** Logger *)

(** A positional argument beyond the ones a method declares. *)
Inductive pyarg : Type :=
| ArgLevel (l : Level)
| ArgNum (n : pynum)
| ArgStr (s : string).

(** The [TypeError] of a call with too many positional arguments. *)
Definition too_many_arguments (qualname : string) (takes given : nat) : exn :=
  TypeError (qualname +:+ "() takes " +:+ pretty takes
             +:+ " positional arguments but " +:+ pretty given +:+ " were given").

Module Logger.
Section WithSinks.

Context {W V : Type} `{Writer W} `{Server V}.

Record t : Type := {
  _pylog : list console_call;
  _foxglove_log : FoxgloveWebsocketLogger.t V;
  _mcap_log : option (MCAPLogger.t W)
}.

(** A call on [self._foxglove_log]. *)
Definition on_foxglove {A} (m : M (FoxgloveWebsocketLogger.t V) A) : M t A :=
  fun self =>
    let (r, fox) := m (_foxglove_log self) in
    (r, {| _pylog := _pylog self; _foxglove_log := fox; _mcap_log := _mcap_log self |}).

(** [if self._mcap_log: self._mcap_log.m(...)]. *)
Definition on_mcap (m : M (MCAPLogger.t W) unit) : M t unit :=
  fun self =>
    match _mcap_log self with
    | Some mcap =>
        let (r, mcap') := m mcap in
        (r, {| _pylog := _pylog self;
               _foxglove_log := _foxglove_log self;
               _mcap_log := Some mcap' |})
    | None => (Ok tt, self)
    end.

Definition pylog_log (pylevel : Z) (stamp : spec_float) (msg : string) : M t unit :=
  fun self =>
    (Ok tt, {| _pylog := _pylog self ++ [ConsoleLog pylevel stamp msg];
               _foxglove_log := _foxglove_log self;
               _mcap_log := _mcap_log self |}).

(** [Logger(log_path, level)].  The websocket logger is built with its
    default level; an empty path means no MCAP file.  When the MCAP logger
    cannot be built the constructor raises and no [Logger] exists. *)
Definition init (log_path : string) (level : Level) : result t :=
  let fox := FoxgloveWebsocketLogger.init INFO in
  if String.eqb log_path "" then
    Ok {| _pylog := []; _foxglove_log := fox; _mcap_log := None |}
  else
    match MCAPLogger.init log_path level true with
    | Ok mcap => Ok {| _pylog := []; _foxglove_log := fox; _mcap_log := Some mcap |}
    | Raise e => Raise e
    end.

Definition publish (topic_name : string) (obj : pyobj) (stamp : spec_float) : M t unit :=
  let* _ := on_mcap (MCAPLogger.publish topic_name obj stamp) in
  on_foxglove (FoxgloveWebsocketLogger.publish topic_name obj stamp).

Definition log (msg : string) (stamp : spec_float) (level : Level) : M t unit :=
  let* pylevel := lift (pylog_level (int_of_Level level)) in
  let* _ := pylog_log pylevel stamp msg in
  let* _ := on_foxglove (FoxgloveWebsocketLogger.log msg stamp level) in
  on_mcap (MCAPLogger.log msg stamp level).

(** [def info(self, msg, stamp)]: a call that passes more positional
    arguments raises before the body runs. *)
Definition info (msg : string) (stamp : spec_float) (extra : list pyarg) : M t unit :=
  match extra with
  | [] => log msg stamp INFO
  | _ => raise (too_many_arguments "Logger.info" 3 (3 + length extra))
  end.

(** [self.info(msg, stamp, Level.DEBUG)] *)
Definition debug (msg : string) (stamp : spec_float) : M t unit :=
  info msg stamp [ArgLevel DEBUG].

Definition warning (msg : string) (stamp : spec_float) : M t unit := log msg stamp WARNING.
Definition error (msg : string) (stamp : spec_float) : M t unit := log msg stamp ERROR.
Definition fatal (msg : string) (stamp : spec_float) : M t unit := log msg stamp FATAL.

(** [interrupt] is what the caller receives while blocked in the join of
    the websocket logger, if anything. *)
Definition close (interrupt : option exn) : M t unit :=
  let* _ := on_foxglove (FoxgloveWebsocketLogger.close interrupt) in
  on_mcap MCAPLogger.close.

(** [close] has been called on this logger. *)
Definition close_called (self : t) : bool :=
  FoxgloveWebsocketLogger._stop (_foxglove_log self).

(** The file sink of this logger, if any, has been told to finish. *)
Definition file_finished (self : t) : bool :=
  match _mcap_log self with
  | Some mcap => existsb is_finish_call (MCAPLogger.writer_calls mcap)
  | None => true
  end.

End WithSinks.
Arguments t W V : clear implicits.
End Logger.

(** ** The module-level logger

    [__logger] is the module variable.  [released] lists the loggers the
    variable has referred to and no longer does, oldest first: Python keeps
    such an object for as long as somebody holds a reference to it. *)

Section ModuleLevel.

Context {W V : Type} `{Writer W} `{Server V}.

Record process : Type := {
  __logger : option (Logger.t W V);
  released : list (Logger.t W V)
}.

Definition start : process := {| __logger := None; released := [] |}.

Definition close (interrupt : option exn) : M process unit :=
  fun p =>
    match __logger p with
    | Some l =>
        match Logger.close interrupt l with
        | (Ok _, l') => (Ok tt, {| __logger := None; released := released p ++ [l'] |})
        | (Raise e, l') => (Raise e, {| __logger := Some l'; released := released p |})
        end
    | None => (Ok tt, p)
    end.

Definition setup (log_path : string) (level : Level) (interrupt : option exn)
  : M process unit :=
  let* _ := close interrupt in
  fun p =>
    match Logger.init log_path level with
    | Ok l => (Ok tt, {| __logger := Some l; released := released p |})
    | Raise e => (Raise e, p)
    end.

(** [get_logger()]: [setup()] with its defaults when the variable is
    [None]; the [close()] inside that [setup] has nothing to join. *)
Definition get_logger : M process (option (Logger.t W V)) :=
  fun p =>
    (let* _ := match __logger p with
               | Some _ => ret tt
               | None => setup "" INFO None
               end in
     fun p' => (Ok (__logger p'), p')) p.

(** A call on the object [get_logger()] returned. *)
Definition on_logger {A} (m : M (Logger.t W V) A) : M process A :=
  let* got := get_logger in
  fun p =>
    match got with
    | Some l =>
        let (r, l') := m l in
        (r, {| __logger := Some l'; released := released p |})
    | None => (Raise (TypeError "'NoneType' object has no such attribute"), p)
    end.

Definition publish (topic_name : string) (obj : pyobj) (stamp : spec_float)
  : M process unit :=
  on_logger (Logger.publish topic_name obj stamp).

Definition log (msg : string) (stamp : spec_float) (level : Level) : M process unit :=
  on_logger (Logger.log msg stamp level).

(** Every logger the process has built and not dropped unbuilt. *)
Definition loggers (p : process) : list (Logger.t W V) :=
  match __logger p with
  | Some l => l :: released p
  | None => released p
  end.

(** The loggers on which [close] has not been called. *)
Definition live (p : process) : list (Logger.t W V) :=
  filter (fun l => Logger.close_called l = false) (loggers p).

(** Every logger the variable has let go of has had [close] called. *)
Definition released_closed (p : process) : Prop :=
  Forall (fun l => Logger.close_called l = true) (released p).

(** The calls of the lifecycle, with what the environment does to them. *)
Inductive call : Type :=
| CallSetup (log_path : string) (level : Level) (interrupt : option exn)
| CallClose (interrupt : option exn)
| CallGetLogger.

Definition step (c : call) (p : process) : process :=
  match c with
  | CallSetup log_path level interrupt => snd (setup log_path level interrupt p)
  | CallClose interrupt => snd (close interrupt p)
  | CallGetLogger => snd (get_logger p)
  end.

Definition run (cs : list call) (p : process) : process :=
  fold_left (fun p c => step c p) cs p.

End ModuleLevel.

Arguments process W V : clear implicits.

(** ** Stand-ins for the external libraries

    A writer and a server that record what they are asked to do, used to
    run the loggers on concrete inputs.  Like the MCAP writer, [Recording.writer]
    numbers schemas and channels from 1 and keeps no state that would make it
    refuse a message after [finish]; it cannot open a file below
    [/nonexistent/]. *)

Module Recording.

Record writer : Type := {
  path : string;
  compress : bool;
  schemas : list (string * string * string);
  channels : list (Z * string * string);
  messages : list (Z * Z * payload * Z);
  finished : bool
}.

#[global] Instance writer_ops : Writer writer := {|
  writer_open p c :=
    if String.prefix "/nonexistent/" p
    then Raise (OSError "No such file or directory")
    else Ok {| path := p; compress := c; schemas := []; channels := [];
               messages := []; finished := false |};
  register_schema n enc data w :=
    (Ok (Z.of_nat (length (schemas w)) + 1),
     {| path := path w; compress := compress w;
        schemas := schemas w ++ [(n, enc, data)];
        channels := channels w; messages := messages w; finished := finished w |});
  register_channel schema_id topic enc w :=
    (Ok (Z.of_nat (length (channels w)) + 1),
     {| path := path w; compress := compress w; schemas := schemas w;
        channels := channels w ++ [(schema_id, topic, enc)];
        messages := messages w; finished := finished w |});
  add_message ch log_time data publish_time w :=
    (Ok tt,
     {| path := path w; compress := compress w; schemas := schemas w;
        channels := channels w;
        messages := messages w ++ [(ch, log_time, data, publish_time)];
        finished := finished w |});
  finish w :=
    (Ok tt,
     {| path := path w; compress := compress w; schemas := schemas w;
        channels := channels w; messages := messages w; finished := true |})
|}.

(** The server numbers its channels from 0. *)
Record server : Type := {
  advertised : list channel_spec;
  sent : list (Z * Z * payload)
}.

#[global] Instance server_ops : Server server := {|
  server_start host port name := Ok {| advertised := []; sent := [] |};
  add_channel spec v :=
    (Ok (Z.of_nat (length (advertised v))),
     {| advertised := advertised v ++ [spec]; sent := sent v |});
  send_message ch ts data v :=
    (Ok tt, {| advertised := advertised v; sent := sent v ++ [(ch, ts, data)] |})
|}.

End Recording.

(** [needle in hay] on strings. *)
Fixpoint contains (needle hay : string) : bool :=
  String.prefix needle hay
  || match hay with
     | EmptyString => false
     | String _ rest => contains needle rest
     end.

(** ** Rounding, for the proofs

    What the proofs about [to_ns] and [to_stamp] say of the steps of
    [SFmul]. *)

(** The outcome of rounding [M * 2 ^ E], given the mantissa [m] and the
    exponent [e] the two shifts arrive at. *)
Definition rounded (s : bool) (m e : Z) : spec_float :=
  match m with
  | Z0 => S754_zero s
  | Zpos p => if e <=? Float.emax - Float.prec then S754_finite s p e else S754_infinity s
  | Zneg _ => S754_nan
  end.

(** A mantissa and an exponent, as an integer rounded toward zero. *)
Definition trunc_Z (m e : Z) : Z :=
  match e with
  | Z0 => m
  | Zpos p => m * 2 ^ Zpos p
  | Zneg p => m / 2 ^ Zpos p
  end.

(** Whether a shift has dropped a non-zero bit. *)
Definition sticky (mrs : shr_record) : bool := shr_r mrs || shr_s mrs.

(** [(a, b) == (c, d)] on pairs of numbers. *)
Definition stamp_eqb (p q : pynum * pynum) : bool :=
  pynum_eqb (fst p) (fst q) && pynum_eqb (snd p) (snd q).

(** ** Concrete runs *)

Module Demo.
Import Recording.

(** An MCAP logger on a recording writer, before its constructor has
    registered anything. *)
Definition blank_mcap : MCAPLogger.t writer :=
  {| MCAPLogger._pylog := [];
     MCAPLogger._writer :=
       {| path := "log.mcap"; compress := true; schemas := []; channels := [];
          messages := []; finished := false |};
     MCAPLogger.writer_calls := [];
     MCAPLogger._topic_to_registration := ∅;
     MCAPLogger.registration_log := {| name := ""; channel_id := 0 |} |}.

(** [MCAPLogger('log.mcap')] followed by
    [publish('/pose', Pose(...), 1.0)]. *)
Definition pose : pyobj := PyModel "Pose" "{title: Pose}" "{x: 1.0}".
Definition twist : pyobj := PyModel "Twist" "{title: Twist}" "{v: 0.5}".

Definition mcap_with_pose : MCAPLogger.t writer :=
  match MCAPLogger.init "log.mcap" INFO true with
  | Ok self => snd (MCAPLogger.publish "/pose" pose Float.one self)
  | Raise _ => blank_mcap
  end.

(** [FoxgloveWebsocketLogger()] once its worker is in the loop. *)
Definition sink : FoxgloveWebsocketLogger.t server :=
  FoxgloveWebsocketLogger.worker_start (FoxgloveWebsocketLogger.init INFO).

(** [Logger('log.mcap')] with its worker in the loop. *)
Definition logger : Logger.t writer server :=
  {| Logger._pylog := [];
     Logger._foxglove_log := sink;
     Logger._mcap_log := Some mcap_with_pose |}.

(** The levels of the log records the server was asked to send. *)
Definition sent_levels (self : FoxgloveWebsocketLogger.t server) : list Z :=
  match FoxgloveWebsocketLogger.thread self with
  | FoxgloveWebsocketLogger.Running f | FoxgloveWebsocketLogger.Dead (Some f) =>
      omap (fun m => match m with
                     | (_, _, LogJson body) => Some (body_level body)
                     | _ => None
                     end) (sent (FoxgloveWebsocketLogger.server f))
  | _ => []
  end.

(** The first registration of ["/pose"] on a blank MCAP logger. *)
Definition pose_registration : Registration := {| name := "Pose"; channel_id := 1 |}.

Definition registered : MCAPLogger.t writer :=
  snd (MCAPLogger._register "/pose" "Pose" "{title: Pose}" blank_mcap).

(** The sink after [publish('/scan', {...}, 1.0)]: a [dict] is no
    pydantic model. *)
Definition poisoned : FoxgloveWebsocketLogger.t server :=
  snd (FoxgloveWebsocketLogger.publish "/scan" (PyObject "dict") Float.one sink).

(** Three stamps: [2 ^ 1000] seconds; [1700000000 + 2 ^ -22] seconds, a
    time of day in November 2023; and [1.5] seconds. *)
Definition huge : spec_float := S754_finite false 4503599627370496 948.
Definition recent : spec_float := S754_finite false 7130316800000001 (-22).
Definition one_and_a_half : spec_float := S754_finite false 6755399441055744 (-52).

(** The process after [setup('log.mcap')]. *)
Definition set_with_file : process writer server :=
  snd (setup "log.mcap" INFO None start).

End Demo.

(** ** The module-level functions and the clock *)

(** [this_or_now(t)]; [now] is what [time.time()] returns when it is
    called. *)
Definition this_or_now (t : option spec_float) (now : spec_float) : spec_float :=
  match t with
  | Some t => t
  | None => now
  end.

(** [publish], [log] and the five shorthands of the module, with their
    optional [stamp]; each of them gets the logger from [get_logger()]. *)
Module mcaplog.
Section WithSinks.

Context {W V : Type} `{Writer W} `{Server V}.

Definition publish (now : spec_float) (topic_name : string) (obj : pyobj)
    (stamp : option spec_float) : M (process W V) unit :=
  on_logger (Logger.publish topic_name obj (this_or_now stamp now)).

Definition log (now : spec_float) (msg : string) (stamp : option spec_float)
    (level : Level) : M (process W V) unit :=
  on_logger (Logger.log msg (this_or_now stamp now) level).

Definition debug (now : spec_float) (msg : string) (stamp : option spec_float)
  : M (process W V) unit := log now msg stamp DEBUG.
Definition info (now : spec_float) (msg : string) (stamp : option spec_float)
  : M (process W V) unit := log now msg stamp INFO.
Definition warning (now : spec_float) (msg : string) (stamp : option spec_float)
  : M (process W V) unit := log now msg stamp WARNING.
Definition error (now : spec_float) (msg : string) (stamp : option spec_float)
  : M (process W V) unit := log now msg stamp ERROR.
Definition fatal (now : spec_float) (msg : string) (stamp : option spec_float)
  : M (process W V) unit := log now msg stamp FATAL.

End WithSinks.
End mcaplog.

(** ** Runs of the worker and of the file sink *)

Section WorkerRuns.

Context {V : Type} `{Server V}.

(** [n] turns of the worker's loop. *)
Definition worker_turns (n : nat) (self : FoxgloveWebsocketLogger.t V)
  : FoxgloveWebsocketLogger.t V :=
  Nat.iter n FoxgloveWebsocketLogger.worker_turn self.

Definition is_send_call (c : server_call) : bool :=
  match c with CallSendMessage _ _ _ => true | _ => false end.

(** The messages the worker has asked the server to send, oldest first. *)
Definition sent_calls (self : FoxgloveWebsocketLogger.t V) : list server_call :=
  match FoxgloveWebsocketLogger.thread self with
  | FoxgloveWebsocketLogger.Running f
  | FoxgloveWebsocketLogger.Dead (Some f) =>
      filter (fun c => is_send_call c = true) (FoxgloveWebsocketLogger.server_calls f)
  | _ => []
  end.

(** The item [publish] puts on the queue for a call. *)
Definition item_of (c : string * pyobj * spec_float) : FoxgloveWebsocketLogger.item :=
  let '(topic_name, obj, stamp) := c in (topic_name, stamp, obj).

(** The [publish] call that [log] makes for a message, and the
    [send_message] call the worker makes for it when [to_ns] of its stamp is
    [ns]. *)
Definition log_call (m : string * spec_float * Z) : string * pyobj * spec_float :=
  let '(msg, stamp, _) := m in ("`/log`", PyStr msg, stamp).

Definition log_send (lv : Level) (ch : Z) (m : string * spec_float * Z) : server_call :=
  let '(msg, stamp, ns) := m in
  CallSendMessage ch ns (LogJson (FoxgloveWebsocketLogger.log_msg lv stamp (PyStr msg))).

End WorkerRuns.

Section FileSinkRuns.

Context {W : Type} `{Writer W}.

(** The calls a producer makes on an MCAP logger. *)
Inductive mcap_call : Type :=
| McapPublish (topic_name : string) (obj : pyobj) (stamp : spec_float)
| McapLog (msg : string) (stamp : spec_float) (level : Level)
| McapClose.

Definition mcap_step (c : mcap_call) (self : MCAPLogger.t W) : MCAPLogger.t W :=
  match c with
  | McapPublish topic_name obj stamp => snd (MCAPLogger.publish topic_name obj stamp self)
  | McapLog msg stamp level => snd (MCAPLogger.log msg stamp level self)
  | McapClose => snd (MCAPLogger.close self)
  end.

Definition mcap_run (cs : list mcap_call) (self : MCAPLogger.t W) : MCAPLogger.t W :=
  fold_left (fun self c => mcap_step c self) cs self.

End FileSinkRuns.

(** ** The [with] statement *)

(** The methods of the context-manager protocol that a class defines:
    [__enter__(self)], and [__exit__] with the number of parameters it
    declares besides [self] and the truth value of what it returns. *)
Record context_manager (S : Type) : Type := {
  class_qualname : string;
  __enter__ : option (M S unit);
  __exit__ : option (nat * M S bool)
}.

Arguments class_qualname {S} _.
Arguments __enter__ {S} _.
Arguments __exit__ {S} _.

(** [with manager: body], for a manager that is built already.  The
    interpreter looks both methods up on the class before it calls either
    (and raises [TypeError] when one is missing; before Python 3.11,
    [AttributeError]).  [__exit__] is called with three arguments, whether
    [body] raised or not; an exception of [body] is raised again unless
    [__exit__] returns a true value. *)
Definition with_statement {S} (cm : context_manager S) (body : M S unit) : M S unit :=
  match __enter__ cm, __exit__ cm with
  | None, _ =>
      raise (TypeError ("'" +:+ class_qualname cm
                        +:+ "' object does not support the context manager protocol"))
  | Some _, None =>
      raise (TypeError ("'" +:+ class_qualname cm
                        +:+ "' object does not support the context manager protocol"
                        +:+ " (missed __exit__ method)"))
  | Some enter, Some (params, exit) =>
      let* _ := enter in
      fun s =>
        let (r, s1) := body s in
        let leave : M S bool :=
          if Nat.eqb params 3 then exit
          else raise (too_many_arguments (class_qualname cm +:+ ".__exit__")
                        (1 + params) 4) in
        match r, leave s1 with
        | Ok _, (Ok _, s2) => (Ok tt, s2)
        | Raise e, (Ok suppress, s2) => if suppress then (Ok tt, s2) else (Raise e, s2)
        | _, (Raise e', s2) => (Raise e', s2)
        end
  end.

Section ContextManagers.

Context {W V : Type} `{Writer W} `{Server V}.

(** [MCAPLogger]: [__enter__] returns [self]; [__exit__(self, exc_type,
    exc_value, traceback)] closes and returns [None]. *)
Definition MCAPLogger_manager : context_manager (MCAPLogger.t W) :=
  {| class_qualname := "MCAPLogger";
     __enter__ := Some (ret tt);
     __exit__ := Some (3%nat, let* _ := MCAPLogger.close in ret false) |}.

(** [FoxgloveWebsocketLogger]: the same two methods. *)
Definition FoxgloveWebsocketLogger_manager (interrupt : option exn)
  : context_manager (FoxgloveWebsocketLogger.t V) :=
  {| class_qualname := "FoxgloveWebsocketLogger";
     __enter__ := Some (ret tt);
     __exit__ := Some (3%nat, let* _ := FoxgloveWebsocketLogger.close interrupt in ret false) |}.

(** [Logger] defines [__exit__(self)] and no [__enter__]. *)
Definition Logger_manager (interrupt : option exn) : context_manager (Logger.t W V) :=
  {| class_qualname := "Logger";
     __enter__ := None;
     __exit__ := Some (0%nat, let* _ := Logger.close interrupt in ret false) |}.

End ContextManagers.

(** ** The console loggers

    The [logging] module of the standard library keeps one logger per name
    for the whole process.  [get_pylogger] uses four of its operations;
    [L] is the state of the module. *)

Class Logging (L : Type) : Type := {
  getLogger : string -> L -> L;
  setLevel : string -> Z -> L -> L;
  hasHandlers : string -> L -> bool;
  addHandler : string -> string -> L -> L
}.

(** The calls made on the [logging] module, oldest first. *)
Inductive logging_call : Type :=
| CallGetLoggerNamed (name : string)
| CallSetLevel (name : string) (pylevel : Z)
| CallHasHandlers (name : string)
| CallAddHandler (name : string) (format : string).

Definition pylogger_format : string := "[%(name)s] [%(levelname)s] %(message)s".

Section GetPylogger.

Context {L : Type} `{Logging L}.

Record logging_state : Type := {
  logging : L;
  logging_calls : list logging_call
}.

Definition on_logging (c : logging_call) (op : L -> L) : M logging_state unit :=
  fun s => (Ok tt, {| logging := op (logging s); logging_calls := logging_calls s ++ [c] |}).

(** [get_pylogger(name, level)]; the logger it returns is the one of that
    name. *)
Definition get_pylogger (name : string) (level : Z) : M logging_state string :=
  let* _ := on_logging (CallGetLoggerNamed name) (getLogger name) in
  let* pylevel := lift (pylog_level level) in
  let* _ := on_logging (CallSetLevel name pylevel) (setLevel name pylevel) in
  let* configured :=
    (fun s => (Ok (hasHandlers name (logging s)),
               {| logging := logging s;
                  logging_calls := logging_calls s ++ [CallHasHandlers name] |})) in
  let* _ :=
    (if negb configured
     then on_logging (CallAddHandler name pylogger_format) (addHandler name pylogger_format)
     else ret tt) in
  ret name.

(** A row of [get_pylogger] calls. *)
Definition get_pyloggers (calls : list (string * Z)) (s : logging_state) : logging_state :=
  fold_left (fun s c => snd (get_pylogger (fst c) (snd c) s)) calls s.

Definition adds_handler_to (name : string) (c : logging_call) : bool :=
  match c with
  | CallAddHandler n _ => String.eqb n name
  | _ => false
  end.

(** How many handlers the calls have added to the logger [name]. *)
Definition handlers_added (name : string) (calls : list logging_call) : nat :=
  length (filter (fun c => adds_handler_to name c = true) calls).

(** Every logger that the calls have given a handler has one. *)
Definition handlers_in_place (s : logging_state) : Prop :=
  forall name, (0 < handlers_added name (logging_calls s))%nat ->
               hasHandlers name (logging s) = true.

(** What [get_pylogger] relies on: a logger that was given a handler has
    one, and neither a handler added anywhere, nor a level set, nor a
    logger looked up, takes a handler away. *)
Record Logging_laws : Prop := {
  hasHandlers_addHandler name format s :
    hasHandlers name (addHandler name format s) = true;
  hasHandlers_addHandler_other name other format s :
    hasHandlers name s = true -> hasHandlers name (addHandler other format s) = true;
  hasHandlers_setLevel name other pylevel s :
    hasHandlers name (setLevel other pylevel s) = hasHandlers name s;
  hasHandlers_getLogger name other s :
    hasHandlers name (getLogger other s) = hasHandlers name s
}.

End GetPylogger.

Arguments logging_state L : clear implicits.

(** A [logging] module in which every logger stands alone: no logger has
    handlers but the ones added to it. *)
Module FlatLogging.

Record t : Type := {
  levels : gmap string Z;
  handlers : gmap string (list string)
}.

Definition empty : t := {| levels := ∅; handlers := ∅ |}.

#[global] Instance ops : Logging t := {|
  getLogger name s :=
    {| levels := levels s;
       handlers := match handlers s !! name with
                   | Some _ => handlers s
                   | None => <[name := []]> (handlers s)
                   end |};
  setLevel name pylevel s :=
    {| levels := <[name := pylevel]> (levels s); handlers := handlers s |};
  hasHandlers name s :=
    match handlers s !! name with
    | Some (_ :: _) => true
    | _ => false
    end;
  addHandler name format s :=
    {| levels := levels s;
       handlers := <[name := default [] (handlers s !! name) ++ [format]]> (handlers s) |}
|}.

End FlatLogging.

(** ** More concrete runs *)

Module Samples.
Import Recording.

(** The websocket logger of [Demo.sink] once its worker has sent a [Pose]
    on ["/pose"], and then with a [Twist] queued for the same topic. *)
Definition sink_with_pose : FoxgloveWebsocketLogger.t server :=
  Eval vm_compute in
    FoxgloveWebsocketLogger.worker_turn
      (snd (FoxgloveWebsocketLogger.publish "/pose" Demo.pose Float.one Demo.sink)).

Definition sink_with_twist_queued : FoxgloveWebsocketLogger.t server :=
  Eval vm_compute in
    snd (FoxgloveWebsocketLogger.publish "/pose" Demo.twist Float.one sink_with_pose).

(** [Logger('log.mcap')], just built. *)
Definition fresh_logger : Logger.t writer server :=
  Eval vm_compute in
    match Logger.init "log.mcap" INFO with
    | Ok l => l
    | Raise _ => Demo.logger
    end.

(** [Logger(level=Level.DEBUG)], just built. *)
Definition fresh_debug_logger : Logger.t writer server :=
  Eval vm_compute in
    match Logger.init "" DEBUG with
    | Ok l => l
    | Raise _ => Demo.logger
    end.

(** [MCAPLogger('log.mcap')], just built. *)
Definition fresh_mcap : MCAPLogger.t writer :=
  Eval vm_compute in
    match MCAPLogger.init "log.mcap" INFO true with
    | Ok self => self
    | Raise _ => Demo.blank_mcap
    end.

(** A process whose variable holds [Demo.logger]. *)
Definition running : process writer server :=
  {| __logger := Some Demo.logger; released := [] |}.

(** [float(1700000000)], and two log messages with their stamps and the
    nanoseconds of the stamps. *)
Definition epoch : spec_float := Eval vm_compute in Float.of_Z 1700000000.

Definition two_messages : list (string * spec_float * Z) :=
  [("first", Float.one, 1000000000); ("second", Demo.one_and_a_half, 1500000000)].

End Samples.

(** * Properties *)

(** ** Strings *)

Lemma prefix_refl (a : string) : String.prefix a a = true.
Proof.
  induction a as [|c a IH]; simpl; [done|].
  destruct (Ascii.ascii_dec c c) as [_|Hne]; [exact IH | by destruct Hne].
Qed.

Lemma contains_prefix (a x : string) : String.prefix a x = true -> contains a x = true.
Proof. intros Hp. destruct x; cbn [contains]; rewrite Hp; done. Qed.

Lemma contains_app_r (a p q : string) : contains a q = true -> contains a (p +:+ q) = true.
Proof.
  intros Hq. induction p as [|c p IH]; [done|].
  change (String c p +:+ q) with (String c (p +:+ q)).
  cbn [contains]. rewrite IH. apply orb_true_r.
Qed.

Lemma contains_conflict_message (topic_name cached_name : string) :
  contains cached_name (conflict_message topic_name cached_name) = true.
Proof.
  unfold conflict_message.
  do 3 apply contains_app_r. apply contains_prefix, prefix_refl.
Qed.

(** ** The registry of the file sink *)

Section Registry.

Context {W : Type} `{Writer W}.

Implicit Types self : MCAPLogger.t W.

Lemma register_cached self topic_name type_name schema cached :
  MCAPLogger._topic_to_registration self !! topic_name = Some cached ->
  name cached = type_name ->
  MCAPLogger._register topic_name type_name schema self = (Ok cached, self).
Proof.
  intros Hc Hn. unfold MCAPLogger._register. rewrite Hc.
  unfold bind, assert. subst type_name. by rewrite String.eqb_refl.
Qed.

Lemma register_conflict self topic_name type_name schema cached :
  MCAPLogger._topic_to_registration self !! topic_name = Some cached ->
  name cached <> type_name ->
  MCAPLogger._register topic_name type_name schema self
  = (Raise (AssertionError (conflict_message topic_name (name cached))), self).
Proof.
  intros Hc Hn. unfold MCAPLogger._register. rewrite Hc.
  unfold bind, assert.
  destruct (String.eqb_spec (name cached) type_name) as [E|_]; [by destruct Hn | done].
Qed.

(** What a successful registration leaves in the cache. *)
Lemma register_ok_cached self topic_name type_name schema r self' :
  MCAPLogger._register topic_name type_name schema self = (Ok r, self') ->
  MCAPLogger._topic_to_registration self' !! topic_name = Some r
  /\ name r = type_name.
Proof.
  unfold MCAPLogger._register.
  destruct (MCAPLogger._topic_to_registration self !! topic_name) as [cached|] eqn:Hc.
  - unfold bind, assert.
    destruct (String.eqb_spec (name cached) type_name) as [E|E]; simpl; [|discriminate].
    intros [= <- <-]. done.
  - unfold bind, MCAPLogger.on_writer.
    destruct (register_schema _ _ _ _) as [[sid|e] w1]; simpl; [|discriminate].
    destruct (register_channel _ _ _ _) as [[cid|e] w2]; simpl; [|discriminate].
    intros [= <- <-]. simpl. by rewrite lookup_insert_eq.
Qed.

(** C6.  Once a topic has been resolved with a type name, resolving it
    again with that type name returns the cached registration and leaves
    the sink as it was: no call is made on the writer (the list of calls
    is the same), the cache and the console are untouched. *)
Theorem register_idempotent self topic_name type_name schema schema' r self' :
  MCAPLogger._register topic_name type_name schema self = (Ok r, self') ->
  MCAPLogger._register topic_name type_name schema' self' = (Ok r, self')
  /\ MCAPLogger.writer_calls (snd (MCAPLogger._register topic_name type_name schema' self'))
     = MCAPLogger.writer_calls self'.
Proof.
  intros Hfirst. apply register_ok_cached in Hfirst as [Hc Hn].
  rewrite (register_cached _ _ _ _ _ Hc Hn). done.
Qed.

(** C5, amended.  Resolving a topic that is cached under type name [A]
    with a different type name fails on the assertion; the message names
    the topic and [A], and nothing else; the sink, its cache included, is
    left as it was. *)
Theorem register_conflict_names_cached self topic_name A B schema cached :
  MCAPLogger._topic_to_registration self !! topic_name = Some cached ->
  name cached = A ->
  A <> B ->
  MCAPLogger._register topic_name B schema self
  = (Raise (AssertionError ("Topic " +:+ topic_name +:+ " registered with " +:+ A)), self)
  /\ contains A ("Topic " +:+ topic_name +:+ " registered with " +:+ A) = true
  /\ MCAPLogger._topic_to_registration
       (snd (MCAPLogger._register topic_name B schema self)) !! topic_name
     = Some cached.
Proof.
  intros Hc Hn Hne. subst A.
  rewrite (register_conflict _ _ _ _ _ Hc Hne). simpl.
  split; [done|]. split; [|done].
  apply contains_conflict_message.
Qed.

End Registry.

(** ** The file sink after [close] *)

Section ClosedFileSink.

Context {W : Type} `{Writer W}.

Implicit Types self : MCAPLogger.t W.

Lemma close_keeps_registry self :
  MCAPLogger._topic_to_registration (snd (MCAPLogger.close self))
  = MCAPLogger._topic_to_registration self
  /\ MCAPLogger.registration_log (snd (MCAPLogger.close self))
     = MCAPLogger.registration_log self
  /\ MCAPLogger.writer_calls (snd (MCAPLogger.close self))
     = MCAPLogger.writer_calls self ++ [CallFinish].
Proof.
  unfold MCAPLogger.close, MCAPLogger.on_writer.
  destruct (finish (MCAPLogger._writer self)); done.
Qed.

Lemma log_reaches_writer self msg stamp level ns :
  to_ns stamp = Ok ns ->
  let ch := channel_id (MCAPLogger.registration_log self) in
  let data := LogJson (MCAPLogger.log_body msg stamp level) in
  fst (MCAPLogger.log msg stamp level self)
  = fst (add_message ch ns data ns (MCAPLogger._writer self))
  /\ MCAPLogger.writer_calls (snd (MCAPLogger.log msg stamp level self))
     = MCAPLogger.writer_calls self ++ [CallAddMessage ch ns data ns].
Proof.
  intros Hns. unfold MCAPLogger.log, bind, lift. rewrite Hns. simpl.
  unfold MCAPLogger.on_writer.
  destruct (add_message _ _ _ _ _); done.
Qed.

Lemma publish_reaches_writer self topic_name obj stamp ns cached :
  to_ns stamp = Ok ns ->
  is_BaseModel obj = true ->
  MCAPLogger._topic_to_registration self !! topic_name = Some cached ->
  name cached = class_name obj ->
  let data := ModelJson (model_json obj) in
  fst (MCAPLogger.publish topic_name obj stamp self)
  = fst (add_message (channel_id cached) ns data ns (MCAPLogger._writer self))
  /\ MCAPLogger.writer_calls (snd (MCAPLogger.publish topic_name obj stamp self))
     = MCAPLogger.writer_calls self ++ [CallAddMessage (channel_id cached) ns data ns].
Proof.
  intros Hns Hm Hc Hn data.
  assert (E : MCAPLogger.publish topic_name obj stamp self
              = MCAPLogger.on_writer
                  (CallAddMessage (channel_id cached) ns data ns)
                  (add_message (channel_id cached) ns data ns) self).
  { unfold MCAPLogger.publish, MCAPLogger._register_class, bind, assert.
    rewrite Hm. cbn [ret]. rewrite (register_cached _ _ _ _ _ Hc Hn).
    unfold lift. rewrite Hns. done. }
  rewrite E. unfold MCAPLogger.on_writer.
  destruct (add_message _ _ _ _ _); done.
Qed.

(** C4, amended.  The file sink keeps no record of having been closed.
    After [close()], [log] and [publish] go to the writer as before: the
    outcome of the call is the outcome of [add_message] on the finished
    writer, and the call is made after the [finish] call. *)
Theorem closed_sink_still_writes self msg stamp level topic_name obj cached ns :
  to_ns stamp = Ok ns ->
  is_BaseModel obj = true ->
  MCAPLogger._topic_to_registration self !! topic_name = Some cached ->
  name cached = class_name obj ->
  let closed := snd (MCAPLogger.close self) in
  let ch := channel_id (MCAPLogger.registration_log self) in
  let body := LogJson (MCAPLogger.log_body msg stamp level) in
  let data := ModelJson (model_json obj) in
  (fst (MCAPLogger.log msg stamp level closed)
   = fst (add_message ch ns body ns (MCAPLogger._writer closed))
   /\ MCAPLogger.writer_calls (snd (MCAPLogger.log msg stamp level closed))
      = MCAPLogger.writer_calls self ++ [CallFinish; CallAddMessage ch ns body ns])
  /\ (fst (MCAPLogger.publish topic_name obj stamp closed)
      = fst (add_message (channel_id cached) ns data ns (MCAPLogger._writer closed))
      /\ MCAPLogger.writer_calls (snd (MCAPLogger.publish topic_name obj stamp closed))
         = MCAPLogger.writer_calls self
           ++ [CallFinish; CallAddMessage (channel_id cached) ns data ns]).
Proof.
  intros Hns Hm Hc Hn closed ch body data.
  destruct (close_keeps_registry self) as (Hreg & Hlog & Hcalls).
  fold closed in Hreg, Hlog, Hcalls.
  split.
  - destruct (log_reaches_writer closed msg stamp level ns Hns) as [Hr Hw].
    rewrite Hlog in Hr, Hw. split; [exact Hr|].
    rewrite Hw, Hcalls, <- app_assoc. done.
  - assert (Hc' : MCAPLogger._topic_to_registration closed !! topic_name = Some cached)
      by (by rewrite Hreg).
    destruct (publish_reaches_writer closed topic_name obj stamp ns cached Hns Hm Hc' Hn)
      as [Hr Hw].
    split; [exact Hr|].
    rewrite Hw, Hcalls, <- app_assoc. done.
Qed.

End ClosedFileSink.

(** ** The compound logger *)

Section CompoundLogger.

Context {W V : Type} `{Writer W} `{Server V}.

Implicit Types l : Logger.t W V.

(** After an uninterrupted [close()] the worker thread is dead. *)
Lemma foxglove_close_joins (fox : FoxgloveWebsocketLogger.t V) :
  FoxgloveWebsocketLogger.thread_is_alive
    (snd (FoxgloveWebsocketLogger.close None fox)) = false
  /\ FoxgloveWebsocketLogger._stop (snd (FoxgloveWebsocketLogger.close None fox)) = true
  /\ fst (FoxgloveWebsocketLogger.close None fox) = Ok tt.
Proof.
  unfold FoxgloveWebsocketLogger.close, FoxgloveWebsocketLogger.thread_is_alive.
  destruct fox as [lv [|f|f] st q xq]; cbn.
  - unfold FoxgloveWebsocketLogger.worker_start; cbn.
    destruct FoxgloveWebsocketLogger.enter as [f|e]; done.
  - done.
  - done.
Qed.

Lemma foxglove_close_interrupted (fox : FoxgloveWebsocketLogger.t V) e :
  FoxgloveWebsocketLogger.close (Some e) fox
  = (Raise e, FoxgloveWebsocketLogger.stop_set fox).
Proof. done. Qed.

(** C1, amended.  [close()] closes the websocket logger, then the MCAP
    logger.  When closing the websocket logger raises, [close()] raises
    that exception at once and the MCAP logger is left as it was: its
    writer is not told to finish.  Otherwise the worker thread is dead,
    the writer has been told to finish, and [close()] returns or raises
    what closing the MCAP logger does. *)
Theorem close_is_sequential l :
  (forall e,
      Logger.close (Some e) l
      = (Raise e,
         {| Logger._pylog := Logger._pylog l;
            Logger._foxglove_log := FoxgloveWebsocketLogger.stop_set (Logger._foxglove_log l);
            Logger._mcap_log := Logger._mcap_log l |}))
  /\ fst (Logger.close None l)
     = match Logger._mcap_log l with
       | Some mcap => fst (MCAPLogger.close mcap)
       | None => Ok tt
       end
  /\ FoxgloveWebsocketLogger.thread_is_alive
       (Logger._foxglove_log (snd (Logger.close None l))) = false
  /\ Logger._mcap_log (snd (Logger.close None l))
     = match Logger._mcap_log l with
       | Some mcap => Some (snd (MCAPLogger.close mcap))
       | None => None
       end.
Proof.
  destruct (foxglove_close_joins (Logger._foxglove_log l)) as (Hdead & _ & Hok).
  split; [|split; [|split]].
  - intros e. unfold Logger.close, bind, Logger.on_foxglove.
    rewrite foxglove_close_interrupted. done.
  - unfold Logger.close, bind, Logger.on_foxglove, Logger.on_mcap.
    destruct (FoxgloveWebsocketLogger.close None _) as [r fox]; cbn in Hok; subst r.
    cbn. destruct (Logger._mcap_log l) as [mcap|]; [|done].
    destruct (MCAPLogger.close mcap); done.
  - unfold Logger.close, bind, Logger.on_foxglove, Logger.on_mcap.
    destruct (FoxgloveWebsocketLogger.close None _) as [r fox]; cbn in Hok, Hdead; subst r.
    cbn. destruct (Logger._mcap_log l) as [mcap|]; [|done].
    destruct (MCAPLogger.close mcap); done.
  - unfold Logger.close, bind, Logger.on_foxglove, Logger.on_mcap.
    destruct (FoxgloveWebsocketLogger.close None _) as [r fox]; cbn in Hok; subst r.
    cbn. destruct (Logger._mcap_log l) as [mcap|]; [|done].
    destruct (MCAPLogger.close mcap); done.
Qed.

(** C9.  [Logger.debug] passes three arguments to [Logger.info], which
    takes two: the call raises [TypeError] and the logger is left as it
    was, so nothing reaches the console, the websocket logger or the MCAP
    logger. *)
Theorem debug_raises_TypeError l msg stamp :
  Logger.debug msg stamp l
  = (Raise (TypeError "Logger.info() takes 3 positional arguments but 4 were given"), l).
Proof. reflexivity. Qed.

End CompoundLogger.

(** ** The websocket logger and its worker *)

Section Worker.

Context {V : Type} `{Server V}.

Implicit Types self : FoxgloveWebsocketLogger.t V.

(** Nothing is put on the exception queue while the thread is alive. *)
Lemma alive_exception_queue_empty self :
  FoxgloveWebsocketLogger.reachable self ->
  FoxgloveWebsocketLogger.thread_is_alive self = true ->
  FoxgloveWebsocketLogger._exception_queue self = [].
Proof.
  unfold FoxgloveWebsocketLogger.thread_is_alive.
  induction 1 as [lv|self topic_name obj stamp _ IH|self interrupt _ IH|self _ IH|self _ IH].
  - done.
  - unfold FoxgloveWebsocketLogger.publish, FoxgloveWebsocketLogger.loop_is_running,
      FoxgloveWebsocketLogger.thread_is_alive.
    destruct self as [lv [|f|f] st q xq]; cbn in *.
    + rewrite (IH eq_refl). done.
    + done.
    + destruct xq; cbn; discriminate.
  - unfold FoxgloveWebsocketLogger.close.
    destruct interrupt as [e|]; cbn [snd].
    + destruct self as [lv th st q xq]; cbn in *. done.
    + unfold FoxgloveWebsocketLogger.worker_start.
      destruct self as [lv [|f|f] st q xq]; cbn in *; try done.
      destruct FoxgloveWebsocketLogger.enter; cbn; done.
  - unfold FoxgloveWebsocketLogger.worker_start.
    destruct self as [lv [|f|f] st q xq]; cbn in *; try done.
    destruct FoxgloveWebsocketLogger.enter; cbn; done.
  - unfold FoxgloveWebsocketLogger.worker_turn.
    destruct self as [lv [|f|f] st q xq]; cbn in *; try done.
    destruct st; cbn; [done|].
    destruct (FoxgloveWebsocketLogger.loop_body lv q f) as [[[[]|e] q'] f']; cbn; done.
Qed.

Lemma worker_fails_stored self e self' :
  FoxgloveWebsocketLogger._exception_queue self = [] ->
  is_Exception e = true ->
  FoxgloveWebsocketLogger.worker_fails self e self' ->
  FoxgloveWebsocketLogger._exception_queue self' = [e]
  /\ FoxgloveWebsocketLogger.thread_is_alive self' = false.
Proof.
  intros Hq He [Hth Hen -> | f queue f' Hth Hst Hbody ->].
  - unfold FoxgloveWebsocketLogger.worker_start. rewrite Hth, Hen.
    unfold FoxgloveWebsocketLogger.thread_is_alive. cbn. rewrite He, Hq. done.
  - unfold FoxgloveWebsocketLogger.worker_turn. rewrite Hth, Hst, Hbody.
    unfold FoxgloveWebsocketLogger.thread_is_alive. cbn. rewrite He, Hq. done.
Qed.

Lemma publish_dead_stored self e rest topic_name obj stamp :
  FoxgloveWebsocketLogger.thread_is_alive self = false ->
  FoxgloveWebsocketLogger._exception_queue self = e :: rest ->
  fst (FoxgloveWebsocketLogger.publish topic_name obj stamp self) = Raise e
  /\ FoxgloveWebsocketLogger._exception_queue
       (snd (FoxgloveWebsocketLogger.publish topic_name obj stamp self)) = rest
  /\ FoxgloveWebsocketLogger.thread_is_alive
       (snd (FoxgloveWebsocketLogger.publish topic_name obj stamp self)) = false.
Proof.
  intros Hdead Hq. unfold FoxgloveWebsocketLogger.publish.
  rewrite Hdead, andb_false_r, Hq. done.
Qed.

Lemma publish_dead_empty self topic_name obj stamp :
  FoxgloveWebsocketLogger.thread_is_alive self = false ->
  FoxgloveWebsocketLogger._exception_queue self = [] ->
  FoxgloveWebsocketLogger.publish topic_name obj stamp self
  = (Raise FoxgloveWebsocketLogger.not_running, self).
Proof.
  intros Hdead Hq. unfold FoxgloveWebsocketLogger.publish.
  rewrite Hdead, andb_false_r, Hq. done.
Qed.

Lemma publish_all_dead_empty calls self :
  FoxgloveWebsocketLogger.thread_is_alive self = false ->
  FoxgloveWebsocketLogger._exception_queue self = [] ->
  fst (FoxgloveWebsocketLogger.publish_all calls self)
  = map (fun _ => Raise FoxgloveWebsocketLogger.not_running) calls.
Proof.
  intros Hdead Hq. induction calls as [|[[topic_name obj] stamp] calls IH]; [done|].
  cbn [FoxgloveWebsocketLogger.publish_all map].
  rewrite (publish_dead_empty _ _ _ _ Hdead Hq).
  destruct (FoxgloveWebsocketLogger.publish_all calls self) as [rs self''].
  cbn in *. by rewrite IH.
Qed.

Lemma worker_fails_alive self e self' :
  FoxgloveWebsocketLogger.worker_fails self e self' ->
  FoxgloveWebsocketLogger.thread_is_alive self = true.
Proof.
  unfold FoxgloveWebsocketLogger.thread_is_alive.
  intros [Hth _ _ | f queue f' Hth _ _ _]; by rewrite Hth.
Qed.

(** C2.  When the worker of a websocket logger raises an exception out of
    its entry point, the exception is stored and the thread is dead; of the
    [publish] calls made from then on, the first raises the stored exception
    and every later one raises the not-running assertion. *)
Theorem worker_failure_surfaces_once self e self' first rest :
  FoxgloveWebsocketLogger.reachable self ->
  is_Exception e = true ->
  FoxgloveWebsocketLogger.worker_fails self e self' ->
  FoxgloveWebsocketLogger._exception_queue self' = [e]
  /\ FoxgloveWebsocketLogger.thread_is_alive self' = false
  /\ fst (FoxgloveWebsocketLogger.publish_all (first :: rest) self')
     = Raise e :: map (fun _ => Raise FoxgloveWebsocketLogger.not_running) rest.
Proof.
  intros Hreach He Hfail.
  pose proof (alive_exception_queue_empty self Hreach (worker_fails_alive _ _ _ Hfail)) as Hq.
  destruct (worker_fails_stored _ _ _ Hq He Hfail) as [Hstored Hdead].
  split; [done|]. split; [done|].
  destruct first as [[topic_name obj] stamp].
  cbn [FoxgloveWebsocketLogger.publish_all].
  destruct (publish_dead_stored self' e [] topic_name obj stamp Hdead Hstored)
    as (Hr & Hq' & Hdead').
  destruct (FoxgloveWebsocketLogger.publish topic_name obj stamp self') as [r s1].
  cbn in Hr, Hq', Hdead'. subst r.
  pose proof (publish_all_dead_empty rest s1 Hdead' Hq') as Hrest.
  destruct (FoxgloveWebsocketLogger.publish_all rest s1) as [rs s2].
  cbn in *. by rewrite Hrest.
Qed.

(** [log] hands the same item to the worker whatever the severity. *)
Lemma log_drops_severity self msg stamp severity severity' :
  FoxgloveWebsocketLogger.log msg stamp severity self
  = FoxgloveWebsocketLogger.log msg stamp severity' self.
Proof. reflexivity. Qed.

(** The record the worker sends for an item of the log topic carries the
    level the logger was built with. *)
Lemma worker_sends_own_level (lv : Level) msg stamp ns (f : FoxgloveWebsocketLogger.frame V) :
  to_ns stamp = Ok ns ->
  exists body,
    body_level body = int_of_Level lv
    /\ body_message body = msg
    /\ FoxgloveWebsocketLogger.server_calls
         (snd (FoxgloveWebsocketLogger.handle lv (FOXGLOVE_LOG_TOPIC, stamp, PyStr msg) f))
       = FoxgloveWebsocketLogger.server_calls f
         ++ [CallSendMessage (channel_id (FoxgloveWebsocketLogger.registration_log f))
               ns (LogJson body)].
Proof.
  intros Hns. exists (FoxgloveWebsocketLogger.log_msg lv stamp (PyStr msg)).
  split; [|split].
  - unfold FoxgloveWebsocketLogger.log_msg. by destruct (to_stamp _).
  - unfold FoxgloveWebsocketLogger.log_msg. by destruct (to_stamp _).
  - unfold FoxgloveWebsocketLogger.handle. cbn. unfold bind, lift. cbn.
    rewrite Hns. cbn. unfold FoxgloveWebsocketLogger.on_server.
    by destruct (send_message _ _ _ _).
Qed.

End Worker.

(** C3: the code does not do this.  A websocket logger built with its
    default level is asked to log at [ERROR]; the record its worker sends
    has level 2 ([INFO]), not 4. *)
Theorem foxglove_log_sends_sink_level :
  let self := snd (FoxgloveWebsocketLogger.log "boom" Float.one ERROR Demo.sink) in
  Demo.sent_levels (FoxgloveWebsocketLogger.worker_turn self) = [int_of_Level INFO]
  /\ int_of_Level INFO <> int_of_Level ERROR.
Proof. split; [vm_compute; reflexivity | discriminate]. Qed.

(** ** The module-level logger *)

Section Lifecycle.

Context {W V : Type} `{Writer W} `{Server V}.

Implicit Types p : process W V.
Implicit Types l : Logger.t W V.

Lemma logger_close_called l interrupt :
  Logger.close_called (snd (Logger.close interrupt l)) = true.
Proof.
  unfold Logger.close, bind, Logger.on_foxglove, Logger.on_mcap, Logger.close_called.
  destruct interrupt as [e|].
  - rewrite foxglove_close_interrupted. done.
  - destruct (foxglove_close_joins (Logger._foxglove_log l)) as (_ & Hstop & Hok).
    destruct (FoxgloveWebsocketLogger.close None _) as [r fox]; cbn in Hstop, Hok; subst r.
    cbn. destruct (Logger._mcap_log l) as [mcap|]; [|done].
    destruct (MCAPLogger.close mcap); done.
Qed.

Lemma logger_init_fresh log_path level l :
  Logger.init log_path level = Ok l -> Logger.close_called l = false.
Proof.
  unfold Logger.init.
  destruct (String.eqb log_path ""); [by intros [= <-]|].
  destruct (MCAPLogger.init _ _ _); [by intros [= <-] | discriminate].
Qed.

Lemma close_released_closed p interrupt :
  released_closed p -> released_closed (snd (close interrupt p)).
Proof.
  unfold released_closed, close. intros Hp.
  destruct (__logger p) as [l|]; [|done].
  pose proof (logger_close_called l interrupt) as Hc.
  destruct (Logger.close interrupt l) as [[[]|e] l']; cbn in *; [|done].
  apply Forall_app. split; [done|]. by constructor.
Qed.

Lemma setup_released_closed p log_path level interrupt :
  released_closed p -> released_closed (snd (setup log_path level interrupt p)).
Proof.
  intros Hp. apply (close_released_closed p interrupt) in Hp.
  unfold setup, bind. destruct (close interrupt p) as [[[]|e] p']; cbn in *; [|done].
  destruct (Logger.init log_path level); done.
Qed.

Lemma get_logger_released_closed p :
  released_closed p -> released_closed (snd (get_logger p)).
Proof.
  intros Hp. unfold get_logger, bind.
  destruct (__logger p) as [l|]; [done|].
  pose proof (setup_released_closed p "" INFO None Hp) as Hs.
  destruct (setup "" INFO None p) as [[[]|e] p']; done.
Qed.

Lemma run_released_closed cs p :
  released_closed p -> released_closed (run cs p).
Proof.
  revert p. induction cs as [|c cs IH]; intros p Hp; [done|].
  cbn. apply IH. destruct c; cbn.
  - by apply setup_released_closed.
  - by apply close_released_closed.
  - by apply get_logger_released_closed.
Qed.

Lemma released_closed_none_live (ls : list (Logger.t W V)) :
  Forall (fun l => Logger.close_called l = true) ls ->
  filter (fun l => Logger.close_called l = false) ls = [].
Proof.
  induction 1 as [|l ls Hl _ IH]; [done|].
  rewrite filter_cons_False; [done | congruence].
Qed.

Lemma released_closed_one_live p :
  released_closed p -> (length (live p) <= 1)%nat.
Proof.
  intros Hp. unfold live, loggers.
  destruct (__logger p) as [l|].
  - destruct (decide (Logger.close_called l = false)) as [Hl|Hl].
    + rewrite filter_cons_True by done.
      rewrite released_closed_none_live by done. cbn. lia.
    + rewrite filter_cons_False by done.
      rewrite released_closed_none_live by done. cbn. lia.
  - rewrite released_closed_none_live by done. cbn. lia.
Qed.

(** [get_logger()] on an unset variable is [setup()] with the defaults,
    which cannot fail: there is no file to open. *)
Lemma get_logger_unset p :
  __logger p = None ->
  get_logger p
  = (let (r, p') := setup "" INFO None p in
     (match r with Ok _ => Ok (__logger p') | Raise e => Raise e end, p'))
  /\ exists l, Logger.init "" INFO = Ok l
               /\ Logger._mcap_log l = None
               /\ get_logger p = (Ok (Some l), {| __logger := Some l; released := released p |}).
Proof.
  intros Hp. split.
  - unfold get_logger, bind. rewrite Hp.
    destruct (setup "" INFO None p) as [[[]|e] p']; done.
  - eexists. split; [reflexivity|]. split; [reflexivity|].
    unfold get_logger, bind, setup, bind, close. rewrite Hp. cbn. rewrite Hp. reflexivity.
Qed.

(** C7, amended.  Whatever calls of [setup], [close] and [get_logger] the
    process has made from its start, and whatever they raised, at most one
    logger is live.  [setup] first closes the logger the variable holds;
    when that and the construction of the new logger both succeed, it
    returns with the variable set to the new logger and the old one
    released, closed; when the construction raises, [setup] raises and the
    variable is unset.  [close] closes the logger and unsets the variable,
    and does nothing when the variable is unset.  [get_logger] on an unset
    variable runs [setup] with its defaults and returns the new logger. *)
Theorem lifecycle_at_most_one_live :
  (forall cs, (length (live (run cs (start (W := W) (V := V)))) <= 1)%nat)
  /\ (forall p log_path level interrupt new,
         fst (close interrupt p) = Ok tt ->
         Logger.init log_path level = Ok new ->
         setup log_path level interrupt p
         = (Ok tt, {| __logger := Some new;
                      released := released (snd (close interrupt p)) |})
         /\ Logger.close_called new = false
         /\ (forall old, __logger p = Some old ->
                         released (snd (close interrupt p))
                         = released p ++ [snd (Logger.close interrupt old)]
                         /\ Logger.close_called (snd (Logger.close interrupt old)) = true))
  /\ (forall p log_path level interrupt e,
         fst (close interrupt p) = Ok tt ->
         Logger.init (W := W) (V := V) log_path level = Raise e ->
         fst (setup log_path level interrupt p) = Raise e
         /\ __logger (snd (setup log_path level interrupt p)) = None)
  /\ (forall p interrupt,
         match __logger p with
         | None => close interrupt p = (Ok tt, p)
         | Some l =>
             fst (Logger.close interrupt l) = Ok tt ->
             close interrupt p
             = (Ok tt, {| __logger := None;
                          released := released p ++ [snd (Logger.close interrupt l)] |})
         end)
  /\ (forall p,
         __logger p = None ->
         exists l, Logger.init "" INFO = Ok l
                   /\ get_logger p
                      = (Ok (Some l), {| __logger := Some l; released := released p |})).
Proof.
  split; [|split; [|split; [|split]]].
  - intros cs. apply released_closed_one_live, run_released_closed. constructor.
  - intros p log_path level interrupt new Hclose Hinit.
    split; [|split].
    + unfold setup, bind.
      destruct (close interrupt p) as [[[]|e] p']; cbn in Hclose; [|discriminate].
      rewrite Hinit. done.
    + by apply logger_init_fresh in Hinit.
    + intros old Hold. unfold close in *. rewrite Hold in *.
      pose proof (logger_close_called old interrupt) as Hc.
      destruct (Logger.close interrupt old) as [[[]|e] l']; cbn in *; [done|discriminate].
  - intros p log_path level interrupt e Hclose Hinit.
    unfold setup, bind.
    assert (Hnone : __logger (snd (close interrupt p)) = None).
    { unfold close in *. destruct (__logger p) as [l|] eqn:Hl; [|exact Hl].
      destruct (Logger.close interrupt l) as [[[]|e'] l']; cbn in *; [done|discriminate]. }
    destruct (close interrupt p) as [[[]|e'] p']; cbn in *; [|discriminate].
    rewrite Hinit. done.
  - intros p interrupt. unfold close.
    destruct (__logger p) as [l|]; [|done].
    intros Hok. destruct (Logger.close interrupt l) as [[[]|e] l']; cbn in *; [done|discriminate].
  - intros p Hp. destruct (get_logger_unset p Hp) as [_ (l & Hl & _ & Hg)]. eauto.
Qed.

End Lifecycle.

(** ** The theorems on concrete runs *)

Section Runs.

Import Recording.

Lemma register_idempotent_witness :
  MCAPLogger._register "/pose" "Pose" "{title: Pose}" Demo.blank_mcap
  = (Ok Demo.pose_registration, Demo.registered)
  /\ MCAPLogger._register "/pose" "Pose" "{title: Pose, v: 2}" Demo.registered
     = (Ok Demo.pose_registration, Demo.registered)
  /\ MCAPLogger.writer_calls
       (snd (MCAPLogger._register "/pose" "Pose" "{title: Pose, v: 2}" Demo.registered))
     = MCAPLogger.writer_calls Demo.registered.
Proof.
  split; [vm_compute; reflexivity|].
  apply (register_idempotent Demo.blank_mcap "/pose" "Pose" "{title: Pose}").
  vm_compute; reflexivity.
Defined.

(** C5: the code does not do this.  ["/pose"] is registered for [Pose];
    publishing a [Twist] on it raises, the sink is unchanged, and the
    message does not name [Twist]. *)
Lemma register_conflict_omits_new_type :
  MCAPLogger._register "/pose" "Twist" "{title: Twist}" Demo.mcap_with_pose
  = (Raise (AssertionError "Topic /pose registered with Pose"), Demo.mcap_with_pose)
  /\ contains "Twist" "Topic /pose registered with Pose" = false.
Proof. split; vm_compute; reflexivity. Qed.

Lemma register_conflict_names_cached_witness :
  MCAPLogger._topic_to_registration Demo.mcap_with_pose !! "/pose"
  = Some {| name := "Pose"; channel_id := 2 |}
  /\ "Pose" <> "Twist"
  /\ MCAPLogger._register "/pose" "Twist" "{title: Twist}" Demo.mcap_with_pose
     = (Raise (AssertionError ("Topic " +:+ "/pose" +:+ " registered with " +:+ "Pose")),
        Demo.mcap_with_pose)
  /\ contains "Pose" ("Topic " +:+ "/pose" +:+ " registered with " +:+ "Pose") = true
  /\ MCAPLogger._topic_to_registration
       (snd (MCAPLogger._register "/pose" "Twist" "{title: Twist}" Demo.mcap_with_pose))
       !! "/pose"
     = Some {| name := "Pose"; channel_id := 2 |}.
Proof.
  split; [vm_compute; reflexivity|]. split; [discriminate|].
  apply (register_conflict_names_cached Demo.mcap_with_pose "/pose" "Pose" "Twist"
           "{title: Twist}" {| name := "Pose"; channel_id := 2 |});
    [vm_compute; reflexivity | reflexivity | discriminate].
Defined.

(** C4: the code does not do this.  After [close()] the writer has
    finished, and [log] and [publish] still return normally. *)
Lemma closed_sink_accepts_writes :
  let closed := snd (MCAPLogger.close Demo.mcap_with_pose) in
  finished (MCAPLogger._writer closed) = true
  /\ fst (MCAPLogger.log "late" Float.one INFO closed) = Ok tt
  /\ fst (MCAPLogger.publish "/pose" Demo.pose Float.one closed) = Ok tt
  /\ length (messages (MCAPLogger._writer
                         (snd (MCAPLogger.log "late" Float.one INFO closed))))
     = 2%nat.
Proof. repeat split; vm_compute; reflexivity. Qed.

Lemma closed_sink_still_writes_witness :
  to_ns Float.one = Ok 1000000000
  /\ is_BaseModel Demo.pose = true
  /\ MCAPLogger._topic_to_registration Demo.mcap_with_pose !! "/pose"
     = Some {| name := "Pose"; channel_id := 2 |}
  /\ (let closed := snd (MCAPLogger.close Demo.mcap_with_pose) in
      let body := LogJson (MCAPLogger.log_body "late" Float.one INFO) in
      let data := ModelJson (model_json Demo.pose) in
      (fst (MCAPLogger.log "late" Float.one INFO closed)
       = fst (add_message 1 1000000000 body 1000000000 (MCAPLogger._writer closed))
       /\ MCAPLogger.writer_calls (snd (MCAPLogger.log "late" Float.one INFO closed))
          = MCAPLogger.writer_calls Demo.mcap_with_pose
            ++ [CallFinish; CallAddMessage 1 1000000000 body 1000000000])
      /\ (fst (MCAPLogger.publish "/pose" Demo.pose Float.one closed)
          = fst (add_message 2 1000000000 data 1000000000 (MCAPLogger._writer closed))
          /\ MCAPLogger.writer_calls (snd (MCAPLogger.publish "/pose" Demo.pose Float.one closed))
             = MCAPLogger.writer_calls Demo.mcap_with_pose
               ++ [CallFinish; CallAddMessage 2 1000000000 data 1000000000])).
Proof.
  split; [vm_compute; reflexivity|]. split; [reflexivity|].
  split; [vm_compute; reflexivity|].
  apply (closed_sink_still_writes Demo.mcap_with_pose "late" Float.one INFO "/pose"
           Demo.pose {| name := "Pose"; channel_id := 2 |} 1000000000);
    [vm_compute; reflexivity | reflexivity | vm_compute; reflexivity | reflexivity].
Defined.

(** C1: the code does not do this.  The caller is interrupted while
    [close()] waits for the worker: [close()] raises and the writer of
    the MCAP logger has not been told to finish. *)
Lemma close_interrupted_leaves_file_open :
  let after := Logger.close (Some KeyboardInterrupt) Demo.logger in
  fst after = Raise KeyboardInterrupt
  /\ Logger.file_finished (snd after) = false
  /\ (finished ∘ MCAPLogger._writer) <$> Logger._mcap_log (snd after) = Some false.
Proof. repeat split; vm_compute; reflexivity. Qed.

Lemma worker_failure_surfaces_once_witness :
  FoxgloveWebsocketLogger.reachable Demo.poisoned
  /\ FoxgloveWebsocketLogger.worker_fails Demo.poisoned
       (AssertionError "Required pydantic model, but got dict")
       (FoxgloveWebsocketLogger.worker_turn Demo.poisoned)
  /\ FoxgloveWebsocketLogger._exception_queue (FoxgloveWebsocketLogger.worker_turn Demo.poisoned)
     = [AssertionError "Required pydantic model, but got dict"]
  /\ FoxgloveWebsocketLogger.thread_is_alive (FoxgloveWebsocketLogger.worker_turn Demo.poisoned)
     = false
  /\ fst (FoxgloveWebsocketLogger.publish_all
            [("/pose", Demo.pose, Float.one); ("/pose", Demo.pose, Float.one);
             ("`/log`", PyStr "still there?", Float.one)]
            (FoxgloveWebsocketLogger.worker_turn Demo.poisoned))
     = [Raise (AssertionError "Required pydantic model, but got dict");
        Raise FoxgloveWebsocketLogger.not_running;
        Raise FoxgloveWebsocketLogger.not_running].
Proof.
  assert (Hreach : FoxgloveWebsocketLogger.reachable Demo.poisoned).
  { apply FoxgloveWebsocketLogger.reach_publish,
      FoxgloveWebsocketLogger.reach_worker_start,
      FoxgloveWebsocketLogger.reach_init. }
  assert (Hfails : FoxgloveWebsocketLogger.worker_fails Demo.poisoned
                     (AssertionError "Required pydantic model, but got dict")
                     (FoxgloveWebsocketLogger.worker_turn Demo.poisoned)).
  { eapply FoxgloveWebsocketLogger.fails_in_loop; vm_compute; reflexivity. }
  split; [exact Hreach|]. split; [exact Hfails|].
  apply (worker_failure_surfaces_once Demo.poisoned _ _
           ("/pose", Demo.pose, Float.one)
           [("/pose", Demo.pose, Float.one); ("`/log`", PyStr "still there?", Float.one)]);
    [exact Hreach | reflexivity | exact Hfails].
Defined.

(** C7: the code does not do this.  [setup] with a path that cannot be
    opened raises; called on an unset variable it leaves it unset, and
    called on a set variable it has closed and released the logger by then
    and leaves the variable unset. *)
Lemma setup_unopenable_path_ends_unset :
  (let r := setup "/nonexistent/run.mcap" INFO None (start (W := writer) (V := server)) in
   fst r = Raise (OSError "No such file or directory")
   /\ __logger (snd r) = None)
  /\ (let r := setup "/nonexistent/run.mcap" INFO None Demo.set_with_file in
      is_Some (__logger Demo.set_with_file)
      /\ fst r = Raise (OSError "No such file or directory")
      /\ __logger (snd r) = None
      /\ length (released (snd r)) = 1%nat).
Proof.
  split; [split; vm_compute; reflexivity|].
  split; [vm_compute; eauto|]. repeat split; vm_compute; reflexivity.
Qed.

Lemma lifecycle_at_most_one_live_witness :
  (length (live (run [CallSetup "log.mcap" INFO None;
                      CallGetLogger;
                      CallSetup "/nonexistent/run.mcap" DEBUG None;
                      CallGetLogger;
                      CallClose (Some KeyboardInterrupt);
                      CallSetup "" WARNING None]
                     (start (W := writer) (V := server)))) <= 1)%nat
  /\ fst (close None Demo.set_with_file) = Ok tt
  /\ (exists new,
         Logger.init (W := writer) (V := server) "next.mcap" DEBUG = Ok new
         /\ setup "next.mcap" DEBUG None Demo.set_with_file
            = (Ok tt, {| __logger := Some new;
                         released := released (snd (close None Demo.set_with_file)) |})).
Proof.
  destruct (lifecycle_at_most_one_live (W := writer) (V := server))
    as (Hlive & Hsetup & _).
  split; [apply Hlive|]. split; [vm_compute; reflexivity|].
  eexists. split; [vm_compute; reflexivity|].
  apply Hsetup; vm_compute; reflexivity.
Defined.

End Runs.

(** ** Floating point: what [to_ns] and [to_stamp] compute *)

Lemma digits2_pos_size (p : positive) : digits2_pos p = Pos.size p.
Proof. induction p as [p IH|p IH|]; simpl; congruence. Qed.

Lemma digits2_bounds (p : positive) :
  2 ^ (Zpos (digits2_pos p) - 1) <= Zpos p < 2 ^ Zpos (digits2_pos p).
Proof.
  rewrite digits2_pos_size.
  pose proof (Pos.size_gt p) as Hgt. pose proof (Pos.size_le p) as Hle.
  apply Pos2Z.pos_lt_pos in Hgt. apply Pos2Z.pos_le_pos in Hle.
  rewrite Pos2Z.inj_pow in Hgt, Hle.
  rewrite (Pos2Z.inj_xO p) in Hle.
  pose proof (Pos2Z.is_pos (Pos.size p)) as Hs.
  set (d := Zpos (Pos.size p)) in *. clearbody d.
  split; [|exact Hgt].
  assert (E : 2 ^ d = 2 * 2 ^ (d - 1)).
  { rewrite <- Z.pow_succ_r by lia. f_equal. lia. }
  lia.
Qed.

(** A mantissa below [2 ^ c] has at most [c] digits. *)
Lemma digits2_le (p : positive) (c : Z) :
  Zpos p < 2 ^ c -> Zpos (digits2_pos p) <= c.
Proof.
  intros Hp. destruct (digits2_bounds p) as [Hlo _].
  destruct (Z.le_gt_cases (Zpos (digits2_pos p)) c) as [|Hgt]; [done|].
  assert (0 <= c).
  { destruct (Z.lt_ge_cases c 0) as [Hneg|]; [|done].
    rewrite Z.pow_neg_r in Hp by done. lia. }
  assert (2 ^ c <= 2 ^ (Zpos (digits2_pos p) - 1)) by (apply Z.pow_le_mono_r; lia).
  lia.
Qed.

Lemma shr_1_m (mrs : shr_record) :
  0 <= shr_m mrs -> shr_m (shr_1 mrs) = shr_m mrs / 2 /\ 0 <= shr_m (shr_1 mrs).
Proof.
  destruct mrs as [[|[p|p|]|p] r s]; cbn [shr_1 shr_m]; intros Hm.
  - done.
  - split; [|lia]. rewrite (Pos2Z.inj_xI p).
    apply Z.div_unique with 1; lia.
  - split; [|lia]. rewrite (Pos2Z.inj_xO p).
    apply Z.div_unique with 0; lia.
  - done.
  - lia.
Qed.

Lemma pow2_xO (n : positive) : 2 ^ Zpos n~0 = 2 ^ Zpos n * 2 ^ Zpos n.
Proof. rewrite (Pos2Z.inj_xO n), <- Z.pow_add_r by lia. f_equal. lia. Qed.

Lemma pow2_xI (n : positive) : 2 ^ Zpos n~1 = 2 * (2 ^ Zpos n * 2 ^ Zpos n).
Proof.
  rewrite (Pos2Z.inj_xI n), <- Z.pow_add_r, <- Z.pow_succ_r by lia. f_equal. lia.
Qed.

Lemma iter_shr_1_m (n : positive) (mrs : shr_record) :
  0 <= shr_m mrs ->
  shr_m (SpecFloat.iter_pos shr_1 n mrs) = shr_m mrs / 2 ^ Zpos n
  /\ 0 <= shr_m (SpecFloat.iter_pos shr_1 n mrs).
Proof.
  revert mrs. induction n as [n IH|n IH|]; intros mrs Hm; cbn [SpecFloat.iter_pos].
  - destruct (shr_1_m mrs Hm) as [E1 H1].
    destruct (IH _ H1) as [E2 H2]. destruct (IH _ H2) as [E3 H3].
    split; [|done]. rewrite E3, E2, E1, pow2_xI.
    pose proof (Z.pow_pos_nonneg 2 (Zpos n)).
    rewrite !Z.div_div by lia. done.
  - destruct (IH _ Hm) as [E2 H2]. destruct (IH _ H2) as [E3 H3].
    split; [|done]. rewrite E3, E2, pow2_xO.
    pose proof (Z.pow_pos_nonneg 2 (Zpos n)).
    rewrite !Z.div_div by lia. done.
  - destruct (shr_1_m mrs Hm) as [E1 H1]. done.
Qed.

(** [shr] divides the mantissa by [2 ^ n], rounding down, and adds [n] to
    the exponent, for [n] positive; it does nothing otherwise. *)
Lemma shr_spec (mrs : shr_record) (e n : Z) :
  0 <= shr_m mrs ->
  shr_m (fst (shr mrs e n)) = shr_m mrs / 2 ^ Z.max 0 n
  /\ snd (shr mrs e n) = e + Z.max 0 n
  /\ 0 <= shr_m (fst (shr mrs e n)).
Proof.
  intros Hm. destruct n as [|n|n]; cbn [shr fst snd].
  - rewrite Z.div_1_r. split; [done|]. split; [lia|done].
  - destruct (iter_shr_1_m n mrs Hm) as [E1 H1].
    replace (Z.max 0 (Zpos n)) with (Zpos n) by lia. done.
  - replace (Z.max 0 (Zneg n)) with 0 by lia. rewrite Z.div_1_r.
    split; [done|]. split; [lia|done].
Qed.

Lemma round_nearest_even_range (m : Z) (l : location) :
  m <= round_nearest_even m l <= m + 1.
Proof. destruct l as [|[]]; cbn; try lia. destruct (Z.even m); lia. Qed.

Lemma fexp_binary64 (e : Z) :
  fexp Float.prec Float.emax e = Z.max (e - 53) (-1074).
Proof. reflexivity. Qed.

Lemma Zdigits2_le (m c : Z) : 0 <= m < 2 ^ c -> Zdigits2 m <= c.
Proof.
  intros [Hm Hc]. destruct m as [|p|p]; [|by apply digits2_le|lia].
  cbn. destruct (Z.lt_ge_cases c 0) as [Hneg|]; [|done].
  rewrite Z.pow_neg_r in Hc by done. lia.
Qed.

Lemma mul_NANO_float (s : bool) (mx : positive) (ex : Z) :
  Float.mul (S754_finite s mx ex) NANO_float
  = binary_round_aux Float.prec Float.emax (xorb s false)
      (Zpos (mx * 8388608000000000)) (ex + -23) loc_Exact.
Proof. reflexivity. Qed.

Lemma NANO_mantissa : 8388608000000000 = NANO * 2 ^ 23.
Proof. reflexivity. Qed.


Lemma to_int_rounded (m e : Z) :
  0 <= m -> e <= 971 ->
  Float.to_int (rounded false m e) = Ok (trunc_Z m e).
Proof.
  intros Hm He. unfold rounded. destruct m as [|p|p]; [| |lia].
  - cbn [Float.to_int]. f_equal. destruct e as [|q|q]; cbn [trunc_Z]; [done|lia|].
    symmetry. apply Z.div_0_l. pose proof (Z.pow_pos_nonneg 2 (Zpos q)). lia.
  - replace (e <=? Float.emax - Float.prec) with true
      by (symmetry; apply Z.leb_le; unfold Float.emax, Float.prec; lia).
    reflexivity.
Qed.

Lemma pow2_pos (k : Z) : 0 <= k -> 0 < 2 ^ k.
Proof. intros. apply Z.pow_pos_nonneg; lia. Qed.


Lemma shr_1_sticky (mrs : shr_record) :
  0 <= shr_m mrs ->
  sticky (shr_1 mrs) = sticky mrs || negb (shr_m mrs mod 2 =? 0).
Proof.
  destruct mrs as [[|[p|p|]|p] r s]; unfold sticky; cbn [shr_1 shr_m shr_r shr_s]; intros Hm.
  - change (0 mod 2 =? 0) with true. cbn. by rewrite orb_false_r.
  - rewrite (Pos2Z.inj_xI p).
    replace ((2 * Zpos p + 1) mod 2) with 1
      by (apply Z.mod_unique with (Zpos p); lia).
    cbn. by rewrite orb_true_r.
  - rewrite (Pos2Z.inj_xO p).
    replace ((2 * Zpos p) mod 2) with 0
      by (apply Z.mod_unique with (Zpos p); lia).
    cbn. by rewrite orb_false_r.
  - change (1 mod 2 =? 0) with false. cbn. by rewrite orb_true_r.
  - lia.
Qed.

Lemma mod_mul_zero (m a b : Z) :
  0 < a -> 0 < b ->
  (m mod (a * b) =? 0) = (m mod a =? 0) && (m / a mod b =? 0).
Proof.
  intros Ha Hb. rewrite Z.rem_mul_r by lia.
  pose proof (Z.mod_pos_bound m a Ha). pose proof (Z.mod_pos_bound (m / a) b Hb).
  destruct (Z.eqb_spec (m mod a) 0) as [E1|E1];
    destruct (Z.eqb_spec (m / a mod b) 0) as [E2|E2]; cbn; apply Z.eqb_eq || apply Z.eqb_neq; nia.
Qed.

Lemma iter_shr_1_sticky (n : positive) (mrs : shr_record) :
  0 <= shr_m mrs ->
  sticky (SpecFloat.iter_pos shr_1 n mrs)
  = sticky mrs || negb (shr_m mrs mod 2 ^ Zpos n =? 0).
Proof.
  revert mrs. induction n as [n IH|n IH|]; intros mrs Hm; cbn [SpecFloat.iter_pos].
  - destruct (shr_1_m mrs Hm) as [E1 H1].
    destruct (iter_shr_1_m n _ H1) as [E2 H2].
    pose proof (pow2_pos (Zpos n) ltac:(lia)).
    rewrite (IH _ H2), (IH _ H1), (shr_1_sticky _ Hm), E2, E1, pow2_xI.
    rewrite (mod_mul_zero (shr_m mrs) 2 (2 ^ Zpos n * 2 ^ Zpos n)) by lia.
    rewrite (mod_mul_zero (shr_m mrs / 2) (2 ^ Zpos n) (2 ^ Zpos n)) by lia.
    rewrite !negb_andb, !orb_assoc. done.
  - destruct (iter_shr_1_m n _ Hm) as [E2 H2].
    pose proof (pow2_pos (Zpos n) ltac:(lia)).
    rewrite (IH _ H2), (IH _ Hm), E2, pow2_xO.
    rewrite (mod_mul_zero (shr_m mrs) (2 ^ Zpos n) (2 ^ Zpos n)) by lia.
    rewrite !negb_andb, !orb_assoc. done.
  - rewrite (shr_1_sticky _ Hm). done.
Qed.

Lemma shr_sticky (mrs : shr_record) (e n : Z) :
  0 <= shr_m mrs ->
  sticky (fst (shr mrs e n))
  = sticky mrs || negb (shr_m mrs mod 2 ^ Z.max 0 n =? 0).
Proof.
  intros Hm. destruct n as [|n|n]; cbn [shr fst].
  - change (2 ^ Z.max 0 0) with 1. rewrite Z.mod_1_r. cbn. by rewrite orb_false_r.
  - replace (Z.max 0 (Zpos n)) with (Zpos n) by lia. by apply iter_shr_1_sticky.
  - replace (Z.max 0 (Zneg n)) with 0 by lia. change (2 ^ 0) with 1.
    rewrite Z.mod_1_r. cbn. by rewrite orb_false_r.
Qed.

Lemma round_nearest_even_sticky (mrs : shr_record) :
  round_nearest_even (shr_m mrs) (loc_of_shr_record mrs)
  <= shr_m mrs + (if sticky mrs then 1 else 0).
Proof.
  destruct mrs as [m [] []]; unfold sticky; cbn; try lia.
  destruct (Z.even m); lia.
Qed.

(** The quotient rounded up. *)
Lemma cdiv_eq (m b : Z) :
  0 < b ->
  m / b + (if negb (m mod b =? 0) then 1 else 0) = (m + b - 1) / b.
Proof.
  intros Hb. pose proof (Z.div_mod m b ltac:(lia)) as Hdm.
  pose proof (Z.mod_pos_bound m b Hb).
  destruct (Z.eqb_spec (m mod b) 0) as [E|E]; cbn.
  - apply Z.div_unique with (b - 1); lia.
  - apply Z.div_unique with (m mod b - 1); lia.
Qed.

Lemma cdiv_div (m a b : Z) :
  0 <= m -> 0 < a -> 0 < b ->
  (m + a - 1) / a / b <= (m + a * b - 1) / (a * b).
Proof.
  intros Hm Ha Hb. rewrite Z.div_div by lia.
  apply Z.div_le_mono; nia.
Qed.

(** [binary_round_aux] on an exact product: two shifts to the right, the
    first one rounded to nearest even.  The mantissas lie between the
    quotient and the quotient rounded up: an exact shift is not rounded
    up. *)
Lemma binary_round_aux_exact_up (s : bool) (M : positive) (E : Z) :
  exists m1 m2 j1 j2,
    j1 = Z.max 0 (fexp Float.prec Float.emax (Zdigits2 (Zpos M) + E) - E)
    /\ Zpos M / 2 ^ j1 <= m1 <= (Zpos M + 2 ^ j1 - 1) / 2 ^ j1
    /\ j2 = Z.max 0 (fexp Float.prec Float.emax (Zdigits2 m1 + (E + j1)) - (E + j1))
    /\ m2 = m1 / 2 ^ j2
    /\ binary_round_aux Float.prec Float.emax s (Zpos M) E loc_Exact
       = rounded s m2 (E + j1 + j2).
Proof.
  unfold binary_round_aux, shr_fexp.
  set (n1 := fexp Float.prec Float.emax (Zdigits2 (Zpos M) + E) - E).
  assert (H0 : 0 <= shr_m (shr_record_of_loc (Zpos M) loc_Exact)) by (cbn; lia).
  destruct (shr_spec (shr_record_of_loc (Zpos M) loc_Exact) E n1 H0) as (Hm1 & He1 & Hp1).
  pose proof (shr_sticky (shr_record_of_loc (Zpos M) loc_Exact) E n1 H0) as Hs1.
  destruct (shr (shr_record_of_loc (Zpos M) loc_Exact) E n1) as [mrs1 e1].
  cbn [fst snd] in Hm1, He1, Hp1, Hs1. cbn [shr_record_of_loc shr_m] in Hm1, Hs1.
  change (sticky {| shr_m := Zpos M; shr_r := false; shr_s := false |}) with false in Hs1.
  cbn [orb] in Hs1.
  set (m1 := round_nearest_even (shr_m mrs1) (loc_of_shr_record mrs1)).
  pose proof (round_nearest_even_range (shr_m mrs1) (loc_of_shr_record mrs1)) as Hr.
  pose proof (round_nearest_even_sticky mrs1) as Hu.
  fold m1 in Hr, Hu.
  set (n2 := fexp Float.prec Float.emax (Zdigits2 m1 + e1) - e1).
  assert (H1 : 0 <= shr_m (shr_record_of_loc m1 loc_Exact)) by (cbn; lia).
  destruct (shr_spec (shr_record_of_loc m1 loc_Exact) e1 n2 H1) as (Hm2 & He2 & Hp2).
  destruct (shr (shr_record_of_loc m1 loc_Exact) e1 n2) as [mrs2 e2].
  cbn [fst snd] in Hm2, He2, Hp2. cbn [shr_record_of_loc shr_m] in Hm2.
  exists m1, (shr_m mrs2), (Z.max 0 n1), (Z.max 0 n2).
  split; [done|]. split.
  { split; [lia|]. rewrite <- cdiv_eq by (apply pow2_pos; lia).
    rewrite Hs1, Hm1 in Hu. done. }
  split; [by subst e1 n2|]. split; [done|].
  unfold rounded. subst e2 e1. done.
Qed.

(** Rounding [M * 2 ^ E], a number of at most [2 ^ c], to binary64. *)
Lemma round_capped_up (s : bool) (M : positive) (E c : Z) :
  Zpos M <= 2 ^ (c - E) ->
  E <= c - 52 ->
  -1022 <= c ->
  exists m2 e2,
    binary_round_aux Float.prec Float.emax s (Zpos M) E loc_Exact = rounded s m2 e2
    /\ E <= e2 <= c - 52
    /\ 0 <= m2
    /\ Zpos M / 2 ^ (e2 - E) <= m2 <= (Zpos M + 2 ^ (e2 - E) - 1) / 2 ^ (e2 - E).
Proof.
  intros HM HE Hc.
  destruct (binary_round_aux_exact_up s M E)
    as (m1 & m2 & j1 & j2 & Hj1 & Hm1 & Hj2 & Hm2 & Hr).
  rewrite fexp_binary64 in Hj1, Hj2.
  assert (HdM : Zdigits2 (Zpos M) <= c - E + 1).
  { apply Zdigits2_le. split; [lia|].
    rewrite Z.pow_add_r, Z.pow_1_r by lia. pose proof (pow2_pos (c - E)). lia. }
  assert (Hj1' : 0 <= j1 /\ E + j1 <= c - 52) by lia.
  pose proof (pow2_pos j1 ltac:(lia)) as Hp1.
  assert (Hup : (Zpos M + 2 ^ j1 - 1) / 2 ^ j1 <= Zpos M / 2 ^ j1 + 1).
  { rewrite <- cdiv_eq by done. destruct (negb _); lia. }
  assert (Hq1 : 0 <= Zpos M / 2 ^ j1 <= 2 ^ (c - (E + j1))).
  { split; [apply Z.div_pos; lia|].
    replace (c - (E + j1)) with (c - E - j1) by lia.
    rewrite Z.pow_sub_r by lia.
    apply Z.div_le_mono; lia. }
  assert (Hbig : 2 ^ 1 <= 2 ^ (c - (E + j1))) by (apply Z.pow_le_mono_r; lia).
  rewrite Z.pow_1_r in Hbig.
  assert (Hd1 : Zdigits2 m1 <= c - (E + j1) + 1).
  { apply Zdigits2_le. split; [lia|].
    rewrite Z.pow_add_r, Z.pow_1_r by lia. lia. }
  assert (Hj2' : 0 <= j2 /\ E + j1 + j2 <= c - 52) by lia.
  exists m2, (E + j1 + j2). split; [done|]. split; [lia|].
  pose proof (pow2_pos j2 ltac:(lia)) as Hp2.
  replace (E + j1 + j2 - E) with (j1 + j2) by lia.
  rewrite Z.pow_add_r by lia.
  subst m2. split; [apply Z.div_pos; lia|]. split.
  - rewrite <- Z.div_div by lia. apply Z.div_le_mono; lia.
  - etransitivity; [apply Z.div_le_mono; [lia|apply Hm1]|].
    apply cdiv_div; lia.
Qed.

(** [to_ns] of a positive float whose product with [NANO] is at most
    [2 ^ c]. *)
Lemma to_ns_capped_up (mx : positive) (ex c : Z) :
  Zpos mx * 8388608000000000 <= 2 ^ (c - (ex - 23)) ->
  ex - 23 <= c - 52 ->
  -1022 <= c <= 1023 ->
  exists m2 e2,
    to_ns (S754_finite false mx ex) = Ok (trunc_Z m2 e2)
    /\ ex - 23 <= e2 <= c - 52
    /\ 0 <= m2
    /\ Zpos mx * 8388608000000000 / 2 ^ (e2 - (ex - 23)) <= m2
       <= (Zpos mx * 8388608000000000 + 2 ^ (e2 - (ex - 23)) - 1) / 2 ^ (e2 - (ex - 23)).
Proof.
  intros HM HE Hc.
  destruct (round_capped_up (xorb false false) (mx * 8388608000000000) (ex + -23) c)
    as (m2 & e2 & Hr & He2 & Hm2 & Hb).
  - rewrite Pos2Z.inj_mul. replace (ex + -23) with (ex - 23) by lia. done.
  - lia.
  - lia.
  - exists m2, e2. unfold to_ns. rewrite mul_NANO_float, Hr.
    rewrite Pos2Z.inj_mul in Hb. replace (ex + -23) with (ex - 23) in * by lia.
    split; [apply to_int_rounded; lia|]. done.
Qed.

Lemma cdiv_scaled (a b k : Z) :
  0 < b -> 0 < k ->
  (a * k + b * k - 1) / (b * k) = (a + b - 1) / b.
Proof.
  intros Hb Hk. rewrite (Z.mul_comm b k), <- Z.div_div by lia.
  f_equal. symmetry. apply Z.div_unique with (k - 1); lia.
Qed.

(** [to_ns] of a positive float whose exact product with [NANO] is at
    most [2 ^ 52]: the integer just below or just above the product. *)
Lemma to_ns_small (m : positive) (e : Z) :
  e < 0 ->
  Zpos m * NANO <= 2 ^ 52 * 2 ^ (- e) ->
  exists n,
    to_ns (S754_finite false m e) = Ok n
    /\ Zpos m * NANO / 2 ^ (- e) <= n <= (Zpos m * NANO + 2 ^ (- e) - 1) / 2 ^ (- e).
Proof.
  intros He Hcap.
  pose proof (pow2_pos (- e) ltac:(lia)) as HB.
  destruct (to_ns_capped_up m e 52) as (m2 & e2 & Hns & He2 & Hm2 & Hlo & Hhi).
  - replace (52 - (e - 23)) with (52 + 23 + - e) by lia.
    rewrite !Z.pow_add_r by lia. rewrite NANO_mantissa.
    change (2 ^ 23) with 8388608 in *. change (2 ^ 52) with 4503599627370496 in *. nia.
  - lia.
  - lia.
  - exists (trunc_Z m2 e2). split; [done|].
    set (A := Zpos m * NANO) in *.
    assert (HM : Zpos m * 8388608000000000 = A * 2 ^ 23)
      by (unfold A; rewrite NANO_mantissa; lia).
    rewrite HM in Hlo, Hhi.
    assert (HF : A * 2 ^ 23 / 2 ^ (23 - e) = A / 2 ^ (- e)).
    { replace (23 - e) with (-e + 23) by lia. rewrite Z.pow_add_r by lia.
      apply Z.div_mul_cancel_r; lia. }
    assert (HC : (A * 2 ^ 23 + 2 ^ (23 - e) - 1) / 2 ^ (23 - e)
                 = (A + 2 ^ (- e) - 1) / 2 ^ (- e)).
    { replace (23 - e) with (-e + 23) by lia. rewrite Z.pow_add_r by lia.
      apply cdiv_scaled; lia. }
    destruct e2 as [|q|q]; cbn [trunc_Z]; [|lia|].
    + replace (0 - (e - 23)) with (23 - e) in Hlo, Hhi by lia.
      rewrite HF in Hlo. rewrite HC in Hhi. lia.
    + pose proof (pow2_pos (Zpos q) ltac:(lia)) as Hq0.
      pose proof (pow2_pos (Zneg q - (e - 23)) ltac:(lia)) as Hj.
      assert (Hsplit : 2 ^ (23 - e) = 2 ^ (Zneg q - (e - 23)) * 2 ^ Zpos q).
      { rewrite <- Z.pow_add_r by lia. f_equal. lia. }
      split.
      * rewrite <- HF, Hsplit, <- Z.div_div by lia. apply Z.div_le_mono; lia.
      * rewrite <- HC, Hsplit.
        etransitivity; [apply Z.div_le_mono; [lia|apply Hhi]|].
        apply cdiv_div; [|lia|lia].
        unfold A. pose proof (pow2_pos 23 ltac:(lia)). unfold NANO. nia.
Qed.

(** [int(x)] truncates toward zero. *)
Lemma to_int_truncates (y : spec_float) :
  Float.is_finite y = true ->
  Float.to_int y = Ok (Float.num y ÷ 2 ^ Float.scale y).
Proof.
  destruct y as [s|s| |s m e]; try discriminate; intros _; cbn [Float.to_int].
  - done.
  - f_equal. destruct e as [|p|p]; cbn [Float.num Float.scale Float.trunc_mag].
    + change (2 ^ 0) with 1. by rewrite Z.quot_1_r.
    + change (2 ^ 0) with 1. by rewrite Z.quot_1_r.
    + pose proof (pow2_pos (Zpos p) ltac:(lia)).
      destruct s; cbn [cond_Zopp].
      * rewrite Z.quot_opp_l, Z.quot_div_nonneg by lia. done.
      * rewrite Z.quot_div_nonneg by lia. done.
Qed.

Lemma to_stamp_int (ns : Z) :
  to_stamp (PyInt ns) = (PyInt (ns / NANO), PyInt (ns mod NANO))
  /\ 0 <= ns mod NANO < NANO
  /\ ns / NANO * NANO + ns mod NANO = ns.
Proof.
  split; [done|]. split.
  - apply Z.mod_pos_bound. reflexivity.
  - pose proof (Z.div_mod ns NANO ltac:(discriminate)). lia.
Qed.

Lemma valid_finite (s : bool) (m : positive) (e : Z) :
  Float.valid (S754_finite s m e) = true ->
  fexp Float.prec Float.emax (Zpos (digits2_pos m) + e) = e
  /\ Zpos m < 2 ^ 53
  /\ -1074 <= e <= 971.
Proof.
  unfold Float.valid, valid_binary, bounded, canonical_mantissa.
  intros [Hc He]%andb_true_iff. apply Z.eqb_eq in Hc. apply Z.leb_le in He.
  split; [done|]. rewrite fexp_binary64 in Hc.
  unfold Float.emax, Float.prec in He.
  split; [|lia].
  destruct (digits2_bounds m) as [_ Hlt].
  eapply Z.lt_le_trans; [exact Hlt|]. apply Z.pow_le_mono_r; lia.
Qed.

Lemma positive_finite (x : spec_float) :
  Float.ltb Float.zero x = true ->
  Float.ltb x NANO_float = true ->
  exists m e, x = S754_finite false m e.
Proof.
  destruct x as [s|s| |s m e]; try discriminate.
  - by destruct s.
  - destruct s; [discriminate|]. eauto.
Qed.

Lemma below_NANO (m : positive) (e : Z) :
  Float.valid (S754_finite false m e) = true ->
  Float.ltb (S754_finite false m e) NANO_float = true ->
  e <= -23 /\ Zpos m < 8388608000000000 * 2 ^ (-23 - e).
Proof.
  intros (_ & Hm & _)%valid_finite.
  unfold Float.ltb, SFltb, NANO_float, SFcompare.
  destruct (Z.compare_spec e (-23)) as [->|Hlt|Hgt]; [| |discriminate].
  - rewrite Pos.compare_cont_spec. cbn [Pos.switch_Eq].
    destruct (Pos.compare_spec m 8388608000000000) as [->|Hlt|Hgt]; try discriminate.
    apply Pos2Z.pos_lt_pos in Hlt.
    intros _. split; [lia|]. change (2 ^ (-23 - -23)) with 1. lia.
  - intros _. split; [lia|].
    assert (2 ^ 1 <= 2 ^ (-23 - e)) by (apply Z.pow_le_mono_r; lia).
    change (2 ^ 1) with 2 in *. change (2 ^ 53) with 9007199254740992 in Hm. lia.
Qed.

Lemma iter_xO (m d : positive) : Zpos (Pos.iter xO m d) = Zpos m * 2 ^ Zpos d.
Proof.
  induction d as [|d IH] using Pos.peano_ind.
  - cbn [Pos.iter]. rewrite (Pos2Z.inj_xO m), Z.pow_1_r. lia.
  - rewrite Pos.iter_succ, (Pos2Z.inj_xO (Pos.iter xO m d)), IH.
    rewrite Pos2Z.inj_succ, Z.pow_succ_r by lia. lia.
Qed.

Lemma shl_align_spec (m : positive) (e e' : Z) :
  e' <= e -> Zpos (fst (shl_align m e e')) = Zpos m * 2 ^ (e - e').
Proof.
  intros He. unfold shl_align.
  destruct (e' - e) as [|d|d] eqn:Hd; cbn [fst].
  - replace (e - e') with 0 by lia. lia.
  - lia.
  - rewrite iter_xO. replace (e - e') with (Zpos d) by lia. done.
Qed.

Lemma shl_align_same (m : positive) (e : Z) : shl_align m e e = (m, e).
Proof. unfold shl_align. by rewrite Z.sub_diag. Qed.

(** Rounding a float that is representable gives it back. *)
Lemma binary_round_aux_canonical (s : bool) (m : positive) (e : Z) :
  Float.valid (S754_finite s m e) = true ->
  binary_round_aux Float.prec Float.emax s (Zpos m) e loc_Exact = S754_finite s m e.
Proof.
  intros Hv. pose proof Hv as (Hc & _ & He)%valid_finite.
  unfold binary_round_aux, shr_fexp. cbn [Zdigits2].
  rewrite Hc, Z.sub_diag. cbn [shr shr_record_of_loc loc_of_shr_record shr_m round_nearest_even].
  cbn [Zdigits2]. rewrite Hc, Z.sub_diag. cbn [shr shr_record_of_loc shr_m].
  replace (e <=? Float.emax - Float.prec) with true; [done|].
  symmetry. apply Z.leb_le. unfold Float.emax, Float.prec. lia.
Qed.

Lemma binary_normalize_canonical (m : positive) (e : Z) :
  Float.valid (S754_finite false m e) = true ->
  binary_normalize Float.prec Float.emax (Zpos m) e false = S754_finite false m e.
Proof.
  intros Hv. pose proof Hv as (Hc & _)%valid_finite.
  unfold binary_normalize, binary_round. rewrite Hc, shl_align_same.
  by apply binary_round_aux_canonical.
Qed.

Lemma fmod_below_NANO (m : positive) (e : Z) :
  Float.valid (S754_finite false m e) = true ->
  Float.ltb (S754_finite false m e) NANO_float = true ->
  Float.fmod (S754_finite false m e) NANO_float = S754_finite false m e.
Proof.
  intros Hv Hlt. destruct (below_NANO m e Hv Hlt) as [He Hm].
  unfold Float.fmod, NANO_float.
  replace (Z.min e (-23)) with e by lia.
  rewrite shl_align_same. cbn [fst cond_Zopp].
  rewrite shl_align_spec by lia.
  rewrite Z.mod_small by lia.
  by apply binary_normalize_canonical.
Qed.

Lemma sub_self (m : positive) (e : Z) :
  Float.sub (S754_finite false m e) (S754_finite false m e) = Float.zero.
Proof.
  unfold Float.sub, SFsub. cbn [cond_Zopp]. by rewrite Z.sub_diag.
Qed.

Lemma sign_bit_binary_round_aux (m e : Z) (l : location) :
  Float.sign_bit (binary_round_aux Float.prec Float.emax false m e l) = false.
Proof.
  unfold binary_round_aux.
  destruct (shr_fexp _ _ m e l) as [mrs' e'].
  destruct (shr_fexp _ _ _ e' loc_Exact) as [mrs'' e''].
  destruct (shr_m mrs''); [done| |done].
  by destruct (e'' <=? Float.emax - Float.prec).
Qed.

Lemma sign_bit_div_positive (m1 m2 : positive) (e1 e2 : Z) :
  Float.sign_bit (Float.div (S754_finite false m1 e1) (S754_finite false m2 e2)) = false.
Proof.
  unfold Float.div, SFdiv.
  destruct (SFdiv_core_binary _ _ _ _ _ _) as [[mz ez] lz].
  apply sign_bit_binary_round_aux.
Qed.

(** [stamp // NANO] and [stamp % NANO] for a float [0 < stamp < NANO]. *)
Lemma to_stamp_below_NANO (stamp : spec_float) :
  Float.valid stamp = true ->
  Float.ltb Float.zero stamp = true ->
  Float.ltb stamp NANO_float = true ->
  to_stamp (PyFloat stamp) = (PyFloat Float.zero, PyFloat stamp).
Proof.
  intros Hv Hpos Hlt.
  destruct (positive_finite stamp Hpos Hlt) as (m & e & ->).
  unfold to_stamp, Float.floordiv, Float.rem.
  rewrite (fmod_below_NANO m e Hv Hlt). cbn [Float.nonzero].
  change (Float.ltb NANO_float Float.zero) with false.
  change (Float.ltb (S754_finite false m e) Float.zero) with false.
  cbn [Bool.eqb negb andb].
  rewrite sub_self.
  change (Float.div Float.zero NANO_float) with Float.zero.
  cbn [Float.nonzero Float.zero].
  unfold Float.copysign_zero, NANO_float. rewrite sign_bit_div_positive. done.
Qed.

Lemma div_mul_ge (a b : Z) : 0 < b -> a - b < a / b * b.
Proof.
  intros Hb. pose proof (Z.div_mod a b ltac:(lia)) as Hdm.
  pose proof (Z.mod_pos_bound a b Hb). lia.
Qed.

(** [to_ns] of a float [0 < stamp < NANO]: no overflow, and at most 256
    below the integer part of the exact product. *)
Lemma to_ns_below_NANO (m : positive) (e : Z) :
  Float.valid (S754_finite false m e) = true ->
  Float.ltb (S754_finite false m e) NANO_float = true ->
  exists n,
    to_ns (S754_finite false m e) = Ok n
    /\ Zpos m * NANO / 2 ^ (- e) - 256 <= n.
Proof.
  intros Hv Hlt. destruct (below_NANO m e Hv Hlt) as [He Hm].
  pose proof (pow2_pos (-23 - e) ltac:(lia)) as HP.
  destruct (to_ns_capped_up m e 60) as (m2 & e2 & Hns & He2 & Hm2 & Hlo & _).
  - replace (60 - (e - 23)) with (106 + (-23 - e)) by lia.
    rewrite Z.pow_add_r by lia.
    set (P := 2 ^ (-23 - e)) in *. clearbody P.
    change (2 ^ 106) with 81129638414606681695789005144064.
    transitivity (8388608000000000 * P * 8388608000000000).
    + apply Z.mul_le_mono_nonneg_r; lia.
    + replace (8388608000000000 * P * 8388608000000000)
        with (70368744177664000000000000000000 * P) by lia.
      * apply Z.mul_le_mono_nonneg_r; lia.
  - lia.
  - lia.
  - exists (trunc_Z m2 e2). split; [done|].
    set (F := Zpos m * NANO / 2 ^ (- e)).
    assert (HF : Zpos m * 8388608000000000 / 2 ^ (23 - e) = F).
    { unfold F. rewrite NANO_mantissa.
      replace (23 - e) with (-e + 23) by lia.
      rewrite Z.pow_add_r, Z.mul_assoc by lia.
      pose proof (pow2_pos (-e) ltac:(lia)).
      apply Z.div_mul_cancel_r; lia. }
    destruct e2 as [|q|q]; cbn [trunc_Z].
    + replace (0 - (e - 23)) with (23 - e) in Hlo by lia. lia.
    + assert (Hq : 2 ^ Zpos q <= 2 ^ 8) by (apply Z.pow_le_mono_r; lia).
      change (2 ^ 8) with 256 in Hq.
      pose proof (pow2_pos (Zpos q) ltac:(lia)) as Hq0.
      pose proof (pow2_pos (23 - e) ltac:(lia)) as Hq1.
      replace (Zpos q - (e - 23)) with (23 - e + Zpos q) in Hlo by lia.
      rewrite Z.pow_add_r, <- Z.div_div, HF in Hlo by lia.
      pose proof (div_mul_ge F (2 ^ Zpos q) Hq0).
      assert (F / 2 ^ Zpos q * 2 ^ Zpos q <= m2 * 2 ^ Zpos q)
        by (apply Z.mul_le_mono_nonneg_r; lia).
      lia.
    + pose proof (pow2_pos (Zpos q) ltac:(lia)) as Hq0.
      assert (HF' : F <= m2 / 2 ^ Zpos q).
      { rewrite <- HF. replace (23 - e) with (Zneg q - (e - 23) + Zpos q) by lia.
        pose proof (pow2_pos (Zneg q - (e - 23)) ltac:(lia)).
        rewrite Z.pow_add_r, <- Z.div_div by lia.
        apply Z.div_le_mono; lia. }
      lia.
Qed.

(** The pair [log] puts in the record is never equal to the pair of the
    record's [log_time], for a stamp between 0 and [NANO]. *)
Lemma stamp_pairs_differ (stamp : spec_float) (ns : Z) :
  Float.valid stamp = true ->
  Float.ltb Float.zero stamp = true ->
  Float.ltb stamp NANO_float = true ->
  to_ns stamp = Ok ns ->
  stamp_eqb (to_stamp (PyFloat stamp)) (to_stamp (PyInt ns)) = false.
Proof.
  intros Hv Hpos Hlt Hns.
  rewrite (to_stamp_below_NANO stamp Hv Hpos Hlt).
  destruct (positive_finite stamp Hpos Hlt) as (m & e & ->).
  destruct (below_NANO m e Hv Hlt) as [He Hm].
  destruct (to_ns_below_NANO m e Hv Hlt) as (n & Hn & Hlow).
  rewrite Hns in Hn. injection Hn as <-.
  unfold stamp_eqb, to_stamp. cbn [fst snd pynum_eqb Float.is_finite Float.zero andb].
  apply andb_false_iff.
  destruct (Float.num (S754_zero false) =? ns / NANO * 2 ^ Float.scale (S754_zero false)) eqn:Hsec;
    [right|by left].
  apply Z.eqb_eq in Hsec. cbn [Float.num Float.scale] in Hsec.
  apply Z.eqb_neq. intros Hnsec.
  destruct e as [|q|q]; [lia|lia|]. cbn [Float.num Float.scale cond_Zopp] in Hnsec.
  assert (Hdiv : ns / NANO = 0) by lia.
  apply Z.div_small_iff in Hdiv; [|unfold NANO; lia].
  destruct Hdiv as [Hdiv|Hdiv]; [|unfold NANO in Hdiv; lia].
  rewrite Z.mod_small in Hnsec by done.
  pose proof (pow2_pos (Zpos q) ltac:(lia)) as Hq0.
  change (- Zneg q) with (Zpos q) in Hlow.
  rewrite Hnsec in Hlow.
  replace (ns * 2 ^ Zpos q * NANO) with (ns * NANO * 2 ^ Zpos q) in Hlow by lia.
  rewrite Z.div_mul in Hlow by lia.
  assert (1 <= ns) by nia.
  unfold NANO in *. lia.
Qed.

(** C8, amended.  [to_ns t] is the double-precision product [t * NANO]
    truncated toward zero, whenever that product is finite.  [to_stamp] of
    an integer [ns] is a pair [(sec, nsec)] with [0 <= nsec < NANO] and
    [sec * NANO + nsec = ns].  For a finite, non-negative [t] with
    [t * NANO <= 2 ^ 52], [to_ns t] returns and [to_stamp (to_ns t)] is less
    than one nanosecond away from [t]. *)
Theorem time_codec :
  (forall t,
      Float.is_finite (Float.mul t NANO_float) = true ->
      to_ns t = Ok (Float.num (Float.mul t NANO_float)
                    ÷ 2 ^ Float.scale (Float.mul t NANO_float)))
  /\ (forall ns,
         exists sec nsec,
           to_stamp (PyInt ns) = (PyInt sec, PyInt nsec)
           /\ 0 <= nsec < NANO
           /\ sec * NANO + nsec = ns)
  /\ (forall t,
         Float.valid t = true ->
         Float.is_finite t = true ->
         Float.sign_bit t = false ->
         Float.num t * NANO <= 2 ^ 52 * 2 ^ Float.scale t ->
         exists n sec nsec,
           to_ns t = Ok n
           /\ to_stamp (PyInt n) = (PyInt sec, PyInt nsec)
           /\ 0 <= nsec < NANO
           /\ (sec * NANO + nsec - 1) * 2 ^ Float.scale t
              < Float.num t * NANO
              < (sec * NANO + nsec + 1) * 2 ^ Float.scale t).
Proof.
  split; [|split].
  - intros t Hfin. unfold to_ns. by apply to_int_truncates.
  - intros ns. destruct (to_stamp_int ns) as (Hs & Hr & Hq). eauto.
  - intros t Hv Hfin Hsign Hcap.
    assert (Hn : exists n, to_ns t = Ok n
                           /\ (n - 1) * 2 ^ Float.scale t < Float.num t * NANO
                              < (n + 1) * 2 ^ Float.scale t).
    { destruct t as [s|s| |s m e]; try discriminate.
      - exists 0. split; [done|]. cbn. lia.
      - cbn in Hsign. subst s.
        destruct (valid_finite _ _ _ Hv) as (Hc & Hm & He).
        rewrite fexp_binary64 in Hc.
        destruct (digits2_bounds m) as [Hlo _].
        destruct e as [|q|q].
        + exfalso. cbn [Float.num Float.scale cond_Zopp] in Hcap.
          assert (Hd : Zpos (digits2_pos m) = 53) by lia. rewrite Hd in Hlo.
          change (2 ^ (53 - 1)) with 4503599627370496 in Hlo.
          change (2 ^ 52 * 2 ^ 0) with 4503599627370496 in Hcap.
          unfold NANO in Hcap. lia.
        + exfalso. cbn [Float.num Float.scale cond_Zopp] in Hcap.
          assert (Hd : Zpos (digits2_pos m) = 53) by lia. rewrite Hd in Hlo.
          change (2 ^ (53 - 1)) with 4503599627370496 in Hlo.
          change (2 ^ 52 * 2 ^ 0) with 4503599627370496 in Hcap.
          pose proof (pow2_pos (Zpos q) ltac:(lia)). unfold NANO in Hcap. nia.
        + cbn [Float.num Float.scale cond_Zopp] in Hcap |- *.
          destruct (to_ns_small m (Zneg q) ltac:(lia) Hcap) as (n & Hn & Hfl & Hce).
          change (- Zneg q) with (Zpos q) in Hfl, Hce.
          exists n. split; [done|].
          pose proof (pow2_pos (Zpos q) ltac:(lia)) as HB.
          set (A := Zpos m * NANO) in *. set (B := 2 ^ Zpos q) in *.
          pose proof (Z.div_mod A B ltac:(lia)) as Hd1.
          pose proof (Z.mod_pos_bound A B HB) as Hd2.
          pose proof (Z.mul_div_le (A + B - 1) B HB) as Hd3.
          split; nia. }
    destruct Hn as (n & Hn & Hclose).
    destruct (to_stamp_int n) as (Hs & Hr & Hq).
    exists n, (n / NANO), (n mod NANO). rewrite Hq. done.
Qed.

Section FileLogStamp.

Context {W : Type} `{Writer W}.

(** C10.  For every [log] call the pair in the record is the float floor
    quotient and remainder of the raw [stamp] by [NANO], which is what
    [to_stamp] makes of a float, while log time and publish time are
    [int(stamp * NANO)]; when that conversion raises, [log] raises the same
    and writes nothing.  For a stamp between 0 and [NANO] the pair in the
    record is [(0.0, stamp)] and is not equal to [to_stamp] of the log time,
    the integer quotient and remainder of the nanoseconds. *)
Theorem log_body_stamp_differs (self : MCAPLogger.t W) msg stamp level :
  let body := MCAPLogger.log_body msg stamp level in
  let ch := channel_id (MCAPLogger.registration_log self) in
  (body_sec body, body_nsec body)
  = (PyFloat (Float.floordiv stamp NANO_float), PyFloat (Float.rem stamp NANO_float))
  /\ (body_sec body, body_nsec body) = to_stamp (PyFloat stamp)
  /\ to_ns stamp = Float.to_int (Float.mul stamp NANO_float)
  /\ match Float.to_int (Float.mul stamp NANO_float) with
     | Ok ns =>
         fst (MCAPLogger.log msg stamp level self)
         = fst (add_message ch ns (LogJson body) ns (MCAPLogger._writer self))
         /\ MCAPLogger.writer_calls (snd (MCAPLogger.log msg stamp level self))
            = MCAPLogger.writer_calls self ++ [CallAddMessage ch ns (LogJson body) ns]
     | Raise e => MCAPLogger.log msg stamp level self = (Raise e, self)
     end
  /\ (Float.valid stamp = true ->
      Float.ltb Float.zero stamp = true ->
      Float.ltb stamp NANO_float = true ->
      exists ns,
        to_ns stamp = Ok ns
        /\ (body_sec body, body_nsec body) = (PyFloat Float.zero, PyFloat stamp)
        /\ MCAPLogger.writer_calls (snd (MCAPLogger.log msg stamp level self))
           = MCAPLogger.writer_calls self ++ [CallAddMessage ch ns (LogJson body) ns]
        /\ to_stamp (PyInt ns) = (PyInt (ns / NANO), PyInt (ns mod NANO))
        /\ stamp_eqb (body_sec body, body_nsec body) (to_stamp (PyInt ns)) = false).
Proof.
  intros body ch.
  assert (Hbody : (body_sec body, body_nsec body) = to_stamp (PyFloat stamp)).
  { unfold body, MCAPLogger.log_body. by destruct (to_stamp (PyFloat stamp)). }
  split; [exact Hbody|]. split; [exact Hbody|]. split; [done|].
  split.
  - change (Float.to_int (Float.mul stamp NANO_float)) with (to_ns stamp).
    destruct (to_ns stamp) as [ns|e] eqn:Hns.
    + by apply log_reaches_writer.
    + unfold MCAPLogger.log, bind, lift. by rewrite Hns.
  - intros Hv Hpos Hlt.
    destruct (positive_finite stamp Hpos Hlt) as (m & e & Hst).
    assert (Hns : exists ns, to_ns stamp = Ok ns).
    { rewrite Hst in Hv, Hlt |- *.
      destruct (to_ns_below_NANO m e Hv Hlt) as (n & Hn & _). eauto. }
    destruct Hns as (ns & Hns). exists ns. split; [done|].
    rewrite Hbody.
    split; [by apply to_stamp_below_NANO|].
    split; [by apply log_reaches_writer|].
    split; [done|].
    by apply stamp_pairs_differ.
Qed.

End FileLogStamp.

Section FloatRuns.

Import Recording.

(** C8: the code does not do this.  [2 ^ 1000] is a finite double and
    [to_ns] of it raises: the product is infinite.  At
    [1700000000 + 2 ^ -22] seconds [to_ns] is more than 17 ns above the
    stamp, and so is the pair [to_stamp] makes of it. *)
Lemma to_ns_overflows_and_drifts :
  (Float.valid Demo.huge = true
   /\ Float.is_finite Demo.huge = true
   /\ to_ns Demo.huge = Raise (OverflowError "cannot convert float infinity to integer"))
  /\ (Float.valid Demo.recent = true
      /\ to_ns Demo.recent = Ok 1700000000000000256
      /\ to_stamp (PyInt 1700000000000000256) = (PyInt 1700000000, PyInt 256)
      /\ (Float.num Demo.recent * NANO + 17 * 2 ^ Float.scale Demo.recent
          < (1700000000 * NANO + 256) * 2 ^ Float.scale Demo.recent)).
Proof. repeat split; vm_compute; reflexivity. Qed.

Lemma time_codec_witness :
  Float.is_finite (Float.mul Demo.one_and_a_half NANO_float) = true
  /\ to_ns Demo.one_and_a_half = Ok 1500000000
  /\ Float.num Demo.one_and_a_half * NANO <= 2 ^ 52 * 2 ^ Float.scale Demo.one_and_a_half
  /\ (exists n sec nsec,
         to_ns Demo.one_and_a_half = Ok n
         /\ to_stamp (PyInt n) = (PyInt sec, PyInt nsec)
         /\ 0 <= nsec < NANO
         /\ (sec * NANO + nsec - 1) * 2 ^ Float.scale Demo.one_and_a_half
            < Float.num Demo.one_and_a_half * NANO
            < (sec * NANO + nsec + 1) * 2 ^ Float.scale Demo.one_and_a_half).
Proof.
  destruct time_codec as (Htrunc & _ & Hround).
  split; [vm_compute; reflexivity|].
  split; [rewrite Htrunc; vm_compute; reflexivity|].
  split; [vm_compute; discriminate|].
  apply Hround; [vm_compute; reflexivity .. | vm_compute; discriminate].
Defined.

Lemma log_body_stamp_differs_witness :
  (Float.valid Float.half = true
   /\ Float.ltb Float.zero Float.half = true
   /\ Float.ltb Float.half NANO_float = true
   /\ to_ns Float.half = Ok 500000000
   /\ (let body := MCAPLogger.log_body "tick" Float.half WARNING in
       (body_sec body, body_nsec body) = (PyFloat Float.zero, PyFloat Float.half)
       /\ to_stamp (PyInt 500000000) = (PyInt 0, PyInt 500000000)
       /\ stamp_eqb (body_sec body, body_nsec body) (to_stamp (PyInt 500000000)) = false))
  /\ (let body := MCAPLogger.log_body "tick" Demo.recent WARNING in
      body_sec body = PyFloat Float.one
      /\ MCAPLogger.writer_calls
           (snd (MCAPLogger.log "tick" Demo.recent WARNING Demo.mcap_with_pose))
         = MCAPLogger.writer_calls Demo.mcap_with_pose
           ++ [CallAddMessage
                 (channel_id (MCAPLogger.registration_log Demo.mcap_with_pose))
                 1700000000000000256 (LogJson body) 1700000000000000256]
      /\ to_stamp (PyInt 1700000000000000256) = (PyInt 1700000000, PyInt 256)).
Proof.
  split.
  - destruct (log_body_stamp_differs Demo.mcap_with_pose "tick" Float.half WARNING)
      as (_ & _ & _ & _ & Hsmall).
    destruct (Hsmall eq_refl eq_refl eq_refl) as (ns & Hns & Hpair & _ & Hint & Hne).
    assert (E : ns = 500000000).
    { assert (Hc : to_ns Float.half = Ok 500000000) by (vm_compute; reflexivity).
      rewrite Hc in Hns. by injection Hns. }
    subst ns. do 3 (split; [reflexivity|]).
    split; [exact Hns|]. intros body.
    split; [exact Hpair|]. split; [exact Hint|exact Hne].
  - destruct (log_body_stamp_differs Demo.mcap_with_pose "tick" Demo.recent WARNING)
      as (_ & _ & _ & Hlog & _).
    assert (E : Float.to_int (Float.mul Demo.recent NANO_float) = Ok 1700000000000000256)
      by (vm_compute; reflexivity).
    rewrite E in Hlog. destruct Hlog as [_ Hcalls]. intros body.
    split; [|split; [exact Hcalls|reflexivity]].
    vm_compute. reflexivity.
Defined.

End FloatRuns.

(** * Further properties *)

(** ** Levels *)

Lemma pylog_level_of_Level (l : Level) :
  pylog_level (int_of_Level l) = Ok (10 * int_of_Level l).
Proof. by destruct l. Qed.

(** X1.  [pylog_level] returns ten times the level for each of the six
    levels, so it never raises on a [Level] and keeps their order; on any
    other integer it raises [ValueError]. *)
Theorem pylog_level_scales :
  (forall l, pylog_level (int_of_Level l) = Ok (10 * int_of_Level l))
  /\ (forall z, z < 0 \/ 5 < z -> exists msg, pylog_level z = Raise (ValueError msg))
  /\ (forall l1 l2 p1 p2,
         pylog_level (int_of_Level l1) = Ok p1 ->
         pylog_level (int_of_Level l2) = Ok p2 ->
         (int_of_Level l1 < int_of_Level l2 <-> p1 < p2)).
Proof.
  split; [exact pylog_level_of_Level|]. split.
  - intros z Hz. unfold pylog_level.
    repeat match goal with
           | |- context [?a =? ?b] => destruct (Z.eqb_spec a b) as [E|_]; [cbn in E; lia|]
           end.
    eauto.
  - intros l1 l2 p1 p2. rewrite !pylog_level_of_Level. intros [= <-] [= <-]. lia.
Qed.

(** ** More on the worker of the websocket logger *)

Section WorkerQueue.

Context {V : Type} `{Server V}.

Implicit Types self : FoxgloveWebsocketLogger.t V.
Implicit Types f : FoxgloveWebsocketLogger.frame V.

Lemma publish_running self f topic_name obj stamp :
  FoxgloveWebsocketLogger.thread self = FoxgloveWebsocketLogger.Running f ->
  FoxgloveWebsocketLogger.publish topic_name obj stamp self
  = (Ok tt,
     {| FoxgloveWebsocketLogger.level := FoxgloveWebsocketLogger.level self;
        FoxgloveWebsocketLogger.thread := FoxgloveWebsocketLogger.Running f;
        FoxgloveWebsocketLogger._stop := FoxgloveWebsocketLogger._stop self;
        FoxgloveWebsocketLogger._input_queue :=
          FoxgloveWebsocketLogger._input_queue self ++ [(topic_name, stamp, obj)];
        FoxgloveWebsocketLogger._exception_queue :=
          FoxgloveWebsocketLogger._exception_queue self |}).
Proof.
  intros Hth. unfold FoxgloveWebsocketLogger.publish,
    FoxgloveWebsocketLogger.loop_is_running, FoxgloveWebsocketLogger.thread_is_alive.
  rewrite Hth. done.
Qed.

Lemma publish_all_running calls self f :
  FoxgloveWebsocketLogger.thread self = FoxgloveWebsocketLogger.Running f ->
  FoxgloveWebsocketLogger.publish_all calls self
  = (map (fun _ => Ok tt) calls,
     {| FoxgloveWebsocketLogger.level := FoxgloveWebsocketLogger.level self;
        FoxgloveWebsocketLogger.thread := FoxgloveWebsocketLogger.Running f;
        FoxgloveWebsocketLogger._stop := FoxgloveWebsocketLogger._stop self;
        FoxgloveWebsocketLogger._input_queue :=
          FoxgloveWebsocketLogger._input_queue self ++ map item_of calls;
        FoxgloveWebsocketLogger._exception_queue :=
          FoxgloveWebsocketLogger._exception_queue self |}).
Proof.
  revert self. induction calls as [|[[topic_name obj] stamp] calls IH]; intros self Hth.
  - cbn. rewrite app_nil_r. destruct self; cbn in *. by subst.
  - cbn [FoxgloveWebsocketLogger.publish_all map].
    rewrite (publish_running self f topic_name obj stamp Hth).
    rewrite IH by done. cbn. by rewrite <- app_assoc.
Qed.

(** What a turn of the loop does with the item at the head of the queue. *)
Lemma worker_turn_head self f it rest :
  FoxgloveWebsocketLogger.thread self = FoxgloveWebsocketLogger.Running f ->
  FoxgloveWebsocketLogger._stop self = false ->
  FoxgloveWebsocketLogger._input_queue self = it :: rest ->
  FoxgloveWebsocketLogger.worker_turn self
  = match FoxgloveWebsocketLogger.handle (FoxgloveWebsocketLogger.level self) it f with
    | (Ok _, f') | (Raise TimeoutError, f') =>
        {| FoxgloveWebsocketLogger.level := FoxgloveWebsocketLogger.level self;
           FoxgloveWebsocketLogger.thread := FoxgloveWebsocketLogger.Running f';
           FoxgloveWebsocketLogger._stop := false;
           FoxgloveWebsocketLogger._input_queue := rest;
           FoxgloveWebsocketLogger._exception_queue :=
             FoxgloveWebsocketLogger._exception_queue self |}
    | (Raise e, f') =>
        FoxgloveWebsocketLogger.thread_exit (Some e) rest (Some f') self
    end.
Proof.
  intros Hth Hst Hq. unfold FoxgloveWebsocketLogger.worker_turn.
  rewrite Hth, Hst, Hq. cbn [FoxgloveWebsocketLogger.loop_body].
  destruct (FoxgloveWebsocketLogger.handle _ it f) as [[[]|e] f']; [done|].
  destruct e; done.
Qed.

(** X2.  A turn of the loop always takes the item at the head of the queue
    off it.  When handling the item returns, or raises a timeout, the worker
    goes on, no exception is stored and the caller's next [publish] calls
    all return: an item lost to a timeout leaves no trace.  When it raises
    anything else the thread is dead; an exception that is no [Exception]
    is not stored, and every later [publish] raises the not-running
    assertion. *)
Theorem worker_turn_outcome self f it rest calls :
  FoxgloveWebsocketLogger.reachable self ->
  FoxgloveWebsocketLogger.thread self = FoxgloveWebsocketLogger.Running f ->
  FoxgloveWebsocketLogger._stop self = false ->
  FoxgloveWebsocketLogger._input_queue self = it :: rest ->
  let after := FoxgloveWebsocketLogger.worker_turn self in
  FoxgloveWebsocketLogger._input_queue after = rest
  /\ match fst (FoxgloveWebsocketLogger.handle (FoxgloveWebsocketLogger.level self) it f) with
     | Ok _ | Raise TimeoutError =>
         FoxgloveWebsocketLogger.thread_is_alive after = true
         /\ FoxgloveWebsocketLogger._exception_queue after = []
         /\ fst (FoxgloveWebsocketLogger.publish_all calls after)
            = map (fun _ => Ok tt) calls
     | Raise e =>
         FoxgloveWebsocketLogger.thread_is_alive after = false
         /\ if is_Exception e
            then FoxgloveWebsocketLogger._exception_queue after = [e]
            else FoxgloveWebsocketLogger._exception_queue after = []
                 /\ fst (FoxgloveWebsocketLogger.publish_all calls after)
                    = map (fun _ => Raise FoxgloveWebsocketLogger.not_running) calls
     end.
Proof.
  intros Hreach Hth Hst Hq after.
  assert (Hxq : FoxgloveWebsocketLogger._exception_queue self = []).
  { apply alive_exception_queue_empty; [done|].
    unfold FoxgloveWebsocketLogger.thread_is_alive. by rewrite Hth. }
  subst after. rewrite (worker_turn_head self f it rest Hth Hst Hq).
  destruct (FoxgloveWebsocketLogger.handle _ it f) as [[[]|e] f'].
  - split; [done|]. cbn [fst]. split; [done|]. split; [done|].
    by erewrite publish_all_running.
  - cbn [fst].
    assert (Hdead : forall e', is_Exception e' = true ->
      FoxgloveWebsocketLogger._input_queue
        (FoxgloveWebsocketLogger.thread_exit (Some e') rest (Some f') self) = rest
      /\ FoxgloveWebsocketLogger.thread_is_alive
           (FoxgloveWebsocketLogger.thread_exit (Some e') rest (Some f') self) = false
         /\ FoxgloveWebsocketLogger._exception_queue
              (FoxgloveWebsocketLogger.thread_exit (Some e') rest (Some f') self) = [e']).
    { intros e' He'. unfold FoxgloveWebsocketLogger.thread_exit,
        FoxgloveWebsocketLogger.thread_is_alive. cbn. by rewrite He', Hxq. }
    destruct e; try (by apply Hdead).
    + split; [done|]. split; [done|]. split; [done|].
      by erewrite publish_all_running.
    + split; [done|]. split; [done|]. cbn [is_Exception]. split; [done|].
      apply publish_all_dead_empty; done.
Qed.

End WorkerQueue.

Section WorkerAssertions.

Context {V : Type} `{Server V}.

Implicit Types self : FoxgloveWebsocketLogger.t V.
Implicit Types f : FoxgloveWebsocketLogger.frame V.

Lemma worker_register_conflict f topic_name type_name schema cached :
  FoxgloveWebsocketLogger.topic_to_registration f !! topic_name = Some cached ->
  name cached <> type_name ->
  FoxgloveWebsocketLogger.register topic_name type_name schema f
  = (Raise (AssertionError (conflict_message topic_name (name cached))), f).
Proof.
  intros Hc Hn. unfold FoxgloveWebsocketLogger.register. rewrite Hc. unfold bind, assert.
  destruct (String.eqb_spec (name cached) type_name) as [E|_]; [by destruct Hn | done].
Qed.

Lemma handle_conflict lv f topic_name stamp obj cached :
  topic_name <> FOXGLOVE_LOG_TOPIC ->
  is_BaseModel obj = true ->
  FoxgloveWebsocketLogger.topic_to_registration f !! topic_name = Some cached ->
  name cached <> class_name obj ->
  FoxgloveWebsocketLogger.handle lv (topic_name, stamp, obj) f
  = (Raise (AssertionError (conflict_message topic_name (name cached))), f).
Proof.
  intros Ht Hm Hc Hn. unfold FoxgloveWebsocketLogger.handle.
  destruct (String.eqb_spec topic_name FOXGLOVE_LOG_TOPIC) as [E|_]; [by destruct Ht|].
  unfold bind at 1. unfold bind at 1. unfold FoxgloveWebsocketLogger.register_class.
  unfold bind at 1. unfold assert. rewrite Hm. cbn [ret].
  rewrite (worker_register_conflict _ _ _ _ _ Hc Hn). done.
Qed.

Lemma handle_not_model lv f topic_name stamp obj :
  topic_name <> FOXGLOVE_LOG_TOPIC ->
  is_BaseModel obj = false ->
  FoxgloveWebsocketLogger.handle lv (topic_name, stamp, obj) f
  = (Raise (AssertionError ("Required pydantic model, but got " +:+ class_name obj)), f).
Proof.
  intros Ht Hm. unfold FoxgloveWebsocketLogger.handle.
  destruct (String.eqb_spec topic_name FOXGLOVE_LOG_TOPIC) as [E|_]; [by destruct Ht|].
  unfold bind at 1. unfold bind at 1. unfold FoxgloveWebsocketLogger.register_class.
  unfold bind at 1. unfold assert. rewrite Hm. done.
Qed.

Lemma handle_log_not_str lv f stamp obj :
  is_str obj = false ->
  exists msg,
    FoxgloveWebsocketLogger.handle lv (FOXGLOVE_LOG_TOPIC, stamp, obj) f
    = (Raise (AssertionError msg), f).
Proof.
  intros Hs. eexists. unfold FoxgloveWebsocketLogger.handle.
  rewrite String.eqb_refl. unfold bind at 1. unfold bind at 1.
  unfold assert. rewrite Hs. reflexivity.
Qed.

(** A turn in which handling the head item fails on an assertion. *)
Lemma worker_turn_assertion self f it rest msg :
  FoxgloveWebsocketLogger.reachable self ->
  FoxgloveWebsocketLogger.thread self = FoxgloveWebsocketLogger.Running f ->
  FoxgloveWebsocketLogger._stop self = false ->
  FoxgloveWebsocketLogger._input_queue self = it :: rest ->
  FoxgloveWebsocketLogger.handle (FoxgloveWebsocketLogger.level self) it f
  = (Raise (AssertionError msg), f) ->
  FoxgloveWebsocketLogger.worker_turn self
  = {| FoxgloveWebsocketLogger.level := FoxgloveWebsocketLogger.level self;
       FoxgloveWebsocketLogger.thread := FoxgloveWebsocketLogger.Dead (Some f);
       FoxgloveWebsocketLogger._stop := false;
       FoxgloveWebsocketLogger._input_queue := rest;
       FoxgloveWebsocketLogger._exception_queue := [AssertionError msg] |}.
Proof.
  intros Hreach Hth Hst Hq Hh.
  assert (Hxq : FoxgloveWebsocketLogger._exception_queue self = []).
  { apply alive_exception_queue_empty; [done|].
    unfold FoxgloveWebsocketLogger.thread_is_alive. by rewrite Hth. }
  rewrite (worker_turn_head self f it rest Hth Hst Hq), Hh.
  unfold FoxgloveWebsocketLogger.thread_exit. cbn. by rewrite Hst, Hxq.
Qed.

(** X3.  A topic carries one type on the websocket as well, and the worker
    enforces it with its life: when the item at the head of the queue is a
    model for a topic that the worker has registered under another class
    name, the turn ends the thread.  Nothing is sent, the frame is as it
    was, the assertion naming the topic and the cached class is stored,
    and the caller's next [publish] raises it. *)
Theorem topic_conflict_kills_worker self f topic_name stamp obj rest cached
    next_topic next_obj next_stamp :
  FoxgloveWebsocketLogger.reachable self ->
  FoxgloveWebsocketLogger.thread self = FoxgloveWebsocketLogger.Running f ->
  FoxgloveWebsocketLogger._stop self = false ->
  FoxgloveWebsocketLogger._input_queue self = (topic_name, stamp, obj) :: rest ->
  topic_name <> FOXGLOVE_LOG_TOPIC ->
  is_BaseModel obj = true ->
  FoxgloveWebsocketLogger.topic_to_registration f !! topic_name = Some cached ->
  name cached <> class_name obj ->
  let after := FoxgloveWebsocketLogger.worker_turn self in
  let conflict := AssertionError (conflict_message topic_name (name cached)) in
  FoxgloveWebsocketLogger.thread after = FoxgloveWebsocketLogger.Dead (Some f)
  /\ sent_calls after = sent_calls self
  /\ FoxgloveWebsocketLogger._exception_queue after = [conflict]
  /\ fst (FoxgloveWebsocketLogger.publish next_topic next_obj next_stamp after)
     = Raise conflict.
Proof.
  intros Hreach Hth Hst Hq Ht Hm Hc Hn after conflict. subst after.
  rewrite (worker_turn_assertion self f _ rest _ Hreach Hth Hst Hq
             (handle_conflict _ f topic_name stamp obj cached Ht Hm Hc Hn)).
  unfold sent_calls. rewrite Hth. done.
Qed.

(** X4.  [publish] checks nothing about what it is given: on a running
    logger it returns for any object on any topic.  The worker checks.  An
    object that is not a string, published on the log topic, ends the
    thread on an assertion at the next turn; so does, on any other topic,
    an object that is no pydantic model.  Nothing is sent for it and the
    caller's next [publish] raises the assertion. *)
Theorem bad_object_kills_worker self f topic_name obj stamp
    next_topic next_obj next_stamp :
  FoxgloveWebsocketLogger.reachable self ->
  FoxgloveWebsocketLogger.thread self = FoxgloveWebsocketLogger.Running f ->
  FoxgloveWebsocketLogger._stop self = false ->
  FoxgloveWebsocketLogger._input_queue self = [] ->
  (if String.eqb topic_name FOXGLOVE_LOG_TOPIC then is_str obj else is_BaseModel obj) = false ->
  let queued := FoxgloveWebsocketLogger.publish topic_name obj stamp self in
  let after := FoxgloveWebsocketLogger.worker_turn (snd queued) in
  fst queued = Ok tt
  /\ FoxgloveWebsocketLogger.thread after = FoxgloveWebsocketLogger.Dead (Some f)
  /\ sent_calls after = sent_calls self
  /\ exists msg,
       FoxgloveWebsocketLogger._exception_queue after = [AssertionError msg]
       /\ fst (FoxgloveWebsocketLogger.publish next_topic next_obj next_stamp after)
          = Raise (AssertionError msg).
Proof.
  intros Hreach Hth Hst Hq Hbad queued after.
  pose proof (FoxgloveWebsocketLogger.reach_publish self topic_name obj stamp Hreach) as Hreach'.
  subst after queued.
  rewrite (publish_running self f topic_name obj stamp Hth) in *. cbn [fst snd] in *.
  rewrite Hq in *. cbn [app] in *.
  assert (Hh : exists msg,
    FoxgloveWebsocketLogger.handle (FoxgloveWebsocketLogger.level self)
      (topic_name, stamp, obj) f = (Raise (AssertionError msg), f)).
  { destruct (String.eqb_spec topic_name FOXGLOVE_LOG_TOPIC) as [->|Hne].
    - by apply handle_log_not_str.
    - eexists. by apply handle_not_model. }
  destruct Hh as [msg Hh].
  erewrite worker_turn_assertion; [|exact Hreach'|reflexivity|done|reflexivity|exact Hh].
  split; [done|]. split; [done|]. split; [unfold sent_calls; by rewrite Hth|].
  exists msg. done.
Qed.

Lemma enter_sends_nothing f :
  FoxgloveWebsocketLogger.enter = Ok f ->
  filter (fun c => is_send_call c = true) (FoxgloveWebsocketLogger.server_calls f) = [].
Proof.
  unfold FoxgloveWebsocketLogger.enter.
  destruct (server_start _ _ _) as [v|e]; [|discriminate].
  unfold FoxgloveWebsocketLogger.register.
  cbn [FoxgloveWebsocketLogger.topic_to_registration]. rewrite lookup_empty.
  unfold bind, FoxgloveWebsocketLogger.on_server. cbn.
  destruct (add_channel _ v) as [[ch|e] v']; cbn; [|discriminate].
  intros [= <-]. done.
Qed.

Local Ltac none_sent := exists []; rewrite app_nil_r; split; [done|cbn; lia].
Local Ltac nothing_taken :=
  exists [], []; rewrite ?app_nil_r; split; [done|split; [done|cbn; lia]].
Local Ltac one_sent := eexists; split; [reflexivity|vm_compute; lia].

(** Handling one item asks the server to send at most one message. *)
Lemma handle_sends_at_most_one lv it f :
  exists sent,
    filter (fun c => is_send_call c = true)
      (FoxgloveWebsocketLogger.server_calls (snd (FoxgloveWebsocketLogger.handle lv it f)))
    = filter (fun c => is_send_call c = true) (FoxgloveWebsocketLogger.server_calls f) ++ sent
    /\ (length sent <= 1)%nat.
Proof.
  destruct it as [[topic_name stamp] obj].
  unfold FoxgloveWebsocketLogger.handle, FoxgloveWebsocketLogger.register_class,
    FoxgloveWebsocketLogger.register, FoxgloveWebsocketLogger.on_server,
    FoxgloveWebsocketLogger.cache_registration, FoxgloveWebsocketLogger.logger_debug,
    bind, assert, lift, ret, raise.
  destruct (String.eqb topic_name FOXGLOVE_LOG_TOPIC).
  - destruct (is_str obj); cbn; [|none_sent].
    destruct (to_ns stamp) as [ns|e]; cbn; [|none_sent].
    destruct (send_message _ _ _ _) as [r v]. cbn.
    rewrite filter_app. one_sent.
  - destruct (is_BaseModel obj); cbn; [|none_sent].
    destruct (FoxgloveWebsocketLogger.topic_to_registration f !! topic_name) as [cached|].
    + destruct (String.eqb (name cached) (class_name obj)); cbn;
        [|none_sent].
      destruct (to_ns stamp) as [ns|e]; cbn; [|none_sent].
      destruct (send_message _ _ _ _) as [r v]. cbn.
      rewrite filter_app. one_sent.
    + destruct (add_channel _ _) as [[ch|e] v]; cbn.
      * destruct (to_ns stamp) as [ns|e]; cbn.
        -- destruct (send_message _ _ _ _) as [r v']. cbn.
           rewrite !filter_app, <- app_assoc. one_sent.
        -- rewrite filter_app. one_sent.
      * rewrite filter_app. one_sent.
Qed.

(** What a turn takes off the queue and sends: at most the head item, and
    at most one message for it. *)
Lemma worker_turn_takes_at_most_one self :
  exists taken sent,
    FoxgloveWebsocketLogger._input_queue self
    = taken ++ FoxgloveWebsocketLogger._input_queue (FoxgloveWebsocketLogger.worker_turn self)
    /\ sent_calls (FoxgloveWebsocketLogger.worker_turn self) = sent_calls self ++ sent
    /\ (length sent <= length taken <= 1)%nat.
Proof.
  unfold FoxgloveWebsocketLogger.worker_turn, sent_calls.
  destruct self as [lv [|f|fr] st q xq]; cbn;
    [nothing_taken| |nothing_taken].
  destruct st; cbn; [nothing_taken|].
  destruct q as [|it rest]; cbn; [nothing_taken|].
  destruct (handle_sends_at_most_one lv it f) as (sent & Hsent & Hlen).
  destruct (FoxgloveWebsocketLogger.handle lv it f) as [[[]|e] f']; cbn in Hsent |- *.
  - exists [it], sent. cbn. split; [done|]. split; [done|]. lia.
  - exists [it], sent. destruct e; cbn; (split; [done|]); (split; [done|]); lia.
Qed.

(** Once [close()] has returned the thread is dead and the flag is set,
    whatever the worker was doing. *)
Lemma closed_is_dead self :
  exists fr,
    FoxgloveWebsocketLogger.thread (snd (FoxgloveWebsocketLogger.close None self))
    = FoxgloveWebsocketLogger.Dead fr
    /\ FoxgloveWebsocketLogger._stop (snd (FoxgloveWebsocketLogger.close None self)) = true.
Proof.
  unfold FoxgloveWebsocketLogger.close. cbn [snd].
  destruct self as [lv [|f|fr] st q xq]; cbn; [|eauto|eauto].
  unfold FoxgloveWebsocketLogger.worker_start. cbn.
  destruct FoxgloveWebsocketLogger.enter; cbn; eauto.
Qed.

(** A worker that is at the loop test when the flag is set takes nothing
    more off the queue and sends nothing more. *)
Lemma close_at_the_test self :
  sent_calls (snd (FoxgloveWebsocketLogger.close None self)) = sent_calls self
  /\ FoxgloveWebsocketLogger._input_queue (snd (FoxgloveWebsocketLogger.close None self))
     = FoxgloveWebsocketLogger._input_queue self.
Proof.
  unfold FoxgloveWebsocketLogger.close, sent_calls. cbn [snd].
  destruct self as [lv [|f|fr'] st q xq]; cbn; [|done|done].
  unfold FoxgloveWebsocketLogger.worker_start. cbn.
  destruct FoxgloveWebsocketLogger.enter as [f|e] eqn:He; cbn; [|done].
  by rewrite (enter_sends_nothing f He).
Qed.

(** X5.  [close()] does not flush the queue.  It sets the stop flag and
    joins, and the worker reads the flag at the loop test only.  A worker
    that is at the test when the flag is set ends there.  A worker that is
    past it ([past_test]: waiting in [queue.get()] or handling an item)
    finishes that turn first, which takes at most the head item off the
    queue and sends at most one message for it.  Either way the thread is
    dead when [close()] returns, the other items are still on the queue and
    are never sent, however many turns the worker is given afterwards; no
    [publish] is accepted any more and none adds to the queue; and a second
    [close()] changes nothing. *)
Theorem close_does_not_flush self (past_test : bool) n topic_name obj stamp :
  let at_flag := if past_test then FoxgloveWebsocketLogger.worker_turn self else self in
  let closed := snd (FoxgloveWebsocketLogger.close None at_flag) in
  FoxgloveWebsocketLogger.thread_is_alive closed = false
  /\ (exists taken sent,
        FoxgloveWebsocketLogger._input_queue self
        = taken ++ FoxgloveWebsocketLogger._input_queue closed
        /\ sent_calls closed = sent_calls self ++ sent
        /\ (length sent <= length taken <= 1)%nat
        /\ (past_test = false -> taken = []))
  /\ worker_turns n closed = closed
  /\ (exists e, fst (FoxgloveWebsocketLogger.publish topic_name obj stamp closed) = Raise e)
  /\ FoxgloveWebsocketLogger._input_queue
       (snd (FoxgloveWebsocketLogger.publish topic_name obj stamp closed))
     = FoxgloveWebsocketLogger._input_queue closed
  /\ FoxgloveWebsocketLogger.close None closed = (Ok tt, closed).
Proof.
  intros at_flag closed.
  destruct (closed_is_dead at_flag) as (fr & Hth & Hstop). fold closed in Hth, Hstop.
  destruct (close_at_the_test at_flag) as [Hs Hq]. fold closed in Hs, Hq.
  assert (Hleft : exists taken sent,
    FoxgloveWebsocketLogger._input_queue self
    = taken ++ FoxgloveWebsocketLogger._input_queue closed
    /\ sent_calls closed = sent_calls self ++ sent
    /\ (length sent <= length taken <= 1)%nat
    /\ (past_test = false -> taken = [])).
  { rewrite Hs, Hq. subst at_flag. destruct past_test.
    - destruct (worker_turn_takes_at_most_one self) as (taken & sent & Ht & Hse & Hl).
      exists taken, sent. done.
    - exists [], []. rewrite app_nil_r. cbn. split; [done|]. split; [done|].
      split; [lia|done]. }
  clearbody closed. clear Hs Hq.
  split; [unfold FoxgloveWebsocketLogger.thread_is_alive; by rewrite Hth|].
  split; [exact Hleft|]. split; [|split; [|split]].
  - induction n as [|n IH]; [done|].
    change (worker_turns (S n) closed)
      with (FoxgloveWebsocketLogger.worker_turn (worker_turns n closed)).
    rewrite IH. unfold FoxgloveWebsocketLogger.worker_turn. by rewrite Hth.
  - unfold FoxgloveWebsocketLogger.publish, FoxgloveWebsocketLogger.loop_is_running.
    rewrite Hth. cbn. destruct (FoxgloveWebsocketLogger._exception_queue closed); eauto.
  - unfold FoxgloveWebsocketLogger.publish, FoxgloveWebsocketLogger.loop_is_running.
    rewrite Hth. cbn. by destruct (FoxgloveWebsocketLogger._exception_queue closed).
  - unfold FoxgloveWebsocketLogger.close, FoxgloveWebsocketLogger.worker_start,
      FoxgloveWebsocketLogger.worker_turn, FoxgloveWebsocketLogger.stop_set.
    destruct closed as [lv th st q xq]; cbn in *. subst. done.
Qed.

End WorkerAssertions.

Section WorkerOrder.

Context {V : Type} `{Server V}.

Implicit Types self : FoxgloveWebsocketLogger.t V.
Implicit Types f : FoxgloveWebsocketLogger.frame V.

Lemma handle_log_item lv f msg stamp ns :
  to_ns stamp = Ok ns ->
  fst (send_message (channel_id (FoxgloveWebsocketLogger.registration_log f)) ns
         (LogJson (FoxgloveWebsocketLogger.log_msg lv stamp (PyStr msg)))
         (FoxgloveWebsocketLogger.server f)) = Ok tt ->
  exists f',
    FoxgloveWebsocketLogger.handle lv (FOXGLOVE_LOG_TOPIC, stamp, PyStr msg) f = (Ok tt, f')
    /\ FoxgloveWebsocketLogger.server_calls f'
       = FoxgloveWebsocketLogger.server_calls f
         ++ [log_send lv (channel_id (FoxgloveWebsocketLogger.registration_log f))
               (msg, stamp, ns)]
    /\ FoxgloveWebsocketLogger.registration_log f'
       = FoxgloveWebsocketLogger.registration_log f.
Proof.
  intros Hns Hsend. unfold FoxgloveWebsocketLogger.handle. cbn.
  unfold bind, lift. cbn. rewrite Hns. cbn.
  unfold FoxgloveWebsocketLogger.on_server.
  destruct (send_message _ _ _ _) as [r v]. cbn in Hsend. subst r.
  eexists. split; [reflexivity|]. done.
Qed.

Lemma worker_turns_succ n self :
  worker_turns (S n) self = worker_turns n (FoxgloveWebsocketLogger.worker_turn self).
Proof. unfold worker_turns. by rewrite Nat.iter_succ_r. Qed.

Lemma worker_turns_log_items msgs : forall self f,
  (forall ch ns data v, fst (send_message ch ns data v) = Ok tt) ->
  Forall (fun m => to_ns (snd (fst m)) = Ok (snd m)) msgs ->
  FoxgloveWebsocketLogger.thread self = FoxgloveWebsocketLogger.Running f ->
  FoxgloveWebsocketLogger._stop self = false ->
  FoxgloveWebsocketLogger._input_queue self = map (fun m => item_of (log_call m)) msgs ->
  exists f',
    worker_turns (length msgs) self
    = {| FoxgloveWebsocketLogger.level := FoxgloveWebsocketLogger.level self;
         FoxgloveWebsocketLogger.thread := FoxgloveWebsocketLogger.Running f';
         FoxgloveWebsocketLogger._stop := false;
         FoxgloveWebsocketLogger._input_queue := [];
         FoxgloveWebsocketLogger._exception_queue :=
           FoxgloveWebsocketLogger._exception_queue self |}
    /\ FoxgloveWebsocketLogger.server_calls f'
       = FoxgloveWebsocketLogger.server_calls f
         ++ map (log_send (FoxgloveWebsocketLogger.level self)
                   (channel_id (FoxgloveWebsocketLogger.registration_log f))) msgs.
Proof.
  induction msgs as [|[[msg stamp] ns] msgs IH]; intros self f Hsend Hns Hth Hst Hq.
  - exists f. cbn. rewrite app_nil_r. split; [|done].
    destruct self; cbn in *. by subst.
  - apply Forall_cons in Hns as [Hns1 Hns]. cbn in Hns1.
    destruct (handle_log_item (FoxgloveWebsocketLogger.level self) f msg stamp ns Hns1
                (Hsend _ _ _ _)) as (f1 & Hh & Hcalls & Hreg).
    cbn [length]. rewrite worker_turns_succ.
    rewrite (worker_turn_head self f (FOXGLOVE_LOG_TOPIC, stamp, PyStr msg)
               (map (fun m => item_of (log_call m)) msgs) Hth Hst Hq).
    rewrite Hh.
    match goal with |- context [worker_turns _ ?s] => set (s1 := s) end.
    destruct (IH s1 f1 Hsend Hns eq_refl eq_refl eq_refl) as (f' & Hturns & Hcalls').
    exists f'. rewrite Hturns. cbn. split; [done|].
    rewrite Hcalls', Hcalls, Hreg, <- app_assoc. done.
Qed.

Lemma filter_log_sends lv ch (msgs : list (string * spec_float * Z)) :
  filter (fun c => is_send_call c = true) (map (log_send lv ch) msgs)
  = map (log_send lv ch) msgs.
Proof.
  induction msgs as [|[[msg stamp] ns] msgs IH]; [done|].
  cbn [map log_send]. rewrite filter_cons_True by done. by rewrite IH.
Qed.

(** X6.  Log records reach the server in the order in which they were
    logged.  On a running logger whose queue is empty, with a server that
    accepts what it is sent: a row of [log] calls all return, and as many
    turns of the worker later the server has been asked to send exactly one
    record per call, in the order of the calls, each on the channel of the
    log topic and with [to_ns] of its stamp; the queue is empty again. *)
Theorem log_records_in_order self f (msgs : list (string * spec_float * Z)) :
  (forall ch ns data v, fst (send_message ch ns data v) = Ok tt) ->
  Forall (fun m => to_ns (snd (fst m)) = Ok (snd m)) msgs ->
  FoxgloveWebsocketLogger.thread self = FoxgloveWebsocketLogger.Running f ->
  FoxgloveWebsocketLogger._stop self = false ->
  FoxgloveWebsocketLogger._input_queue self = [] ->
  let logged := FoxgloveWebsocketLogger.publish_all (map log_call msgs) self in
  let after := worker_turns (length msgs) (snd logged) in
  fst logged = map (fun _ => Ok tt) msgs
  /\ sent_calls after
     = sent_calls self
       ++ map (log_send (FoxgloveWebsocketLogger.level self)
                 (channel_id (FoxgloveWebsocketLogger.registration_log f))) msgs
  /\ FoxgloveWebsocketLogger._input_queue after = []
  /\ FoxgloveWebsocketLogger.thread_is_alive after = true.
Proof.
  intros Hsend Hns Hth Hst Hq logged after. subst after logged.
  rewrite (publish_all_running _ self f Hth). cbn [fst snd].
  split; [by rewrite map_map|].
  match goal with |- context [worker_turns _ ?s] => set (s1 := s) end.
  assert (Hq1 : FoxgloveWebsocketLogger._input_queue s1
                = map (fun m => item_of (log_call m)) msgs)
    by (subst s1; cbn; by rewrite Hq, map_map).
  destruct (worker_turns_log_items msgs s1 f Hsend Hns eq_refl Hst Hq1)
    as (f' & Hturns & Hcalls).
  rewrite Hturns. unfold sent_calls. rewrite Hth. cbn.
  split; [|done].
  rewrite Hcalls, filter_app, filter_log_sends. done.
Qed.

End WorkerOrder.

(** ** More on the compound logger *)

Section Fanout.

Context {W V : Type} `{Writer W} `{Server V}.

Implicit Types l : Logger.t W V.

Lemma mcap_publish_not_model (mcap : MCAPLogger.t W) topic_name obj stamp :
  is_BaseModel obj = false ->
  MCAPLogger.publish topic_name obj stamp mcap
  = (Raise (AssertionError "Required pydantic model, but got {name}"), mcap).
Proof.
  intros Hm. unfold MCAPLogger.publish, MCAPLogger._register_class, bind, assert.
  by rewrite Hm.
Qed.

(** X7.  What becomes of an object that is no pydantic model depends on
    whether the logger writes a file.  With an MCAP logger, [publish]
    raises the assertion of the file sink at once and the logger is left as
    it was: the object never reaches the queue of the websocket logger.
    Without one, [publish] returns, and the worker dies of the object at
    its next turn. *)
Theorem non_model_with_and_without_file l f topic_name obj stamp :
  FoxgloveWebsocketLogger.reachable (Logger._foxglove_log l) ->
  FoxgloveWebsocketLogger.thread (Logger._foxglove_log l) = FoxgloveWebsocketLogger.Running f ->
  FoxgloveWebsocketLogger._stop (Logger._foxglove_log l) = false ->
  FoxgloveWebsocketLogger._input_queue (Logger._foxglove_log l) = [] ->
  topic_name <> FOXGLOVE_LOG_TOPIC ->
  is_BaseModel obj = false ->
  match Logger._mcap_log l with
  | Some _ =>
      Logger.publish topic_name obj stamp l
      = (Raise (AssertionError "Required pydantic model, but got {name}"), l)
  | None =>
      let after :=
        FoxgloveWebsocketLogger.worker_turn
          (Logger._foxglove_log (snd (Logger.publish topic_name obj stamp l))) in
      fst (Logger.publish topic_name obj stamp l) = Ok tt
      /\ FoxgloveWebsocketLogger.thread_is_alive after = false
      /\ FoxgloveWebsocketLogger._exception_queue after
         = [AssertionError ("Required pydantic model, but got " +:+ class_name obj)]
  end.
Proof.
  intros Hreach Hth Hst Hq Ht Hm.
  destruct (Logger._mcap_log l) as [mcap|] eqn:Hmcap.
  - unfold Logger.publish, bind, Logger.on_mcap. rewrite Hmcap.
    rewrite (mcap_publish_not_model mcap topic_name obj stamp Hm).
    destruct l; cbn in *. by subst.
  - unfold Logger.publish, bind, Logger.on_mcap, Logger.on_foxglove. rewrite Hmcap.
    pose proof (FoxgloveWebsocketLogger.reach_publish _ topic_name obj stamp Hreach) as Hreach'.
    rewrite (publish_running _ f topic_name obj stamp Hth) in *. cbn [fst snd Logger._foxglove_log].
    split; [done|].
    erewrite worker_turn_assertion;
      [|exact Hreach'|reflexivity|done|cbn; by rewrite Hq
       |by apply handle_not_model].
    done.
Qed.

(** X8.  The two sinks are served in opposite orders.  [log] prints to the
    console, then hands the message to the websocket logger, then writes
    the file; [publish] writes the file first.  So when the websocket
    logger is not running (its worker has not entered the loop yet, as
    right after construction, or is dead) a [log] call fails with the line
    printed and the file untouched, while a [publish] call fails after the
    record has been written to the file. *)
Theorem websocket_down_log_and_publish l msg stamp level topic_name obj mcap mcap' :
  FoxgloveWebsocketLogger.loop_is_running (Logger._foxglove_log l)
  && FoxgloveWebsocketLogger.thread_is_alive (Logger._foxglove_log l) = false ->
  FoxgloveWebsocketLogger._exception_queue (Logger._foxglove_log l) = [] ->
  Logger._mcap_log l = Some mcap ->
  MCAPLogger.publish topic_name obj stamp mcap = (Ok tt, mcap') ->
  Logger.log msg stamp level l
  = (Raise FoxgloveWebsocketLogger.not_running,
     {| Logger._pylog :=
          Logger._pylog l ++ [ConsoleLog (10 * int_of_Level level) stamp msg];
        Logger._foxglove_log := Logger._foxglove_log l;
        Logger._mcap_log := Some mcap |})
  /\ Logger.publish topic_name obj stamp l
     = (Raise FoxgloveWebsocketLogger.not_running,
        {| Logger._pylog := Logger._pylog l;
           Logger._foxglove_log := Logger._foxglove_log l;
           Logger._mcap_log := Some mcap' |}).
Proof.
  intros Hdown Hxq Hmcap Hpub.
  assert (Hfox : forall t o s,
    FoxgloveWebsocketLogger.publish t o s (Logger._foxglove_log l)
    = (Raise FoxgloveWebsocketLogger.not_running, Logger._foxglove_log l)).
  { intros t o s. unfold FoxgloveWebsocketLogger.publish. by rewrite Hdown, Hxq. }
  split.
  - unfold Logger.log, bind, lift. rewrite pylog_level_of_Level. cbn [ret].
    unfold Logger.pylog_log, Logger.on_foxglove. cbn [Logger._foxglove_log].
    unfold FoxgloveWebsocketLogger.log. rewrite Hfox. cbn. by rewrite Hmcap.
  - unfold Logger.publish, bind, Logger.on_mcap, Logger.on_foxglove.
    rewrite Hmcap, Hpub. cbn. by rewrite Hfox.
Qed.

(** A logger that has just been built: the worker of its websocket logger
    has not run yet. *)
Lemma logger_init_websocket log_path level l :
  Logger.init log_path level = Ok l ->
  Logger._foxglove_log l = FoxgloveWebsocketLogger.init INFO.
Proof.
  unfold Logger.init.
  destruct (String.eqb log_path ""); [by intros [= <-]|].
  destruct (MCAPLogger.init _ _ _); [by intros [= <-] | discriminate].
Qed.

(** X9.  [Logger(log_path, level)] does not pass its level on to the
    websocket logger, which is built with the default, [INFO].  Whatever
    the level of the logger and whatever the severity of a [log] call, the
    record the worker sends for it has level 2. *)
Theorem logger_websocket_records_are_INFO log_path level l f msg stamp severity ns :
  Logger.init log_path level = Ok l ->
  FoxgloveWebsocketLogger.enter (V := V) = Ok f ->
  to_ns stamp = Ok ns ->
  let started :=
    {| Logger._pylog := Logger._pylog l;
       Logger._foxglove_log := FoxgloveWebsocketLogger.worker_start (Logger._foxglove_log l);
       Logger._mcap_log := Logger._mcap_log l |} in
  let logged := snd (Logger.log msg stamp severity started) in
  let after := FoxgloveWebsocketLogger.worker_turn (Logger._foxglove_log logged) in
  FoxgloveWebsocketLogger.level (Logger._foxglove_log l) = INFO
  /\ exists body,
       sent_calls after
       = [CallSendMessage (channel_id (FoxgloveWebsocketLogger.registration_log f))
            ns (LogJson body)]
       /\ body_level body = 2
       /\ body_message body = msg.
Proof.
  intros Hinit Henter Hns started logged after.
  subst after logged started.
  rewrite (logger_init_websocket _ _ _ Hinit).
  split; [done|].
  exists (FoxgloveWebsocketLogger.log_msg INFO stamp (PyStr msg)).
  split; [|split;
    unfold FoxgloveWebsocketLogger.log_msg; by destruct (to_stamp _)].
  unfold FoxgloveWebsocketLogger.worker_start. cbn [FoxgloveWebsocketLogger.thread
    FoxgloveWebsocketLogger.init]. rewrite Henter.
  unfold Logger.log, bind, lift. rewrite pylog_level_of_Level. cbn [ret].
  unfold Logger.pylog_log, Logger.on_foxglove. cbn [Logger._foxglove_log].
  unfold FoxgloveWebsocketLogger.log.
  erewrite publish_running by reflexivity. cbn [FoxgloveWebsocketLogger._input_queue
    FoxgloveWebsocketLogger.level FoxgloveWebsocketLogger._stop
    FoxgloveWebsocketLogger._exception_queue FoxgloveWebsocketLogger.init app].
  assert (Hfox : forall l' : Logger.t W V,
    Logger._foxglove_log (snd (Logger.on_mcap (MCAPLogger.log msg stamp severity) l'))
    = Logger._foxglove_log l').
  { intros l'. unfold Logger.on_mcap. destruct (Logger._mcap_log l'); [|done].
    by destruct (MCAPLogger.log _ _ _ _). }
  rewrite Hfox. cbn [Logger._foxglove_log].
  erewrite worker_turn_head by reflexivity.
  cbn [FoxgloveWebsocketLogger.level].
  unfold FoxgloveWebsocketLogger.handle. cbn.
  unfold bind, lift. cbn. rewrite Hns. cbn.
  unfold FoxgloveWebsocketLogger.on_server.
  pose proof (enter_sends_nothing f Henter) as Hnone.
  destruct (send_message _ _ _ _) as [[[]|e] v]; cbn.
  - unfold sent_calls. cbn. by rewrite filter_app, Hnone.
  - destruct e; unfold sent_calls; cbn; by rewrite filter_app, Hnone.
Qed.

End Fanout.

(** ** More on the file sink *)

Section FileSink.

Context {W : Type} `{Writer W}.

Implicit Types self : MCAPLogger.t W.

(** What [_register] does on a topic it has not seen, when the writer
    accepts the schema and the channel. *)
Lemma register_fresh self topic_name type_name schema sid w1 cid w2 :
  MCAPLogger._topic_to_registration self !! topic_name = None ->
  register_schema type_name "jsonschema" schema (MCAPLogger._writer self) = (Ok sid, w1) ->
  register_channel sid topic_name "json" w1 = (Ok cid, w2) ->
  MCAPLogger._register topic_name type_name schema self
  = (Ok {| name := type_name; channel_id := cid |},
     {| MCAPLogger._pylog :=
          MCAPLogger._pylog self ++ [ConsoleRegistered cid topic_name type_name];
        MCAPLogger._writer := w2;
        MCAPLogger.writer_calls :=
          MCAPLogger.writer_calls self
          ++ [CallRegisterSchema type_name "jsonschema" schema;
              CallRegisterChannel sid topic_name "json"];
        MCAPLogger._topic_to_registration :=
          <[topic_name := {| name := type_name; channel_id := cid |}]>
            (MCAPLogger._topic_to_registration self);
        MCAPLogger.registration_log := MCAPLogger.registration_log self |}).
Proof.
  intros Hnone Hs Hc. unfold MCAPLogger._register. rewrite Hnone.
  unfold bind, MCAPLogger.on_writer. rewrite Hs. cbn. rewrite Hc. cbn.
  by rewrite <- app_assoc.
Qed.

(** [_register] never touches what the cache holds already, whatever the
    writer does. *)
Lemma register_keeps self topic_name type_name schema :
  let after := snd (MCAPLogger._register topic_name type_name schema self) in
  MCAPLogger.registration_log after = MCAPLogger.registration_log self
  /\ forall t r,
       MCAPLogger._topic_to_registration self !! t = Some r ->
       MCAPLogger._topic_to_registration after !! t = Some r.
Proof.
  unfold MCAPLogger._register.
  destruct (MCAPLogger._topic_to_registration self !! topic_name) as [cached|] eqn:Hc.
  - unfold bind, assert. destruct (String.eqb _ _); done.
  - unfold bind, MCAPLogger.on_writer.
    destruct (register_schema _ _ _ _) as [[sid|e] w1]; cbn; [|done].
    destruct (register_channel _ _ _ _) as [[cid|e] w2]; cbn; [|done].
    split; [done|]. intros t r Ht.
    rewrite lookup_insert_ne; [done|]. intros ->. congruence.
Qed.

Lemma publish_keeps self topic_name obj stamp :
  let after := snd (MCAPLogger.publish topic_name obj stamp self) in
  MCAPLogger.registration_log after = MCAPLogger.registration_log self
  /\ forall t r,
       MCAPLogger._topic_to_registration self !! t = Some r ->
       MCAPLogger._topic_to_registration after !! t = Some r.
Proof.
  unfold MCAPLogger.publish, MCAPLogger._register_class, bind, assert.
  destruct (is_BaseModel obj); cbn [ret raise]; [|done].
  pose proof (register_keeps self topic_name (class_name obj) (model_schema obj)) as Hk.
  destruct (MCAPLogger._register _ _ _ self) as [[r|e] s1]; cbn [snd] in *; [|done].
  unfold lift. destruct (to_ns stamp) as [ns|e]; cbn [ret raise]; [|done].
  unfold MCAPLogger.on_writer. by destruct (add_message _ _ _ _ _).
Qed.

Lemma mcap_step_keeps (c : mcap_call) self :
  MCAPLogger.registration_log (mcap_step c self) = MCAPLogger.registration_log self
  /\ forall t r,
       MCAPLogger._topic_to_registration self !! t = Some r ->
       MCAPLogger._topic_to_registration (mcap_step c self) !! t = Some r.
Proof.
  destruct c as [topic_name obj stamp|msg stamp level|]; cbn [mcap_step].
  - apply publish_keeps.
  - unfold MCAPLogger.log, bind, lift.
    destruct (to_ns stamp) as [ns|e]; cbn [ret raise]; [|done].
    unfold MCAPLogger.on_writer. by destruct (add_message _ _ _ _ _).
  - unfold MCAPLogger.close, MCAPLogger.on_writer. by destruct (finish _).
Qed.

Lemma mcap_run_keeps (cs : list mcap_call) self :
  MCAPLogger.registration_log (mcap_run cs self) = MCAPLogger.registration_log self
  /\ forall t r,
       MCAPLogger._topic_to_registration self !! t = Some r ->
       MCAPLogger._topic_to_registration (mcap_run cs self) !! t = Some r.
Proof.
  revert self. induction cs as [|c cs IH]; intros self; [done|].
  cbn [mcap_run fold_left]. fold (mcap_run cs (mcap_step c self)).
  destruct (IH (mcap_step c self)) as [Hlog Hreg].
  destruct (mcap_step_keeps c self) as [Hlog1 Hreg1].
  split; [congruence|]. intros t r Ht. by apply Hreg, Hreg1.
Qed.

(** X10.  A topic keeps its registration for the life of the file sink.
    Whatever [publish], [log] and [close] calls are made on an MCAP logger,
    and whatever they raise, a registration that is in the cache stays
    there with the same type name and channel, and a [publish] of another
    class on that topic is refused at any later time. *)
Theorem registration_is_for_life self (cs : list mcap_call) topic_name cached obj stamp :
  MCAPLogger._topic_to_registration self !! topic_name = Some cached ->
  is_BaseModel obj = true ->
  name cached <> class_name obj ->
  MCAPLogger._topic_to_registration (mcap_run cs self) !! topic_name = Some cached
  /\ MCAPLogger.registration_log (mcap_run cs self) = MCAPLogger.registration_log self
  /\ MCAPLogger.publish topic_name obj stamp (mcap_run cs self)
     = (Raise (AssertionError (conflict_message topic_name (name cached))),
        mcap_run cs self).
Proof.
  intros Hc Hm Hn. destruct (mcap_run_keeps cs self) as [Hlog Hreg].
  split; [by apply Hreg|]. split; [done|].
  unfold MCAPLogger.publish, MCAPLogger._register_class, bind, assert.
  rewrite Hm. cbn [ret].
  rewrite (register_conflict _ _ _ _ _ (Hreg _ _ Hc) Hn). done.
Qed.

(** X11.  The constructor opens the writer and registers the log topic,
    and nothing else: when it returns, the writer has been asked for one
    schema, [foxglove.Log], and one channel, on the log topic; the cache
    holds that one registration, which is the one [log] uses.  When the
    file cannot be opened it raises what opening raised. *)
Theorem init_registers_log_topic log_path level compress :
  match MCAPLogger.init log_path level compress with
  | Ok self =>
      exists w sid,
        writer_open log_path compress = Ok w
        /\ fst (register_schema FOXGLOVE_LOG_MSG_TYPE "jsonschema" FOXGLOVE_LOGM_SG_SCHEMA w)
           = Ok sid
        /\ MCAPLogger.writer_calls self
           = [CallRegisterSchema FOXGLOVE_LOG_MSG_TYPE "jsonschema" FOXGLOVE_LOGM_SG_SCHEMA;
              CallRegisterChannel sid FOXGLOVE_LOG_TOPIC "json"]
        /\ MCAPLogger._topic_to_registration self
           = {[ FOXGLOVE_LOG_TOPIC := MCAPLogger.registration_log self ]}
        /\ name (MCAPLogger.registration_log self) = FOXGLOVE_LOG_MSG_TYPE
  | Raise e =>
      writer_open log_path compress = Raise e
      \/ exists w,
           writer_open log_path compress = Ok w
           /\ (fst (register_schema FOXGLOVE_LOG_MSG_TYPE "jsonschema"
                      FOXGLOVE_LOGM_SG_SCHEMA w) = Raise e
               \/ exists sid w1,
                    register_schema FOXGLOVE_LOG_MSG_TYPE "jsonschema"
                      FOXGLOVE_LOGM_SG_SCHEMA w = (Ok sid, w1)
                    /\ fst (register_channel sid FOXGLOVE_LOG_TOPIC "json" w1) = Raise e)
  end.
Proof.
  unfold MCAPLogger.init.
  destruct (writer_open log_path compress) as [w|e]; [|by left].
  unfold MCAPLogger._register. cbn [MCAPLogger._topic_to_registration].
  rewrite lookup_empty. unfold bind, MCAPLogger.on_writer. cbn.
  destruct (register_schema _ _ _ w) as [[sid|e] w1] eqn:Hs; cbn.
  - destruct (register_channel sid _ _ w1) as [[cid|e] w2] eqn:Hc; cbn.
    + exists w, sid. rewrite Hs. done.
    + right. exists w. split; [done|]. right. exists sid, w1. rewrite Hc. done.
  - right. exists w. split; [done|]. left. by rewrite Hs.
Qed.

(** X12.  The first [publish] on a topic registers it with the writer:
    one schema, named after the class of the object, one channel, then the
    message.  The cache then holds the class name and the channel that the
    writer gave, and every later [publish] of that class on the topic is
    the one [add_message] call, on that channel.  Log time and publish time
    are both [to_ns] of the stamp. *)
Theorem publish_registers_once self topic_name obj stamp ns sid w1 cid w2 obj' stamp' ns' :
  MCAPLogger._topic_to_registration self !! topic_name = None ->
  is_BaseModel obj = true ->
  to_ns stamp = Ok ns ->
  register_schema (class_name obj) "jsonschema" (model_schema obj) (MCAPLogger._writer self)
  = (Ok sid, w1) ->
  register_channel sid topic_name "json" w1 = (Ok cid, w2) ->
  is_BaseModel obj' = true ->
  class_name obj' = class_name obj ->
  to_ns stamp' = Ok ns' ->
  let first := MCAPLogger.publish topic_name obj stamp self in
  let second := MCAPLogger.publish topic_name obj' stamp' (snd first) in
  fst first = fst (add_message cid ns (ModelJson (model_json obj)) ns w2)
  /\ MCAPLogger.writer_calls (snd first)
     = MCAPLogger.writer_calls self
       ++ [CallRegisterSchema (class_name obj) "jsonschema" (model_schema obj);
           CallRegisterChannel sid topic_name "json";
           CallAddMessage cid ns (ModelJson (model_json obj)) ns]
  /\ MCAPLogger._topic_to_registration (snd first)
     = <[topic_name := {| name := class_name obj; channel_id := cid |}]>
         (MCAPLogger._topic_to_registration self)
  /\ MCAPLogger.writer_calls (snd second)
     = MCAPLogger.writer_calls (snd first)
       ++ [CallAddMessage cid ns' (ModelJson (model_json obj')) ns']
  /\ MCAPLogger._topic_to_registration (snd second)
     = MCAPLogger._topic_to_registration (snd first).
Proof.
  intros Hnone Hm Hns Hs Hc Hm' Hcls Hns' first second.
  assert (Hfirst : first
    = MCAPLogger.on_writer (CallAddMessage cid ns (ModelJson (model_json obj)) ns)
        (add_message cid ns (ModelJson (model_json obj)) ns)
        (snd (MCAPLogger._register topic_name (class_name obj) (model_schema obj) self))).
  { subst first. unfold MCAPLogger.publish, MCAPLogger._register_class, bind, assert.
    rewrite Hm. cbn [ret].
    rewrite (register_fresh self _ _ _ _ _ _ _ Hnone Hs Hc).
    unfold lift. rewrite Hns. done. }
  rewrite (register_fresh self _ _ _ _ _ _ _ Hnone Hs Hc) in Hfirst. cbn [snd] in Hfirst.
  unfold MCAPLogger.on_writer in Hfirst. cbn in Hfirst.
  assert (Hcached : MCAPLogger._topic_to_registration (snd first) !! topic_name
                    = Some {| name := class_name obj; channel_id := cid |}).
  { rewrite Hfirst. destruct (add_message _ _ _ _ w2). cbn. by rewrite lookup_insert_eq. }
  destruct (publish_reaches_writer (snd first) topic_name obj' stamp' ns'
              {| name := class_name obj; channel_id := cid |} Hns' Hm' Hcached
              (eq_sym Hcls)) as [_ Hsecond].
  cbn [channel_id] in Hsecond. fold second in Hsecond.
  assert (Hreg2 : MCAPLogger._topic_to_registration (snd second)
                  = MCAPLogger._topic_to_registration (snd first)).
  { subst second. unfold MCAPLogger.publish, MCAPLogger._register_class, bind, assert.
    rewrite Hm'. cbn [ret].
    rewrite (register_cached _ _ _ _ _ Hcached (eq_sym Hcls)).
    unfold lift. rewrite Hns'. cbn [ret]. unfold MCAPLogger.on_writer.
    clear Hfirst. by destruct (add_message _ _ _ _ _). }
  split; [|split; [|split; [|split]]]; try done.
  - rewrite Hfirst. by destruct (add_message _ _ _ _ w2).
  - rewrite Hfirst. destruct (add_message _ _ _ _ w2). cbn. by rewrite <- app_assoc.
  - rewrite Hfirst. by destruct (add_message _ _ _ _ w2).
Qed.

(** X13.  A stamp that [to_ns] cannot convert, NaN or an infinity, makes
    both calls raise, at different points.  [log] raises before it touches
    the writer and leaves the sink as it was.  [publish] converts the stamp
    after it has resolved the topic: on a new topic it raises with the
    schema and the channel registered and cached, and no message
    written. *)
Theorem bad_stamp_log_and_publish self stamp e msg level topic_name obj sid w1 cid w2 :
  to_ns stamp = Raise e ->
  is_BaseModel obj = true ->
  MCAPLogger._topic_to_registration self !! topic_name = None ->
  register_schema (class_name obj) "jsonschema" (model_schema obj) (MCAPLogger._writer self)
  = (Ok sid, w1) ->
  register_channel sid topic_name "json" w1 = (Ok cid, w2) ->
  (to_ns S754_nan = Raise (ValueError "cannot convert float NaN to integer")
   /\ forall s, to_ns (S754_infinity s)
                = Raise (OverflowError "cannot convert float infinity to integer"))
  /\ MCAPLogger.log msg stamp level self = (Raise e, self)
  /\ fst (MCAPLogger.publish topic_name obj stamp self) = Raise e
  /\ MCAPLogger.writer_calls (snd (MCAPLogger.publish topic_name obj stamp self))
     = MCAPLogger.writer_calls self
       ++ [CallRegisterSchema (class_name obj) "jsonschema" (model_schema obj);
           CallRegisterChannel sid topic_name "json"]
  /\ MCAPLogger._topic_to_registration (snd (MCAPLogger.publish topic_name obj stamp self))
       !! topic_name
     = Some {| name := class_name obj; channel_id := cid |}.
Proof.
  intros Hns Hm Hnone Hs Hc.
  split; [split; [done|by intros []]|].
  split.
  { unfold MCAPLogger.log, bind, lift. by rewrite Hns. }
  assert (Hpub : MCAPLogger.publish topic_name obj stamp self
    = (Raise e, snd (MCAPLogger._register topic_name (class_name obj) (model_schema obj) self))).
  { unfold MCAPLogger.publish, MCAPLogger._register_class, bind, assert.
    rewrite Hm. cbn [ret].
    rewrite (register_fresh self _ _ _ _ _ _ _ Hnone Hs Hc).
    unfold lift. by rewrite Hns. }
  rewrite Hpub, (register_fresh self _ _ _ _ _ _ _ Hnone Hs Hc). cbn.
  by rewrite lookup_insert_eq.
Qed.

End FileSink.

(** ** More on the module-level logger *)

Section ModuleFunctions.

Context {W V : Type} `{Writer W} `{Server V}.

Implicit Types p : process W V.
Implicit Types l : Logger.t W V.

Lemma get_logger_set p l :
  __logger p = Some l -> get_logger p = (Ok (Some l), p).
Proof. intros Hp. unfold get_logger, bind. rewrite Hp. cbn. by rewrite Hp. Qed.

(** X14.  [get_logger()] never returns [None], whatever state the process
    is in: it returns the logger the variable holds, and leaves the process
    as it was, or builds one with the defaults and sets the variable.  A
    second call returns the same logger and changes nothing. *)
Theorem get_logger_returns_the_instance p :
  exists l,
    get_logger p = (Ok (Some l), {| __logger := Some l; released := released p |})
    /\ get_logger (snd (get_logger p)) = (Ok (Some l), snd (get_logger p))
    /\ match __logger p with
       | Some held => l = held /\ snd (get_logger p) = p
       | None => Logger.init "" INFO = Ok l /\ Logger._mcap_log l = None
       end.
Proof.
  destruct (__logger p) as [held|] eqn:Hp.
  - exists held. rewrite (get_logger_set p held Hp). cbn [snd].
    rewrite (get_logger_set p held Hp).
    split; [destruct p; cbn in *; by subst|]. done.
  - destruct (get_logger_unset p Hp) as [_ (l & Hl & Hnone & Hg)].
    exists l. rewrite Hg. cbn [snd]. split; [done|]. split; [|done].
    by apply get_logger_set.
Qed.

(** X15.  The module-level [debug] does log at [DEBUG]: it calls
    [Logger.log], not the method [Logger.debug] that raises.  With a
    logger that is running and writes a file, and a stamp (the one given,
    or the reading of the clock when none is) that [to_ns] converts: the
    console is asked to print at [logging.DEBUG], the message is queued for
    the websocket, and the file is given a record of level 1 with the
    nanoseconds of the stamp as its log time. *)
Theorem module_debug_logs_at_DEBUG p l f mcap now msg stamp ns :
  __logger p = Some l ->
  FoxgloveWebsocketLogger.thread (Logger._foxglove_log l) = FoxgloveWebsocketLogger.Running f ->
  Logger._mcap_log l = Some mcap ->
  to_ns (this_or_now stamp now) = Ok ns ->
  let t := this_or_now stamp now in
  let body := MCAPLogger.log_body msg t DEBUG in
  let ch := channel_id (MCAPLogger.registration_log mcap) in
  exists l' mcap',
    snd (mcaplog.debug now msg stamp p) = {| __logger := Some l'; released := released p |}
    /\ fst (mcaplog.debug now msg stamp p)
       = fst (add_message ch ns (LogJson body) ns (MCAPLogger._writer mcap))
    /\ Logger._pylog l' = Logger._pylog l ++ [ConsoleLog logging_DEBUG t msg]
    /\ FoxgloveWebsocketLogger._input_queue (Logger._foxglove_log l')
       = FoxgloveWebsocketLogger._input_queue (Logger._foxglove_log l)
         ++ [(FOXGLOVE_LOG_TOPIC, t, PyStr msg)]
    /\ Logger._mcap_log l' = Some mcap'
    /\ MCAPLogger.writer_calls mcap'
       = MCAPLogger.writer_calls mcap ++ [CallAddMessage ch ns (LogJson body) ns]
    /\ body_level body = 1
    /\ body_message body = msg.
Proof.
  intros Hp Hth Hmcap Hns t body ch.
  unfold mcaplog.debug, mcaplog.log, on_logger, bind.
  rewrite (get_logger_set p l Hp). fold t.
  unfold Logger.log, bind, lift. rewrite pylog_level_of_Level. cbn [ret].
  unfold Logger.pylog_log, Logger.on_foxglove. cbn [Logger._foxglove_log].
  unfold FoxgloveWebsocketLogger.log.
  rewrite (publish_running _ f _ _ _ Hth).
  unfold Logger.on_mcap. cbn [Logger._mcap_log]. rewrite Hmcap.
  destruct (log_reaches_writer mcap msg t DEBUG ns Hns) as [Hr Hw].
  destruct (MCAPLogger.log msg t DEBUG mcap) as [r mcap'] eqn:Hlog. cbn [fst snd] in *.
  eexists _, mcap'. split; [reflexivity|]. cbn.
  split; [exact Hr|]. split; [done|]. split; [done|]. split; [done|]. split; [exact Hw|].
  subst body. unfold MCAPLogger.log_body. by destruct (to_stamp (PyFloat t)).
Qed.

End ModuleFunctions.

(** ** The loggers as context managers *)

Section With.

Context {W V : Type} `{Writer W} `{Server V}.

(** The statement on a class whose [__enter__] returns [self] and whose
    [__exit__] closes and returns [None]. *)
Lemma with_statement_closing {S} (qualname : string) (close : M S unit) (body : M S unit)
    (s : S) :
  with_statement
    {| class_qualname := qualname;
       __enter__ := Some (ret tt);
       __exit__ := Some (3%nat, let* _ := close in ret false) |} body s
  = (let (r, s1) := body s in
     let (rc, s2) := close s1 in
     (match rc with Ok _ => r | Raise e => Raise e end, s2)).
Proof.
  unfold with_statement, bind. cbn [__enter__ __exit__ ret Nat.eqb].
  destruct (body s) as [[[]|e0] s1]; destruct (close s1) as [[[]|e] s2]; done.
Qed.

(** X16.  The two sinks can be used in a [with] statement, and the
    statement closes them whatever its body does: for the MCAP logger the
    writer is told to finish, once, after everything the body did, and for
    the websocket logger the worker thread is dead afterwards.  An
    exception of the body is raised again after the sink is closed.
    [Logger] cannot: it defines no [__enter__], so the statement raises
    [TypeError] before the body runs and the logger, which is built by
    then, is not closed. *)
Theorem with_closes_the_sinks_only (body_mcap : M (MCAPLogger.t W) unit)
    (body_fox : M (FoxgloveWebsocketLogger.t V) unit)
    (body_logger : M (Logger.t W V) unit)
    (mcap : MCAPLogger.t W) (fox : FoxgloveWebsocketLogger.t V) (l : Logger.t W V)
    (interrupt : option exn) :
  (let inside := body_mcap mcap in
   let after := with_statement MCAPLogger_manager body_mcap mcap in
   MCAPLogger.writer_calls (snd after)
   = MCAPLogger.writer_calls (snd inside) ++ [CallFinish]
   /\ snd after = snd (MCAPLogger.close (snd inside))
   /\ fst after = match fst (MCAPLogger.close (snd inside)) with
                  | Ok _ => fst inside
                  | Raise e => Raise e
                  end)
  /\ (let inside := body_fox fox in
      let after := with_statement (FoxgloveWebsocketLogger_manager None) body_fox fox in
      FoxgloveWebsocketLogger.thread_is_alive (snd after) = false
      /\ fst after = fst inside)
  /\ (exists msg,
        with_statement (Logger_manager interrupt) body_logger l = (Raise (TypeError msg), l)).
Proof.
  split; [|split].
  - cbv zeta. unfold MCAPLogger_manager. rewrite with_statement_closing.
    destruct (body_mcap mcap) as [r s1]. cbn [fst snd].
    destruct (close_keeps_registry s1) as (_ & _ & Hcalls).
    destruct (MCAPLogger.close s1) as [rc s2]. cbn [fst snd] in *. done.
  - cbv zeta. unfold FoxgloveWebsocketLogger_manager. rewrite with_statement_closing.
    destruct (body_fox fox) as [r s1]. cbn [fst snd].
    destruct (foxglove_close_joins s1) as (Hdead & _ & Hok).
    destruct (FoxgloveWebsocketLogger.close None s1) as [rc s2]. cbn [fst snd] in *.
    by subst rc.
  - eexists. reflexivity.
Qed.

End With.

(** ** More on the time conversions *)

(** The sign of the number being rounded only sets the sign of the
    result. *)
Lemma binary_round_aux_sign (s : bool) (m e : Z) (l : location) :
  binary_round_aux Float.prec Float.emax s m e l
  = match binary_round_aux Float.prec Float.emax false m e l with
    | S754_zero _ => S754_zero s
    | S754_infinity _ => S754_infinity s
    | S754_nan => S754_nan
    | S754_finite _ p q => S754_finite s p q
    end.
Proof.
  unfold binary_round_aux.
  destruct (shr_fexp _ _ m e l) as [mrs' e'].
  destruct (shr_fexp _ _ _ e' loc_Exact) as [mrs'' e''].
  destruct (shr_m mrs''); [done| |done].
  by destruct (e'' <=? Float.emax - Float.prec).
Qed.

(** X17.  [to_ns] is odd: the nanoseconds of [-t] are the opposite of
    those of [t], and [to_ns] raises on the one when it raises on the
    other.  It rounds toward zero on both sides of zero, where [to_stamp]
    rounds down. *)
Theorem to_ns_is_odd (t : spec_float) :
  to_ns (SFopp t)
  = match to_ns t with
    | Ok n => Ok (- n)
    | Raise e => Raise e
    end.
Proof.
  destruct t as [s|s| |s m e]; try done.
  unfold to_ns. cbn [SFopp]. rewrite !mul_NANO_float.
  rewrite (binary_round_aux_sign (xorb (negb s) false)),
    (binary_round_aux_sign (xorb s false)).
  destruct (binary_round_aux _ _ false _ _ _) as [s'|s'| |s' p q]; try done.
  cbn [Float.to_int]. f_equal. destruct s; cbn; lia.
Qed.

Lemma pow2_split (a b : Z) : 0 <= a -> 0 <= b -> 2 ^ (a + b) = 2 ^ a * 2 ^ b.
Proof. intros. by apply Z.pow_add_r. Qed.

(** [to_ns] of a float whose value is the integer [n], with
    [n * 5 ^ 9 < 2 ^ 53]: the product is a double. *)
Lemma to_ns_exact (m : positive) (e n : Z) :
  -1051 <= e <= 0 ->
  Zpos m = n * 2 ^ (- e) ->
  n * 1953125 < 2 ^ 53 ->
  to_ns (S754_finite false m e) = Ok (n * NANO).
Proof.
  intros He Hm Hn.
  pose proof (pow2_pos (- e) ltac:(lia)) as Hpe.
  assert (Hn0 : 0 < n) by nia.
  unfold to_ns. rewrite mul_NANO_float. cbn [xorb].
  destruct (binary_round_aux_exact_up false (m * 8388608000000000) (e + -23))
    as (m1 & m2 & j1 & j2 & Hj1 & Hm1 & Hj2 & Hm2 & Hr).
  rewrite Hr. clear Hr. rewrite fexp_binary64 in Hj1, Hj2.
  set (K := n * 1953125) in *.
  assert (HM : Zpos (m * 8388608000000000) = K * 2 ^ (32 - e)).
  { rewrite Pos2Z.inj_mul, Hm. unfold K.
    replace (32 - e) with (- e + 32) by lia. rewrite pow2_split by lia.
    change (2 ^ 32) with 4294967296. lia. }
  set (M := Zpos (m * 8388608000000000)) in *.
  set (d := Zdigits2 M) in *.
  assert (HdM : M < 2 ^ d).
  { subst d M. cbn [Zdigits2]. apply digits2_bounds. }
  assert (Hd : d <= 85 - e).
  { subst d. apply Zdigits2_le. split; [subst M; lia|].
    rewrite HM. replace (85 - e) with (53 + (32 - e)) by lia.
    rewrite pow2_split by lia.
    pose proof (pow2_pos (32 - e) ltac:(lia)). nia. }
  assert (Hd0 : 0 < d) by (subst d M; cbn [Zdigits2]; lia).
  assert (Hj1' : j1 = Z.max 0 (d - 53)) by lia.
  assert (Hj1r : 0 <= j1 <= 32 - e) by lia.
  pose proof (pow2_pos j1 ltac:(lia)) as Hp1.
  set (a := 32 - e - j1).
  assert (Ha : 0 <= a) by (unfold a; lia).
  pose proof (pow2_pos a Ha) as Hpa.
  assert (HMa : M = K * 2 ^ a * 2 ^ j1).
  { rewrite HM. replace (32 - e) with (a + j1) by (unfold a; lia).
    rewrite pow2_split by lia. lia. }
  assert (Hm1' : m1 = K * 2 ^ a).
  { assert (Hfl : M / 2 ^ j1 = K * 2 ^ a) by (rewrite HMa; apply Z.div_mul; lia).
    assert (Hce : (M + 2 ^ j1 - 1) / 2 ^ j1 = K * 2 ^ a).
    { symmetry. apply Z.div_unique with (2 ^ j1 - 1); lia. }
    lia. }
  assert (Hm153 : m1 < 2 ^ 53).
  { destruct (Z.le_gt_cases d 53) as [Hle|Hgt].
    - assert (j1 = 0) by lia. subst j1. change (2 ^ 0) with 1 in HMa.
      assert (2 ^ d <= 2 ^ 53) by (apply Z.pow_le_mono_r; lia). lia.
    - assert (Ej : d = 53 + j1) by lia.
      rewrite Ej, pow2_split in HdM by lia.
      rewrite HMa, <- Hm1' in HdM. nia. }
  assert (Hm10 : 0 < m1) by (rewrite Hm1'; unfold K; nia).
  assert (Hd1 : Zdigits2 m1 <= 53) by (apply Zdigits2_le; lia).
  assert (Hd1' : 0 <= Zdigits2 m1).
  { destruct m1; cbn [Zdigits2]; lia. }
  assert (Hj2' : j2 = 0) by lia.
  rewrite Hj2' in Hm2 |- *. clear Hj2 Hj2'.
  change (2 ^ 0) with 1 in Hm2. rewrite Z.div_1_r in Hm2. subst m2.
  rewrite Z.add_0_r.
  rewrite to_int_rounded by lia. f_equal.
  assert (HN : n * NANO = K * 2 ^ 9) by (unfold K, NANO; change (2 ^ 9) with 512; lia).
  rewrite HN, Hm1'.
  destruct (e + -23 + j1) as [|q|q] eqn:Hq; cbn [trunc_Z].
  - replace a with 9 by (unfold a; lia). done.
  - replace 9 with (a + Zpos q) by (unfold a; lia).
    rewrite pow2_split by lia. lia.
  - replace a with (9 + Zpos q) by (unfold a; lia).
    rewrite pow2_split by lia.
    rewrite Z.mul_assoc. apply Z.div_mul.
    pose proof (pow2_pos (Zpos q) ltac:(lia)). lia.
Qed.

(** X18.  Whole seconds convert exactly.  When the stamp is a double whose
    value is an integer [n] of seconds, with [0 <= n] and
    [n * 10 ^ 9 < 2 ^ 62] (which holds until the year 2116 for the seconds
    since 1970), [to_ns] returns [n * 10 ^ 9] on the nose, and [to_stamp] of
    that is [(n, 0)]. *)
Theorem to_ns_whole_seconds (t : spec_float) (n : Z) :
  Float.valid t = true ->
  Float.is_finite t = true ->
  Float.num t = n * 2 ^ Float.scale t ->
  0 <= n ->
  n * NANO < 2 ^ 62 ->
  to_ns t = Ok (n * NANO)
  /\ to_stamp (PyInt (n * NANO)) = (PyInt n, PyInt 0).
Proof.
  intros Hv Hfin Hval Hn0 Hcap.
  assert (HK : n * 1953125 < 2 ^ 53).
  { unfold NANO in Hcap. change (2 ^ 62) with 4611686018427387904 in Hcap.
    change (2 ^ 53) with 9007199254740992. lia. }
  split.
  - destruct t as [s|s| |s m e]; try discriminate.
    + cbn in Hval. assert (n = 0) by lia. subst n. done.
    + destruct (valid_finite _ _ _ Hv) as (Hc & Hm & He).
      rewrite fexp_binary64 in Hc.
      pose proof (digits2_bounds m) as [Hlo Hhi].
      assert (Hs : s = false).
      { destruct s; [|done]. exfalso.
        pose proof (pow2_pos (Float.scale (S754_finite true m e))) as Hp.
        destruct e as [|q|q]; cbn [Float.num Float.scale cond_Zopp] in *.
        - lia.
        - pose proof (pow2_pos (Zpos q) ltac:(lia)). nia.
        - specialize (Hp ltac:(lia)). nia. }
      subst s.
      assert (Hbig : forall q, e = Zpos q \/ e = 0 -> False).
      { intros q Hq.
        assert (Hd : Zpos (digits2_pos m) = 53) by lia.
        rewrite Hd in Hlo. change (2 ^ (53 - 1)) with 4503599627370496 in Hlo.
        change (2 ^ 53) with 9007199254740992 in HK.
        destruct Hq as [-> | ->]; cbn [Float.num Float.scale cond_Zopp] in Hval.
        - pose proof (pow2_pos (Zpos q) ltac:(lia)). nia.
        - lia. }
      destruct e as [|q|q]; [exfalso; eapply (Hbig 1%positive); auto
                            |exfalso; eapply (Hbig q); auto|].
      cbn [Float.num Float.scale cond_Zopp] in Hval.
      apply to_ns_exact; [|done|done].
      split; [|lia].
      destruct (Z.le_gt_cases 53 (Zpos q)) as [Hge|]; [exfalso|lia].
      assert (2 ^ 53 <= 2 ^ Zpos q) by (apply Z.pow_le_mono_r; lia).
      assert (0 < n) by (pose proof (pow2_pos (Zpos q) ltac:(lia)); nia).
      nia.
  - unfold to_stamp. rewrite Z.div_mul, Z.mod_mul by (unfold NANO; lia). done.
Qed.

(** [to_ns] of a positive float whose exact product with [NANO] is at
    most [2 ^ (52 + k)]: less than [2 ^ k] away from the product. *)
Lemma to_ns_within (m : positive) (e k : Z) :
  e < 0 ->
  0 <= k <= 900 ->
  Zpos m * NANO <= 2 ^ (52 + k) * 2 ^ (- e) ->
  exists n,
    to_ns (S754_finite false m e) = Ok n
    /\ (n - 2 ^ k) * 2 ^ (- e) < Zpos m * NANO < (n + 2 ^ k) * 2 ^ (- e).
Proof.
  intros He Hk Hcap.
  pose proof (pow2_pos (- e) ltac:(lia)) as HB.
  pose proof (pow2_pos k ltac:(lia)) as HK.
  destruct (to_ns_capped_up m e (52 + k)) as (m2 & e2 & Hns & He2 & Hm2 & Hlo & Hhi).
  - replace (52 + k - (e - 23)) with (52 + k + - e + 23) by lia.
    rewrite !pow2_split by lia. rewrite NANO_mantissa.
    change (2 ^ 23) with 8388608 in *.
    rewrite pow2_split in Hcap by lia. nia.
  - lia.
  - lia.
  - exists (trunc_Z m2 e2). split; [done|].
    set (A := Zpos m * NANO) in *. set (B := 2 ^ (- e)) in *.
    assert (HA : 0 < A) by (unfold A, NANO; lia).
    assert (HM : Zpos m * 8388608000000000 = A * 2 ^ 23)
      by (unfold A; rewrite NANO_mantissa; lia).
    rewrite HM in Hlo, Hhi.
    assert (Hnonneg : forall j, 0 <= j -> j <= k ->
      e2 = j ->
      (m2 * 2 ^ j - 2 ^ k) * B < A < (m2 * 2 ^ j + 2 ^ k) * B).
    { intros j Hj0 Hjk ->.
      pose proof (pow2_pos j Hj0) as HJ.
      assert (HJK : 2 ^ j <= 2 ^ k) by (apply Z.pow_le_mono_r; lia).
      assert (HD : 2 ^ (j - (e - 23)) = B * 2 ^ j * 2 ^ 23).
      { replace (j - (e - 23)) with (- e + j + 23) by lia.
        rewrite !pow2_split by lia. done. }
      rewrite HD in Hlo, Hhi.
      set (D := B * 2 ^ j * 2 ^ 23) in *.
      assert (HD0 : 0 < D) by (unfold D; change (2 ^ 23) with 8388608; nia).
      pose proof (div_mul_ge (A * 2 ^ 23) D HD0) as Hfl.
      pose proof (Z.mul_div_le (A * 2 ^ 23 + D - 1) D HD0) as Hce.
      assert (H1 : A * 2 ^ 23 - D < m2 * D) by nia.
      assert (H2 : m2 * D < A * 2 ^ 23 + D) by nia.
      unfold D in H1, H2. change (2 ^ 23) with 8388608 in H1, H2.
      assert (H1' : A - B * 2 ^ j < m2 * (B * 2 ^ j)) by nia.
      assert (H2' : m2 * (B * 2 ^ j) < A + B * 2 ^ j) by nia.
      split; nia. }
    destruct e2 as [|q|q]; cbn [trunc_Z].
    + specialize (Hnonneg 0 ltac:(lia) ltac:(lia) eq_refl).
      change (2 ^ 0) with 1 in Hnonneg. rewrite Z.mul_1_r in Hnonneg. done.
    + apply (Hnonneg (Zpos q)); lia.
    + pose proof (pow2_pos (Zpos q) ltac:(lia)) as Hq0.
      pose proof (pow2_pos (Zneg q - (e - 23)) ltac:(lia)) as Hj.
      assert (HF : A * 2 ^ 23 / 2 ^ (23 - e) = A / B).
      { unfold B. replace (23 - e) with (-e + 23) by lia. rewrite pow2_split by lia.
        apply Z.div_mul_cancel_r; lia. }
      assert (HC : (A * 2 ^ 23 + 2 ^ (23 - e) - 1) / 2 ^ (23 - e) = (A + B - 1) / B).
      { unfold B. replace (23 - e) with (-e + 23) by lia. rewrite pow2_split by lia.
        apply cdiv_scaled; lia. }
      assert (Hsplit : 2 ^ (23 - e) = 2 ^ (Zneg q - (e - 23)) * 2 ^ Zpos q).
      { rewrite <- pow2_split by lia. f_equal. lia. }
      assert (Hfl : A / B <= m2 / 2 ^ Zpos q).
      { rewrite <- HF, Hsplit, <- Z.div_div by lia. apply Z.div_le_mono; lia. }
      assert (Hce : m2 / 2 ^ Zpos q <= (A + B - 1) / B).
      { rewrite <- HC, Hsplit.
        etransitivity; [apply Z.div_le_mono; [lia|apply Hhi]|].
        apply cdiv_div; [|lia|lia].
        pose proof (pow2_pos 23 ltac:(lia)). nia. }
      pose proof (div_mul_ge A B HB) as Hd1.
      pose proof (Z.mul_div_le (A + B - 1) B HB) as Hd2.
      set (N := m2 / 2 ^ Zpos q) in *.
      assert (A - B < N * B) by nia.
      assert (N * B < A + B) by nia.
      split; nia.
Qed.

(** X19.  How far [to_ns] can be from the stamp.  For a finite,
    non-negative stamp whose nanoseconds are at most [2 ^ (52 + k)], with
    [k] from 0 to 11, [to_ns] returns and the result is less than [2 ^ k]
    nanoseconds away from the stamp: less than one nanosecond up to
    [2 ^ 52] ns (52 days), less than 512 up to [2 ^ 61] ns (the year 2043
    for seconds since 1970), less than 2048 for every stamp whose
    nanoseconds fit in 63 bits. *)
Theorem to_ns_error_bound (t : spec_float) (k : Z) :
  Float.valid t = true ->
  Float.is_finite t = true ->
  Float.sign_bit t = false ->
  0 <= k <= 11 ->
  Float.num t * NANO <= 2 ^ (52 + k) * 2 ^ Float.scale t ->
  exists n,
    to_ns t = Ok n
    /\ (n - 2 ^ k) * 2 ^ Float.scale t < Float.num t * NANO
       < (n + 2 ^ k) * 2 ^ Float.scale t.
Proof.
  intros Hv Hfin Hsign Hk Hcap.
  pose proof (pow2_pos k ltac:(lia)) as HK.
  destruct t as [s|s| |s m e]; try discriminate.
  - exists 0. split; [done|]. cbn. lia.
  - cbn in Hsign. subst s.
    destruct (valid_finite _ _ _ Hv) as (Hc & Hm & He).
    rewrite fexp_binary64 in Hc.
    destruct (digits2_bounds m) as [Hlo _].
    assert (Hc63 : 2 ^ (52 + k) <= 2 ^ 63) by (apply Z.pow_le_mono_r; lia).
    change (2 ^ 63) with 9223372036854775808 in Hc63.
    assert (Hbig : forall q, e = Zpos q \/ e = 0 -> False).
    { intros q Hq.
      assert (Hd : Zpos (digits2_pos m) = 53) by lia.
      rewrite Hd in Hlo. change (2 ^ (53 - 1)) with 4503599627370496 in Hlo.
      destruct Hq as [-> | ->]; cbn [Float.num Float.scale cond_Zopp] in Hcap;
        change (2 ^ 0) with 1 in Hcap; unfold NANO in Hcap.
      - pose proof (pow2_pos (Zpos q) ltac:(lia)). nia.
      - lia. }
    destruct e as [|q|q]; [exfalso; eapply (Hbig 1%positive); auto
                          |exfalso; eapply (Hbig q); auto|].
    cbn [Float.num Float.scale cond_Zopp] in Hcap |- *.
    apply (to_ns_within m (Zneg q) k); [lia|lia|done].
Qed.

Lemma to_ns_error_bound_witness :
  Float.num Demo.recent * NANO <= 2 ^ (52 + 9) * 2 ^ Float.scale Demo.recent
  /\ exists n,
       to_ns Demo.recent = Ok n
       /\ (n - 2 ^ 9) * 2 ^ Float.scale Demo.recent < Float.num Demo.recent * NANO
          < (n + 2 ^ 9) * 2 ^ Float.scale Demo.recent.
Proof.
  split; [vm_compute; discriminate|].
  apply (to_ns_error_bound Demo.recent 9);
    [reflexivity | reflexivity | reflexivity | lia | vm_compute; discriminate].
Defined.

(** ** The console loggers *)

Section ConsoleLoggers.

Context {L : Type} `{Logging L}.

Implicit Types s : logging_state L.

Lemma handlers_added_app name (cs cs' : list logging_call) :
  handlers_added name (cs ++ cs') = (handlers_added name cs + handlers_added name cs')%nat.
Proof. unfold handlers_added. by rewrite filter_app, length_app. Qed.

Lemma handlers_added_cons name c (cs : list logging_call) :
  handlers_added name (c :: cs)
  = ((if adds_handler_to name c then 1 else 0) + handlers_added name cs)%nat.
Proof.
  unfold handlers_added. destruct (adds_handler_to name c) eqn:E.
  - by rewrite filter_cons_True.
  - rewrite filter_cons_False; [done|]. by rewrite E.
Qed.

(** The state [get_pylogger] leaves, case by case. *)
Lemma get_pylogger_eq name level s :
  get_pylogger name level s
  = match pylog_level level with
    | Raise e =>
        (Raise e,
         {| logging := getLogger name (logging s);
            logging_calls := logging_calls s ++ [CallGetLoggerNamed name] |})
    | Ok pylevel =>
        let lg := setLevel name pylevel (getLogger name (logging s)) in
        if hasHandlers name lg then
          (Ok name,
           {| logging := lg;
              logging_calls :=
                logging_calls s
                ++ [CallGetLoggerNamed name; CallSetLevel name pylevel;
                    CallHasHandlers name] |})
        else
          (Ok name,
           {| logging := addHandler name pylogger_format lg;
              logging_calls :=
                logging_calls s
                ++ [CallGetLoggerNamed name; CallSetLevel name pylevel;
                    CallHasHandlers name; CallAddHandler name pylogger_format] |})
    end.
Proof.
  unfold get_pylogger, bind, on_logging, lift. cbn.
  destruct (pylog_level level) as [pylevel|e]; cbn; [|done].
  destruct (hasHandlers name _); cbn; by rewrite <- !app_assoc.
Qed.

(** What one [get_pylogger] call does to the state. *)
Lemma get_pylogger_step (laws : Logging_laws) name level s :
  handlers_in_place s ->
  let after := snd (get_pylogger name level s) in
  handlers_in_place after
  /\ (forall n, (handlers_added n (logging_calls after) <= 1)%nat
                \/ handlers_added n (logging_calls after) = handlers_added n (logging_calls s))
  /\ (forall pylevel, pylog_level level = Ok pylevel ->
                      fst (get_pylogger name level s) = Ok name
                      /\ hasHandlers name (logging after) = true).
Proof.
  intros Hinv. destruct laws as [Hadd Hother Hset Hget].
  cbv zeta. rewrite get_pylogger_eq. unfold handlers_in_place in *.
  destruct (pylog_level level) as [pylevel|e]; cbv zeta.
  - destruct (hasHandlers name (setLevel name pylevel (getLogger name (logging s)))) eqn:Hhas;
      cbn [fst snd logging logging_calls].
    + split; [|split].
      * intros n. rewrite handlers_added_app, !handlers_added_cons. cbn.
        rewrite Nat.add_0_r. intros Hn. rewrite Hset, Hget. by apply Hinv.
      * intros n. right. rewrite handlers_added_app, !handlers_added_cons. cbn. lia.
      * intros ? _. done.
    + assert (Hnone : handlers_added name (logging_calls s) = 0%nat).
      { destruct (handlers_added name (logging_calls s)) eqn:E; [done|].
        rewrite Hset, Hget, Hinv in Hhas; [done|lia]. }
      split; [|split].
      * intros n. rewrite handlers_added_app, !handlers_added_cons.
        cbn [adds_handler_to handlers_added filter length].
        destruct (String.eqb_spec name n) as [->|Hne].
        -- intros _. apply Hadd.
        -- cbn. rewrite Nat.add_0_r. intros Hn.
           apply Hother. rewrite Hset, Hget. by apply Hinv.
      * intros n. rewrite handlers_added_app, !handlers_added_cons.
        cbn [adds_handler_to].
        destruct (String.eqb_spec name n) as [->|Hne].
        -- left. rewrite Hnone. cbn. lia.
        -- right. cbn. lia.
      * intros ? _. split; [done|]. apply Hadd.
  - cbn [fst snd logging logging_calls]. split; [|split].
    + intros n. rewrite handlers_added_app, !handlers_added_cons. cbn.
      rewrite Nat.add_0_r. intros Hn. rewrite Hget. by apply Hinv.
    + intros n. right. rewrite handlers_added_app, !handlers_added_cons. cbn. lia.
    + discriminate.
Qed.

Lemma get_pyloggers_invariant (laws : Logging_laws) (calls : list (string * Z)) s :
  handlers_in_place s ->
  (forall n, (handlers_added n (logging_calls s) <= 1)%nat) ->
  handlers_in_place (get_pyloggers calls s)
  /\ forall n, (handlers_added n (logging_calls (get_pyloggers calls s)) <= 1)%nat.
Proof.
  revert s. induction calls as [|[name level] calls IH]; intros s Hinv Hone; [done|].
  cbn [get_pyloggers fold_left fst snd].
  destruct (get_pylogger_step laws name level s Hinv) as (Hinv' & Hcount & _).
  apply IH; [done|]. intros n. destruct (Hcount n) as [Hle|Heq]; [done|].
  rewrite Heq. apply Hone.
Qed.

(** X20.  [get_pylogger] gives a logger at most one handler.  With a
    [logging] module that behaves as [get_pylogger] expects, after any row
    of [get_pylogger] calls, whatever the names and the levels and whether
    the calls returned or raised, no logger has been given a second
    handler; and a call with a valid level returns the logger with a
    handler in place.  The check that it is configured is what makes the
    second construction of a logger in one process print each line once. *)
Theorem get_pylogger_adds_one_handler (laws : Logging_laws) (initial : L)
    (calls : list (string * Z)) (name : string) (level : Level) :
  let s := get_pyloggers calls {| logging := initial; logging_calls := [] |} in
  (forall n, (handlers_added n (logging_calls s) <= 1)%nat)
  /\ fst (get_pylogger name (int_of_Level level) s) = Ok name
  /\ hasHandlers name (logging (snd (get_pylogger name (int_of_Level level) s))) = true
  /\ (forall n,
         (handlers_added n (logging_calls (snd (get_pylogger name (int_of_Level level) s)))
          <= 1)%nat).
Proof.
  intros s.
  assert (Hstart : handlers_in_place {| logging := initial; logging_calls := [] |})
    by (intros n; cbn; lia).
  destruct (get_pyloggers_invariant laws calls _ Hstart) as [Hinv Hone];
    [intros n; cbn; lia|].
  fold s in Hinv, Hone.
  destruct (get_pylogger_step laws name (int_of_Level level) s Hinv)
    as (_ & Hcount & Hok).
  destruct (Hok _ (pylog_level_of_Level level)) as [Hret Hhas].
  split; [done|]. split; [done|]. split; [done|].
  intros n. destruct (Hcount n) as [Hle|Heq]; [done|]. rewrite Heq. apply Hone.
Qed.

End ConsoleLoggers.

(** ** The further theorems on concrete runs *)

Section MoreSamples.

Import Recording.

Lemma pylog_level_scales_witness :
  (exists msg, pylog_level 7 = Raise (ValueError msg))
  /\ pylog_level (int_of_Level WARNING) = Ok 30
  /\ (int_of_Level INFO < int_of_Level ERROR <-> 20 < 40).
Proof.
  destruct pylog_level_scales as (Hl & Hz & Ho).
  split; [apply Hz; lia|]. split; [apply (Hl WARNING)|].
  apply (Ho INFO ERROR); reflexivity.
Defined.

Lemma sink_with_twist_queued_reachable :
  FoxgloveWebsocketLogger.reachable Samples.sink_with_twist_queued.
Proof.
  assert (E : Samples.sink_with_twist_queued
              = snd (FoxgloveWebsocketLogger.publish "/pose" Demo.twist Float.one
                       (FoxgloveWebsocketLogger.worker_turn
                          (snd (FoxgloveWebsocketLogger.publish "/pose" Demo.pose Float.one
                                  (FoxgloveWebsocketLogger.worker_start
                                     (FoxgloveWebsocketLogger.init INFO)))))))
    by (vm_compute; reflexivity).
  rewrite E.
  apply FoxgloveWebsocketLogger.reach_publish, FoxgloveWebsocketLogger.reach_worker_turn,
    FoxgloveWebsocketLogger.reach_publish, FoxgloveWebsocketLogger.reach_worker_start,
    FoxgloveWebsocketLogger.reach_init.
Qed.

Lemma sink_reachable : FoxgloveWebsocketLogger.reachable Demo.sink.
Proof.
  apply FoxgloveWebsocketLogger.reach_worker_start, FoxgloveWebsocketLogger.reach_init.
Qed.

Lemma worker_turn_outcome_witness :
  FoxgloveWebsocketLogger._input_queue (FoxgloveWebsocketLogger.worker_turn Demo.poisoned) = []
  /\ FoxgloveWebsocketLogger.thread_is_alive (FoxgloveWebsocketLogger.worker_turn Demo.poisoned)
     = false
  /\ FoxgloveWebsocketLogger._exception_queue (FoxgloveWebsocketLogger.worker_turn Demo.poisoned)
     = [AssertionError "Required pydantic model, but got dict"].
Proof.
  assert (Hreach : FoxgloveWebsocketLogger.reachable Demo.poisoned)
    by apply FoxgloveWebsocketLogger.reach_publish, sink_reachable.
  destruct (FoxgloveWebsocketLogger.thread Demo.poisoned) as [|f|fr] eqn:Hth;
    [discriminate| |discriminate].
  exact (worker_turn_outcome Demo.poisoned f ("/scan", Float.one, PyObject "dict") [] []
           Hreach Hth eq_refl eq_refl).
Defined.

Lemma topic_conflict_kills_worker_witness :
  let after := FoxgloveWebsocketLogger.worker_turn Samples.sink_with_twist_queued in
  sent_calls Samples.sink_with_twist_queued
  = [CallSendMessage 1 1000000000 (ModelJson "{x: 1.0}")]
  /\ sent_calls after = sent_calls Samples.sink_with_twist_queued
  /\ FoxgloveWebsocketLogger._exception_queue after
     = [AssertionError "Topic /pose registered with Pose"]
  /\ fst (FoxgloveWebsocketLogger.publish "/pose" Demo.pose Float.one after)
     = Raise (AssertionError "Topic /pose registered with Pose").
Proof.
  split; [vm_compute; reflexivity|].
  destruct (FoxgloveWebsocketLogger.thread Samples.sink_with_twist_queued) as [|f|fr] eqn:Hth;
    [discriminate| |discriminate].
  refine (proj2 (topic_conflict_kills_worker Samples.sink_with_twist_queued f "/pose" Float.one
            Demo.twist [] {| name := "Pose"; channel_id := 1 |} "/pose" Demo.pose Float.one
            sink_with_twist_queued_reachable Hth eq_refl eq_refl _ eq_refl _ _)).
  - discriminate.
  - injection Hth as <-. vm_compute. reflexivity.
  - discriminate.
Defined.

Lemma bad_object_kills_worker_witness :
  let queued := FoxgloveWebsocketLogger.publish "`/log`" Demo.pose Float.one Demo.sink in
  let after := FoxgloveWebsocketLogger.worker_turn (snd queued) in
  fst queued = Ok tt
  /\ FoxgloveWebsocketLogger.thread_is_alive after = false
  /\ sent_calls after = []
  /\ exists msg,
       FoxgloveWebsocketLogger._exception_queue after = [AssertionError msg]
       /\ fst (FoxgloveWebsocketLogger.publish "/pose" Demo.pose Float.one after)
          = Raise (AssertionError msg).
Proof.
  destruct (FoxgloveWebsocketLogger.thread Demo.sink) as [|f|fr] eqn:Hth;
    [discriminate| |discriminate].
  destruct (bad_object_kills_worker Demo.sink f "`/log`" Demo.pose Float.one
              "/pose" Demo.pose Float.one sink_reachable Hth eq_refl eq_refl eq_refl)
    as (Hq & Hdead & Hsent & Hx).
  split; [exact Hq|]. split; [|split; [|exact Hx]].
  - unfold FoxgloveWebsocketLogger.thread_is_alive. by rewrite Hdead.
  - rewrite Hsent. vm_compute. reflexivity.
Defined.

Lemma close_does_not_flush_witness :
  let queued :=
    snd (FoxgloveWebsocketLogger.publish_all (map log_call Samples.two_messages) Demo.sink) in
  let closed :=
    snd (FoxgloveWebsocketLogger.close None (FoxgloveWebsocketLogger.worker_turn queued)) in
  sent_calls queued = []
  /\ sent_calls closed
     = [CallSendMessage 0 1000000000
          (LogJson (FoxgloveWebsocketLogger.log_msg INFO Float.one (PyStr "first")))]
  /\ FoxgloveWebsocketLogger._input_queue closed
     = [(FOXGLOVE_LOG_TOPIC, Demo.one_and_a_half, PyStr "second")]
  /\ FoxgloveWebsocketLogger.thread_is_alive closed = false
  /\ worker_turns 3 closed = closed.
Proof.
  intros queued closed.
  destruct (close_does_not_flush queued true 3 "/pose" Demo.pose Float.one)
    as (Hdead & _ & Hturns & _).
  split; [vm_compute; reflexivity|]. split; [vm_compute; reflexivity|].
  split; [vm_compute; reflexivity|]. split; [exact Hdead|exact Hturns].
Defined.

Lemma log_records_in_order_witness :
  let logged :=
    FoxgloveWebsocketLogger.publish_all (map log_call Samples.two_messages) Demo.sink in
  let after := worker_turns 2 (snd logged) in
  fst logged = [Ok tt; Ok tt]
  /\ sent_calls after
     = [CallSendMessage 0 1000000000
          (LogJson (FoxgloveWebsocketLogger.log_msg INFO Float.one (PyStr "first")));
        CallSendMessage 0 1500000000
          (LogJson (FoxgloveWebsocketLogger.log_msg INFO Demo.one_and_a_half (PyStr "second")))]
  /\ FoxgloveWebsocketLogger._input_queue after = []
  /\ FoxgloveWebsocketLogger.thread_is_alive after = true.
Proof.
  destruct (FoxgloveWebsocketLogger.thread Demo.sink) as [|f|fr] eqn:Hth;
    [discriminate| |discriminate].
  assert (Hns : Forall (fun m : string * spec_float * Z => to_ns (snd (fst m)) = Ok (snd m))
                  Samples.two_messages).
  { repeat constructor; vm_compute; reflexivity. }
  assert (Hsend : forall ch ns data (v : server), fst (send_message ch ns data v) = Ok tt)
    by reflexivity.
  destruct (log_records_in_order Demo.sink f Samples.two_messages
              Hsend Hns Hth eq_refl eq_refl)
    as (Hok & Hsent & Hq & Halive).
  split; [exact Hok|]. split; [|split; [exact Hq|exact Halive]].
  refine (eq_trans Hsent _). injection Hth as <-. vm_compute. reflexivity.
Defined.

Lemma non_model_with_and_without_file_witness :
  Logger.publish "/scan" (PyObject "dict") Float.one Demo.logger
  = (Raise (AssertionError "Required pydantic model, but got {name}"), Demo.logger).
Proof.
  destruct (FoxgloveWebsocketLogger.thread (Logger._foxglove_log Demo.logger))
    as [|f|fr] eqn:Hth; [discriminate| |discriminate].
  refine (non_model_with_and_without_file Demo.logger f "/scan" (PyObject "dict") Float.one
            sink_reachable Hth eq_refl eq_refl _ eq_refl).
  discriminate.
Defined.

Lemma websocket_down_log_and_publish_witness :
  exists mcap mcap',
    Logger._mcap_log Samples.fresh_logger = Some mcap
    /\ MCAPLogger.publish "/pose" Demo.pose Float.one mcap = (Ok tt, mcap')
    /\ length (messages (MCAPLogger._writer mcap')) = 1%nat
    /\ Logger.log "hello" Float.one WARNING Samples.fresh_logger
       = (Raise FoxgloveWebsocketLogger.not_running,
          {| Logger._pylog := [ConsoleLog 30 Float.one "hello"];
             Logger._foxglove_log := Logger._foxglove_log Samples.fresh_logger;
             Logger._mcap_log := Some mcap |})
    /\ Logger.publish "/pose" Demo.pose Float.one Samples.fresh_logger
       = (Raise FoxgloveWebsocketLogger.not_running,
          {| Logger._pylog := [];
             Logger._foxglove_log := Logger._foxglove_log Samples.fresh_logger;
             Logger._mcap_log := Some mcap' |}).
Proof.
  destruct (Logger._mcap_log Samples.fresh_logger) as [mcap|] eqn:Hmcap; [|discriminate].
  destruct (MCAPLogger.publish "/pose" Demo.pose Float.one mcap) as [r mcap'] eqn:Hpub.
  assert (Hr : r = Ok tt).
  { injection Hmcap as <-. vm_compute in Hpub. by injection Hpub as <- _. }
  subst r. exists mcap, mcap'. split; [done|]. split; [done|].
  split; [injection Hmcap as <-; vm_compute in Hpub; injection Hpub as <-; reflexivity|].
  exact (websocket_down_log_and_publish Samples.fresh_logger "hello" Float.one WARNING
           "/pose" Demo.pose mcap mcap' eq_refl eq_refl Hmcap Hpub).
Defined.

Lemma logger_websocket_records_are_INFO_witness :
  let started :=
    {| Logger._pylog := Logger._pylog Samples.fresh_debug_logger;
       Logger._foxglove_log :=
         FoxgloveWebsocketLogger.worker_start (Logger._foxglove_log Samples.fresh_debug_logger);
       Logger._mcap_log := Logger._mcap_log Samples.fresh_debug_logger |} in
  let logged := snd (Logger.log "boom" Float.one ERROR started) in
  let after := FoxgloveWebsocketLogger.worker_turn (Logger._foxglove_log logged) in
  Logger.init (W := writer) (V := server) "" DEBUG = Ok Samples.fresh_debug_logger
  /\ FoxgloveWebsocketLogger.level (Logger._foxglove_log Samples.fresh_debug_logger) = INFO
  /\ exists body,
       sent_calls after = [CallSendMessage 0 1000000000 (LogJson body)]
       /\ body_level body = 2
       /\ body_message body = "boom".
Proof.
  split; [reflexivity|].
  destruct (FoxgloveWebsocketLogger.enter (V := server)) as [f|e] eqn:Henter; [|discriminate].
  assert (Hch : channel_id (FoxgloveWebsocketLogger.registration_log f) = 0).
  { vm_compute in Henter. by injection Henter as <-. }
  rewrite <- Hch.
  exact (logger_websocket_records_are_INFO "" DEBUG Samples.fresh_debug_logger f "boom"
           Float.one ERROR 1000000000 eq_refl Henter eq_refl).
Defined.

Lemma registration_is_for_life_witness :
  let later :=
    mcap_run [McapLog "tick" Float.one INFO;
              McapPublish "/pose" Demo.twist Float.one;
              McapClose;
              McapPublish "/twist" Demo.twist S754_nan] Demo.mcap_with_pose in
  MCAPLogger._topic_to_registration later !! "/pose" = Some {| name := "Pose"; channel_id := 2 |}
  /\ MCAPLogger.registration_log later = MCAPLogger.registration_log Demo.mcap_with_pose
  /\ MCAPLogger.publish "/pose" Demo.twist Float.one later
     = (Raise (AssertionError "Topic /pose registered with Pose"), later).
Proof.
  refine (registration_is_for_life Demo.mcap_with_pose _ "/pose"
            {| name := "Pose"; channel_id := 2 |} Demo.twist Float.one _ eq_refl _).
  - vm_compute. reflexivity.
  - discriminate.
Defined.

Lemma publish_registers_once_witness :
  let first := MCAPLogger.publish "/pose" Demo.pose Float.one Samples.fresh_mcap in
  let second := MCAPLogger.publish "/pose" Demo.pose Demo.one_and_a_half (snd first) in
  MCAPLogger.writer_calls (snd first)
  = MCAPLogger.writer_calls Samples.fresh_mcap
    ++ [CallRegisterSchema "Pose" "jsonschema" "{title: Pose}";
        CallRegisterChannel 2 "/pose" "json";
        CallAddMessage 2 1000000000 (ModelJson "{x: 1.0}") 1000000000]
  /\ MCAPLogger.writer_calls (snd second)
     = MCAPLogger.writer_calls (snd first)
       ++ [CallAddMessage 2 1500000000 (ModelJson "{x: 1.0}") 1500000000].
Proof.
  destruct (register_schema "Pose" "jsonschema" "{title: Pose}"
              (MCAPLogger._writer Samples.fresh_mcap)) as [rs w1] eqn:Hs.
  destruct (register_channel 2 "/pose" "json" w1) as [rc w2] eqn:Hc.
  assert (Hrs : rs = Ok 2) by (vm_compute in Hs; by injection Hs as <- _).
  subst rs.
  assert (Hrc : rc = Ok 2).
  { vm_compute in Hs. injection Hs as <-. vm_compute in Hc. by injection Hc as <- _. }
  subst rc.
  destruct (publish_registers_once Samples.fresh_mcap "/pose" Demo.pose Float.one 1000000000
              2 w1 2 w2 Demo.pose Demo.one_and_a_half 1500000000
              eq_refl eq_refl eq_refl Hs Hc eq_refl eq_refl eq_refl)
    as (_ & Hfirst & _ & Hsecond & _).
  split; [exact Hfirst | exact Hsecond].
Defined.

Lemma bad_stamp_log_and_publish_witness :
  MCAPLogger.log "tick" S754_nan INFO Samples.fresh_mcap
  = (Raise (ValueError "cannot convert float NaN to integer"), Samples.fresh_mcap)
  /\ fst (MCAPLogger.publish "/pose" Demo.pose S754_nan Samples.fresh_mcap)
     = Raise (ValueError "cannot convert float NaN to integer")
  /\ MCAPLogger.writer_calls (snd (MCAPLogger.publish "/pose" Demo.pose S754_nan Samples.fresh_mcap))
     = MCAPLogger.writer_calls Samples.fresh_mcap
       ++ [CallRegisterSchema "Pose" "jsonschema" "{title: Pose}";
           CallRegisterChannel 2 "/pose" "json"]
  /\ MCAPLogger._topic_to_registration
       (snd (MCAPLogger.publish "/pose" Demo.pose S754_nan Samples.fresh_mcap)) !! "/pose"
     = Some {| name := "Pose"; channel_id := 2 |}.
Proof.
  destruct (register_schema "Pose" "jsonschema" "{title: Pose}"
              (MCAPLogger._writer Samples.fresh_mcap)) as [rs w1] eqn:Hs.
  destruct (register_channel 2 "/pose" "json" w1) as [rc w2] eqn:Hc.
  assert (Hrs : rs = Ok 2) by (vm_compute in Hs; by injection Hs as <- _).
  subst rs.
  assert (Hrc : rc = Ok 2).
  { vm_compute in Hs. injection Hs as <-. vm_compute in Hc. by injection Hc as <- _. }
  subst rc.
  exact (proj2 (bad_stamp_log_and_publish Samples.fresh_mcap S754_nan
                  (ValueError "cannot convert float NaN to integer") "tick" INFO
                  "/pose" Demo.pose 2 w1 2 w2 eq_refl eq_refl eq_refl Hs Hc)).
Defined.

Lemma module_debug_logs_at_DEBUG_witness :
  exists l' mcap',
    snd (mcaplog.debug Demo.one_and_a_half "tick" None Samples.running)
    = {| __logger := Some l'; released := [] |}
    /\ fst (mcaplog.debug Demo.one_and_a_half "tick" None Samples.running) = Ok tt
    /\ Logger._pylog l' = [ConsoleLog 10 Demo.one_and_a_half "tick"]
    /\ Logger._mcap_log l' = Some mcap'
    /\ MCAPLogger.writer_calls mcap'
       = MCAPLogger.writer_calls Demo.mcap_with_pose
         ++ [CallAddMessage 1 1500000000
               (LogJson (MCAPLogger.log_body "tick" Demo.one_and_a_half DEBUG)) 1500000000].
Proof.
  destruct (FoxgloveWebsocketLogger.thread (Logger._foxglove_log Demo.logger))
    as [|f|fr] eqn:Hth; [discriminate| |discriminate].
  destruct (module_debug_logs_at_DEBUG Samples.running Demo.logger f Demo.mcap_with_pose
              Demo.one_and_a_half "tick" None 1500000000 eq_refl Hth eq_refl eq_refl)
    as (l' & mcap' & Hp & Hr & Hc & _ & Hm & Hw & _).
  exists l', mcap'. split; [exact Hp|]. split; [exact Hr|]. split; [exact Hc|].
  split; [exact Hm|exact Hw].
Defined.

Lemma to_ns_whole_seconds_witness :
  Samples.epoch = Float.of_Z 1700000000
  /\ to_ns Samples.epoch = Ok 1700000000000000000
  /\ to_stamp (PyInt 1700000000000000000) = (PyInt 1700000000, PyInt 0).
Proof.
  split; [vm_compute; reflexivity|].
  apply (to_ns_whole_seconds Samples.epoch 1700000000);
    [reflexivity | reflexivity | vm_compute; reflexivity | lia | vm_compute; reflexivity].
Defined.

(** [FlatLogging] behaves as [get_pylogger] expects. *)
Lemma FlatLogging_laws : Logging_laws (L := FlatLogging.t).
Proof.
  split.
  - intros name format s. cbn. rewrite lookup_insert_eq.
    by destruct (default [] (FlatLogging.handlers s !! name)).
  - intros name other format s. cbn.
    destruct (decide (other = name)) as [->|Hne].
    + intros _. rewrite lookup_insert_eq.
      by destruct (default [] (FlatLogging.handlers s !! name)).
    + by rewrite lookup_insert_ne.
  - done.
  - intros name other s. cbn.
    destruct (FlatLogging.handlers s !! other) as [hs|] eqn:Ho; [done|].
    destruct (decide (other = name)) as [->|Hne].
    + by rewrite lookup_insert_eq, Ho.
    + by rewrite lookup_insert_ne.
Qed.

Lemma get_pylogger_adds_one_handler_witness :
  let s :=
    get_pyloggers [("cartpole", 2); ("cartpole.mcap", 2); ("cartpole", 1); ("cartpole", 9)]
      {| logging := FlatLogging.empty; logging_calls := [] |} in
  handlers_added "cartpole" (logging_calls s) = 1%nat
  /\ (forall n, (handlers_added n (logging_calls s) <= 1)%nat)
  /\ fst (get_pylogger "cartpole" (int_of_Level FATAL) s) = Ok "cartpole"
  /\ (forall n,
         (handlers_added n (logging_calls (snd (get_pylogger "cartpole" (int_of_Level FATAL) s)))
          <= 1)%nat).
Proof.
  split; [vm_compute; reflexivity|].
  destruct (get_pylogger_adds_one_handler FlatLogging_laws FlatLogging.empty
              [("cartpole", 2); ("cartpole.mcap", 2); ("cartpole", 1); ("cartpole", 9)]
              "cartpole" FATAL) as (Hone & Hret & _ & Hone').
  split; [exact Hone|]. split; [exact Hret | exact Hone'].
Defined.

End MoreSamples.

(** ** Publishing, end to end *)

Section PublishPaths.

Context {W V : Type} `{Writer W} `{Server V}.

Implicit Types p : process W V.
Implicit Types l : Logger.t W V.
Implicit Types f : FoxgloveWebsocketLogger.frame V.

(** X21.  The module-level [publish] without a stamp reads the clock once
    and both sinks get that reading.  With a logger that is running and
    writes a file, a model of the class the topic is registered for, and a
    writer that accepts the message: the call returns, the file has been
    given the message with [to_ns] of the reading as log time and publish
    time, the item queued for the websocket carries the reading, and the
    console is not used. *)
Theorem module_publish_reaches_both_sinks p l f mcap cached now topic_name obj ns w' :
  __logger p = Some l ->
  FoxgloveWebsocketLogger.thread (Logger._foxglove_log l) = FoxgloveWebsocketLogger.Running f ->
  Logger._mcap_log l = Some mcap ->
  is_BaseModel obj = true ->
  MCAPLogger._topic_to_registration mcap !! topic_name = Some cached ->
  name cached = class_name obj ->
  to_ns now = Ok ns ->
  add_message (channel_id cached) ns (ModelJson (model_json obj)) ns (MCAPLogger._writer mcap)
  = (Ok tt, w') ->
  exists l' mcap',
    mcaplog.publish now topic_name obj None p
    = (Ok tt, {| __logger := Some l'; released := released p |})
    /\ Logger._pylog l' = Logger._pylog l
    /\ Logger._mcap_log l' = Some mcap'
    /\ MCAPLogger.writer_calls mcap'
       = MCAPLogger.writer_calls mcap
         ++ [CallAddMessage (channel_id cached) ns (ModelJson (model_json obj)) ns]
    /\ FoxgloveWebsocketLogger._input_queue (Logger._foxglove_log l')
       = FoxgloveWebsocketLogger._input_queue (Logger._foxglove_log l)
         ++ [(topic_name, now, obj)].
Proof.
  intros Hp Hth Hmcap Hm Hc Hn Hns Hadd.
  unfold mcaplog.publish, on_logger, bind. rewrite (get_logger_set p l Hp).
  cbn [this_or_now].
  unfold Logger.publish, bind, Logger.on_mcap, Logger.on_foxglove. rewrite Hmcap.
  destruct (publish_reaches_writer mcap topic_name obj now ns cached Hns Hm Hc Hn)
    as [Hr Hw].
  rewrite Hadd in Hr. cbn [fst] in Hr.
  destruct (MCAPLogger.publish topic_name obj now mcap) as [r mcap'] eqn:Hpub.
  cbn [fst snd] in Hr, Hw. subst r. cbn [Logger._foxglove_log].
  rewrite (publish_running _ f _ _ _ Hth).
  eexists _, mcap'. split; [reflexivity|]. cbn. done.
Qed.

(** X22.  The worker registers a topic with the server once.  For the
    first item on a topic it asks the server for a channel, with the topic,
    the class name as schema name and the schema of the model, and then
    sends the message on the channel the server gave; it caches the class
    name and the channel.  For a later item of that class it only sends,
    on the same channel. *)
Theorem worker_registers_once (lv : Level) f topic_name obj stamp ns ch v1 obj' stamp' ns' :
  topic_name <> FOXGLOVE_LOG_TOPIC ->
  FoxgloveWebsocketLogger.topic_to_registration f !! topic_name = None ->
  is_BaseModel obj = true ->
  to_ns stamp = Ok ns ->
  add_channel {| spec_topic := topic_name; spec_encoding := "json";
                 spec_schemaName := class_name obj; spec_schema := model_schema obj |}
    (FoxgloveWebsocketLogger.server f) = (Ok ch, v1) ->
  is_BaseModel obj' = true ->
  class_name obj' = class_name obj ->
  to_ns stamp' = Ok ns' ->
  let first := FoxgloveWebsocketLogger.handle lv (topic_name, stamp, obj) f in
  let second := FoxgloveWebsocketLogger.handle lv (topic_name, stamp', obj') (snd first) in
  FoxgloveWebsocketLogger.server_calls (snd first)
  = FoxgloveWebsocketLogger.server_calls f
    ++ [CallAddChannel {| spec_topic := topic_name; spec_encoding := "json";
                          spec_schemaName := class_name obj;
                          spec_schema := model_schema obj |};
        CallSendMessage ch ns (ModelJson (model_json obj))]
  /\ FoxgloveWebsocketLogger.topic_to_registration (snd first)
     = <[topic_name := {| name := class_name obj; channel_id := ch |}]>
         (FoxgloveWebsocketLogger.topic_to_registration f)
  /\ FoxgloveWebsocketLogger.server_calls (snd second)
     = FoxgloveWebsocketLogger.server_calls (snd first)
       ++ [CallSendMessage ch ns' (ModelJson (model_json obj'))]
  /\ FoxgloveWebsocketLogger.topic_to_registration (snd second)
     = FoxgloveWebsocketLogger.topic_to_registration (snd first).
Proof.
  intros Ht Hnone Hm Hns Hadd Hm' Hcls Hns' first second.
  assert (Hneq : String.eqb topic_name FOXGLOVE_LOG_TOPIC = false)
    by (by destruct (String.eqb_spec topic_name FOXGLOVE_LOG_TOPIC)).
  set (cached := {| name := class_name obj; channel_id := ch |}).
  set (spec := {| spec_topic := topic_name; spec_encoding := "json";
                  spec_schemaName := class_name obj; spec_schema := model_schema obj |}) in *.
  set (f1 := {| FoxgloveWebsocketLogger.logger :=
                  FoxgloveWebsocketLogger.logger f
                  ++ [ConsoleRegistered ch topic_name (class_name obj)];
                FoxgloveWebsocketLogger.server := v1;
                FoxgloveWebsocketLogger.server_calls :=
                  FoxgloveWebsocketLogger.server_calls f ++ [CallAddChannel spec];
                FoxgloveWebsocketLogger.topic_to_registration :=
                  <[topic_name := cached]> (FoxgloveWebsocketLogger.topic_to_registration f);
                FoxgloveWebsocketLogger.registration_log :=
                  FoxgloveWebsocketLogger.registration_log f |}).
  assert (Hreg : FoxgloveWebsocketLogger.register topic_name (class_name obj)
                   (model_schema obj) f = (Ok cached, f1)).
  { unfold FoxgloveWebsocketLogger.register. rewrite Hnone.
    unfold bind, FoxgloveWebsocketLogger.on_server. fold spec. rewrite Hadd. done. }
  assert (Hfirst : first
    = FoxgloveWebsocketLogger.on_server
        (CallSendMessage ch ns (ModelJson (model_json obj)))
        (send_message ch ns (ModelJson (model_json obj))) f1).
  { subst first. unfold FoxgloveWebsocketLogger.handle. rewrite Hneq.
    unfold bind at 1. unfold bind at 1. unfold FoxgloveWebsocketLogger.register_class.
    unfold bind at 1. unfold assert. rewrite Hm. cbn [ret]. rewrite Hreg.
    unfold bind, lift. rewrite Hns. done. }
  assert (Hf1 : FoxgloveWebsocketLogger.server_calls (snd first)
                = FoxgloveWebsocketLogger.server_calls f1
                  ++ [CallSendMessage ch ns (ModelJson (model_json obj))]
                /\ FoxgloveWebsocketLogger.topic_to_registration (snd first)
                   = FoxgloveWebsocketLogger.topic_to_registration f1).
  { rewrite Hfirst. unfold FoxgloveWebsocketLogger.on_server.
    by destruct (send_message _ _ _ _). }
  destruct Hf1 as [Hcalls1 Hreg1].
  assert (Hcached : FoxgloveWebsocketLogger.topic_to_registration (snd first) !! topic_name
                    = Some cached).
  { rewrite Hreg1. subst f1. cbn. by rewrite lookup_insert_eq. }
  assert (Hsecond : second
    = FoxgloveWebsocketLogger.on_server
        (CallSendMessage ch ns' (ModelJson (model_json obj')))
        (send_message ch ns' (ModelJson (model_json obj'))) (snd first)).
  { subst second. unfold FoxgloveWebsocketLogger.handle. rewrite Hneq.
    unfold bind at 1. unfold bind at 1. unfold FoxgloveWebsocketLogger.register_class.
    unfold bind at 1. unfold assert. rewrite Hm'. cbn [ret].
    unfold FoxgloveWebsocketLogger.register. rewrite Hcached.
    unfold bind at 1. unfold assert. cbn [name cached]. rewrite Hcls, String.eqb_refl.
    cbn [ret]. unfold bind, lift. rewrite Hns'. done. }
  split; [|split; [|split]].
  - rewrite Hcalls1. subst f1. cbn. by rewrite <- app_assoc.
  - rewrite Hreg1. done.
  - rewrite Hsecond. unfold FoxgloveWebsocketLogger.on_server.
    clear Hfirst Hsecond. by destruct (send_message _ _ _ _).
  - rewrite Hsecond. unfold FoxgloveWebsocketLogger.on_server.
    clear Hfirst Hsecond. by destruct (send_message _ _ _ _).
Qed.

End PublishPaths.

Section PublishRuns.

Import Recording.

Lemma module_publish_reaches_both_sinks_witness :
  exists l' mcap',
    mcaplog.publish Demo.one_and_a_half "/pose" Demo.pose None Samples.running
    = (Ok tt, {| __logger := Some l'; released := [] |})
    /\ Logger._pylog l' = []
    /\ Logger._mcap_log l' = Some mcap'
    /\ MCAPLogger.writer_calls mcap'
       = MCAPLogger.writer_calls Demo.mcap_with_pose
         ++ [CallAddMessage 2 1500000000 (ModelJson "{x: 1.0}") 1500000000]
    /\ FoxgloveWebsocketLogger._input_queue (Logger._foxglove_log l')
       = [("/pose", Demo.one_and_a_half, Demo.pose)].
Proof.
  destruct (FoxgloveWebsocketLogger.thread (Logger._foxglove_log Demo.logger))
    as [|f|fr] eqn:Hth; [discriminate| |discriminate].
  exact (module_publish_reaches_both_sinks Samples.running Demo.logger f Demo.mcap_with_pose
           {| name := "Pose"; channel_id := 2 |} Demo.one_and_a_half "/pose" Demo.pose
           1500000000 _ eq_refl Hth eq_refl eq_refl eq_refl eq_refl eq_refl eq_refl).
Defined.

Lemma worker_registers_once_witness :
  exists f,
    FoxgloveWebsocketLogger.thread Demo.sink = FoxgloveWebsocketLogger.Running f
    /\ let first := FoxgloveWebsocketLogger.handle INFO ("/pose", Float.one, Demo.pose) f in
       let second :=
         FoxgloveWebsocketLogger.handle INFO ("/pose", Demo.one_and_a_half, Demo.pose)
           (snd first) in
       FoxgloveWebsocketLogger.server_calls (snd first)
       = FoxgloveWebsocketLogger.server_calls f
         ++ [CallAddChannel {| spec_topic := "/pose"; spec_encoding := "json";
                               spec_schemaName := "Pose"; spec_schema := "{title: Pose}" |};
             CallSendMessage 1 1000000000 (ModelJson "{x: 1.0}")]
       /\ FoxgloveWebsocketLogger.server_calls (snd second)
          = FoxgloveWebsocketLogger.server_calls (snd first)
            ++ [CallSendMessage 1 1500000000 (ModelJson "{x: 1.0}")].
Proof.
  destruct (FoxgloveWebsocketLogger.thread Demo.sink) as [|f|fr] eqn:Hth;
    [discriminate| |discriminate].
  exists f. split; [reflexivity|].
  assert (Hnone : FoxgloveWebsocketLogger.topic_to_registration f !! "/pose" = None)
    by (injection Hth as <-; vm_compute; reflexivity).
  assert (Hadd : add_channel {| spec_topic := "/pose"; spec_encoding := "json";
                                spec_schemaName := class_name Demo.pose;
                                spec_schema := model_schema Demo.pose |}
                   (FoxgloveWebsocketLogger.server f)
                 = (Ok 1, snd (add_channel
                                 {| spec_topic := "/pose"; spec_encoding := "json";
                                    spec_schemaName := class_name Demo.pose;
                                    spec_schema := model_schema Demo.pose |}
                                 (FoxgloveWebsocketLogger.server f))))
    by (injection Hth as <-; vm_compute; reflexivity).
  assert (Hne : "/pose" <> FOXGLOVE_LOG_TOPIC) by discriminate.
  destruct (worker_registers_once INFO f "/pose" Demo.pose Float.one 1000000000
              1 _ Demo.pose Demo.one_and_a_half 1500000000
              Hne Hnone eq_refl eq_refl Hadd eq_refl eq_refl eq_refl)
    as (Hfirst & _ & Hsecond & _).
  split; [exact Hfirst | exact Hsecond].
Defined.

End PublishRuns.
